(** * pytics profiler: a shallow embedding of [src/pytics/profiler.py]

    The development embeds the statistical summarisation and comparison
    pipeline of the profiler: the helper functions
    [_calculate_overview_stats], [_analyze_variable],
    [_create_summary_plots], [_analyze_duplicates], [_prepare_json_data]
    and the two entry points [profile] and [compare].

    Modelling conventions.
    - A DataFrame is an index (integer row labels) and an ordered list of
      columns, each with a string label, a dtype and, for a categorical
      column, its declared categories; a cell is [None] when pandas'
      [isna] holds for it.  Present cells are compared by kind and
      content; Python's identification of [1], [1.0] and [True] inside an
      object column is not represented.
    - Python-level faults are results of an error monad: the program's own
      [raise DataSizeError], [ZeroDivisionError] of the built-in [/] on
      plain integers, [KeyError] of a failed label lookup, and the
      [ValueError]s of [DataFrame.describe] on an empty column selection
      and of [px.bar] on an empty frequency table.
    - A true division with a NumPy scalar on the left never raises: it
      yields [NaN] or an infinity when the divisor is zero.  A finite
      quotient is carried as the exact rational; its rounding to binary64
      and to two decimals is not represented.
    - What the source leaves to the libraries is a parameter of the
      embedding, the class [Library]: the order pandas' sort gives to equal
      counts, the text of a float or of a time stamp, and whether the
      density estimate and the mutual-information routine accept their
      input.  The class states what is known of them, and every property
      below holds for every such library.
    - Values computed inside the numerical libraries (describe statistics,
      Pearson correlation, mutual information, histogram and density data)
      are carried as descriptions of the call, with its arguments.  The
      same holds for rendering, file output, the [metadata] block (a
      wall-clock time stamp) and memory estimates. *)

From Stdlib Require Import ZArith QArith Qcanon.
From stdpp Require Import base decidable option list strings gmap sorting pretty.

Open Scope nat_scope.

(** ** Python values and faults *)

Inductive exn :=
  | DataSizeError (msg : string)
  | ZeroDivisionError
  | KeyError (key : string)
  | ValueError (msg : string).

Inductive result (A : Type) :=
  | Ok (a : A)
  | Raise (e : exn).
Arguments Ok {A} a.
Arguments Raise {A} e.

Global Instance result_ret : MRet result := λ A a, Ok a.
Global Instance result_bind : MBind result := λ A B f m,
  match m with Ok a => f a | Raise e => Raise e end.
Global Instance result_fmap : FMap result := λ A B f m,
  match m with Ok a => Ok (f a) | Raise e => Raise e end.

(** A binary64 value as far as the program's own arithmetic can tell:
    the three non-finite values, or the exact quotient. *)
Inductive float64v :=
  | NaN
  | PosInf
  | NegInf
  | Fin (q : Q).

(** The two kinds of integer that reach a [/]: the built-in [int]
    ([len(...)], [Series.nunique()]) and the NumPy scalar [numpy.int64]
    (the result of a pandas [.sum()]).  All of them are counts. *)
Inductive pynum :=
  | PyInt (n : nat)
  | NpInt64 (n : nat).

Definition num_val (a : pynum) : nat :=
  match a with PyInt n | NpInt64 n => n end.

(** [a / b] where [b] is a built-in non-negative [int]. *)
Definition truediv (a : pynum) (b : nat) : result float64v :=
  match b, a with
  | O, PyInt _ => Raise ZeroDivisionError
  | O, NpInt64 O => Ok NaN
  | O, NpInt64 (S _) => Ok PosInf
  | S _, _ => Ok (Fin (Z.of_nat (num_val a) # Pos.of_nat b))
  end.

(** [x * 100] on a float. *)
Definition times100 (x : float64v) : float64v :=
  match x with
  | Fin q => Fin (q * 100)%Q
  | other => other
  end.

(** [(a / b) * 100] *)
Definition pct (a : pynum) (b : nat) : result float64v :=
  x ← truediv a b; mret (times100 x).

(** An f-string field [f"{x:.2f}"].  The text of a non-finite value is
    fixed by the language; the digits of a finite one are left to the
    formatter. *)
Inductive fstr := Fmt2f (x : float64v).

Definition fstr_text (s : fstr) : option string :=
  match s with
  | Fmt2f NaN => Some "nan"
  | Fmt2f PosInf => Some "inf"
  | Fmt2f NegInf => Some "-inf"
  | Fmt2f (Fin _) => None
  end.

(** ** DataFrames *)

Inductive dtype :=
  | int64 | int32 | float64 | float32 | bool_ | object_
  | category | datetime64 | string_.

Global Instance dtype_eq_dec : EqDecision dtype.
Proof. solve_decision. Defined.

(** [str(series.dtype)] *)
Definition dtype_str (d : dtype) : string :=
  match d with
  | int64 => "int64" | int32 => "int32"
  | float64 => "float64" | float32 => "float32"
  | bool_ => "bool" | object_ => "object"
  | category => "category" | datetime64 => "datetime64[ns]"
  | string_ => "string"
  end.

(** [pd.api.types.is_numeric_dtype]: integers, floats and booleans. *)
Definition is_numeric_dtype (d : dtype) : bool :=
  match d with
  | int64 | int32 | float64 | float32 | bool_ => true
  | _ => false
  end.

(** [dtype in ['int64', 'float64']] and
    [select_dtypes(include=['int64', 'float64'])]. *)
Definition is_int64_float64 (d : dtype) : bool :=
  bool_decide (dtype_str d ∈ ["int64"; "float64"]).

(** A present cell. *)
Inductive value :=
  | VInt (z : Z)
  | VFloat (q : Qc)
  | VStr (s : string)
  | VBool (b : bool)
  | VTime (t : Z).

Global Instance value_eq_dec : EqDecision value.
Proof. solve_decision. Defined.

Abbreviation cell := (option value).

(** A column.  [categories] are the declared categories
    ([series.cat.categories]) of a column of dtype [category]; other
    columns have none. *)
Record Series := {
  name : string;
  dtype_of : dtype;
  cells : list cell;
  categories : list value
}.

Record DataFrame := {
  index : list Z;
  series_of : list Series
}.

(** [len(df)], [df.columns], [len(df.columns)], [df.size] *)
Definition nrows (df : DataFrame) : nat := length (index df).
Definition columns (df : DataFrame) : list string := name <$> series_of df.
Definition ncols (df : DataFrame) : nat := length (columns df).
Definition df_size (df : DataFrame) : nat := nrows df * ncols df.

(** [df.empty]: some axis has length zero. *)
Definition df_empty (df : DataFrame) : bool :=
  bool_decide (nrows df = 0) || bool_decide (ncols df = 0).

(** A well-formed frame: unique labels, rectangular data. *)
Definition wf_df (df : DataFrame) : Prop :=
  NoDup (columns df) ∧ Forall (λ s, length (cells s) = nrows df) (series_of df).

(** [df[column]] *)
Definition getitem (df : DataFrame) (column : string) : result Series :=
  match list_find (λ s, name s = column) (series_of df) with
  | Some (_, s) => Ok s
  | None => Raise (KeyError column)
  end.

(** [target and ...]: [None] and the empty string are falsy. *)
Definition truthy (target : option string) : bool :=
  match target with
  | Some t => negb (bool_decide (t = ""))
  | None => false
  end.

(** [target and column == target] *)
Definition is_target (target : option string) (column : string) : bool :=
  truthy target && bool_decide (Some column = target).

(** [target and target in df.columns] *)
Definition target_present (df : DataFrame) (target : option string) : bool :=
  truthy target &&
  match target with
  | Some t => bool_decide (t ∈ columns df)
  | None => false
  end.

(** ** Series statistics *)

(** [series.isna().sum()] *)
Definition isna_sum (cs : list cell) : nat :=
  length (filter (λ c, c = None) cs).

(** [series.dropna()] *)
Definition dropna (cs : list cell) : list value := omap id cs.

(** [series.count()]: the non-missing observations. *)
Definition non_missing_count (cs : list cell) : nat := length (dropna cs).

(** [unique()]: the distinct elements in order of first appearance. *)
Definition unique `{EqDecision A} (l : list A) : list A :=
  reverse (remove_dups (reverse l)).

(** [series.nunique()]: [unique()], then the missing marker is removed,
    then [len]. *)
Definition nunique (cs : list cell) : nat :=
  length (dropna (unique cs)).

(** The distinct values among the non-missing observations. *)
Definition distinct_non_missing (cs : list cell) : list value :=
  remove_dups (dropna cs).

(** Number of occurrences of [v] among the present cells. *)
Definition count_value (v : value) (vs : list value) : nat :=
  length (filter (λ w, w = v) vs).

(** Stable insertion into a list ordered by decreasing count. *)
Fixpoint insert_desc {A} (x : A * nat) (l : list (A * nat)) : list (A * nat) :=
  match l with
  | [] => [x]
  | y :: l' => if decide (y.2 ≤ x.2) then x :: l else y :: insert_desc x l'
  end.

Definition sort_desc {A} (l : list (A * nat)) : list (A * nat) :=
  foldr insert_desc [] l.

(** ** The libraries

    What the profiler takes from pandas, SciPy and scikit-learn and the
    source does not fix.
    - [sort_values]: pandas' [sort_values(ascending=False)] on a frequency
      table.  The result is the table by decreasing count; the order among
      equal counts is the sorting routine's.
    - [str_float], [str_timestamp]: [str(x)] of a float and of a time stamp.
    - [plot_kde]: [series.plot.kde(ind=100)] on the non-missing
      observations.  The curve is carried as a description; the function
      says whether the call returns.  With fewer than two observations it
      raises [ValueError].
    - [mutual_info_classif]: likewise for scikit-learn's routine on the
      feature columns and the label column; it raises [ValueError] when a
      feature has a missing cell.
    Neither routine knows the profiler's own [DataSizeError]. *)
Class Library := {
  sort_values : list (value * nat) → list (value * nat);
  sort_values_Permutation l : sort_values l ≡ₚ l;
  sort_values_sorted l : StronglySorted (λ a b, b.2 ≤ a.2) (sort_values l);
  str_float : Qc → string;
  str_timestamp : Z → string;
  plot_kde : list value → result ();
  plot_kde_short x : length x < 2 → ∃ msg, plot_kde x = Raise (ValueError msg);
  plot_kde_foreign x msg : plot_kde x ≠ Raise (DataSizeError msg);
  mutual_info_classif : list (list cell) → list cell → result ();
  mutual_info_classif_missing X y :
    (∃ x, x ∈ X ∧ None ∈ x) → ∃ msg, mutual_info_classif X y = Raise (ValueError msg);
  mutual_info_classif_foreign X y msg :
    mutual_info_classif X y ≠ Raise (DataSizeError msg)
}.

(** [str(value)] of a cell value. *)
Definition str `{Library} (v : value) : string :=
  match v with
  | VInt z => pretty z
  | VFloat q => str_float q
  | VStr s => s
  | VBool b => if b then "True" else "False"
  | VTime t => str_timestamp t
  end.

(** The index of [series.value_counts()] before it is ordered: the
    distinct non-missing values in order of first appearance; for a
    categorical column every declared category, used or not. *)
Definition value_counts_keys (s : Series) : list value :=
  if decide (dtype_of s = category) then unique (categories s ++ dropna (cells s))
  else unique (dropna (cells s)).

(** [series.value_counts()]: the keys with their counts, by decreasing
    count. *)
Definition value_counts `{Library} (s : Series) : list (value * nat) :=
  let vs := dropna (cells s) in
  sort_values ((λ v, (v, count_value v vs)) <$> value_counts_keys s).

(** ** Rows and duplicates *)

Abbreviation row := (list cell).

(** The rows of the frame, in index order. *)
Definition rows (df : DataFrame) : list row :=
  (λ i, (λ s, default None (cells s !! i)) <$> series_of df) <$> seq 0 (nrows df).

(** [duplicated()] with [keep='first']: a row is flagged when an equal row
    (missing cells compare equal) occurs before it. *)
Fixpoint duplicated_from (seen : list row) (rs : list row) : list bool :=
  match rs with
  | [] => []
  | r :: rs' => bool_decide (r ∈ seen) :: duplicated_from (r :: seen) rs'
  end.

Definition duplicated (df : DataFrame) : list bool :=
  if df_empty df then [] else duplicated_from [] (rows df).

(** [df.duplicated().sum()] *)
Definition duplicated_sum (df : DataFrame) : nat :=
  length (filter (λ b, b = true) (duplicated df)).

Definition count_row (r : row) (rs : list row) : nat :=
  length (filter (λ r', r' = r) rs).

(** [df[df.duplicated(keep=False)].index]: labels of every row that has
    an equal row elsewhere in the frame. *)
Definition duplicated_index (df : DataFrame) : list Z :=
  if df_empty df then []
  else omap (λ p : Z * row,
               if decide (1 < count_row p.2 (rows df)) then Some p.1 else None)
            (zip (index df) (rows df)).

(** A row without a missing cell. *)
Definition complete_row (r : row) : bool :=
  forallb (λ c : cell, bool_decide (is_Some c)) r.

(** [df.groupby(list(df.columns)).size()]: the default [dropna=True]
    leaves out every row that has a missing cell in a key column; the
    remaining rows are grouped by equality.  Groups are listed by first
    appearance: the caller reads the counts only, after ordering them. *)
Definition groupby_size (rs : list row) : list (row * nat) :=
  let kept := filter (λ r, complete_row r = true) rs in
  (λ r, (r, count_row r kept)) <$> unique kept.

(** [', '.join(map(str, labels))] *)
Fixpoint join (sep : string) (l : list string) : string :=
  match l with
  | [] => ""
  | [s] => s
  | s :: l' => s +:+ sep +:+ join sep l'
  end.

Record duplicate_sample := {
  dup_count : nat;
  dup_rows : string
}.

Definition _analyze_duplicates (df : DataFrame) : list duplicate_sample :=
  if decide (duplicated_sum df = 0) then []
  else
    let dup_counts := groupby_size (rows df) in
    let dup_counts := sort_desc (filter (λ g, 1 < g.2) dup_counts) in
    (λ g : row * nat,
       {| dup_count := g.2;
          dup_rows := join ", " (pretty <$> take 5 (duplicated_index df)) |})
      <$> take 10 dup_counts.

(** ** Overview statistics *)

(** [df.isna().sum().sum()] *)
Definition missing_cells_of (df : DataFrame) : nat :=
  sum_list ((λ s, isna_sum (cells s)) <$> series_of df).

(** The memory estimates ['memory_usage'] and ['avg_record_size'] are byte
    counts of the in-memory representation; both are NumPy divisions and
    are left out of the record. *)
Record overview_stats := {
  ov_rows : nat;
  ov_columns : nat;
  ov_duplicate_rows : nat;
  ov_duplicate_rows_pct : fstr;
  ov_missing_cells : nat;
  ov_missing_cells_pct : fstr
}.

Definition _calculate_overview_stats (df : DataFrame) : result overview_stats :=
  let total_cells := df_size df in
  let missing_cells := NpInt64 (missing_cells_of df) in
  let duplicate_rows := NpInt64 (duplicated_sum df) in
  duplicate_rows_pct ← pct duplicate_rows (nrows df);
  missing_cells_pct ← pct missing_cells total_cells;
  mret {| ov_rows := nrows df;
          ov_columns := ncols df;
          ov_duplicate_rows := num_val duplicate_rows;
          ov_duplicate_rows_pct := Fmt2f duplicate_rows_pct;
          ov_missing_cells := num_val missing_cells;
          ov_missing_cells_pct := Fmt2f missing_cells_pct |}.

(** ** Column profile *)

(** [series.describe()]: five-number summary, mean and deviation of the
    observations for integer and float columns; pandas describes a boolean
    column as a categorical one (count, unique, top, freq). *)
Inductive description :=
  | NumericDescription (obs : list value)
  | CategoricalDescription (obs : list value).

Definition describe (s : Series) : description :=
  if decide (dtype_of s = bool_) then CategoricalDescription (dropna (cells s))
  else if is_numeric_dtype (dtype_of s) then NumericDescription (dropna (cells s))
  else CategoricalDescription (dropna (cells s)).

(** The ['statistics'] entry: the seven numeric fields, each the formatted
    statistic of the observations when set, and the mode of a
    non-numeric column. *)
Inductive statistics :=
  | StatsNumeric (obs : list value)
  | StatsCategorical (mode : option value).

(** [desc['mean']], ..., [desc['max']] *)
Definition numeric_fields (d : description) : result statistics :=
  match d with
  | NumericDescription obs => Ok (StatsNumeric obs)
  | CategoricalDescription _ => Raise (KeyError "mean")
  end.

(** The data handed to the chart renderer. *)
Inductive plot :=
  | HistogramBox (column : string) (x : list value)
  | BarTop (column : string) (x : list value) (y : list nat)
  | Scatter (x y : string)
  | Box (x y : string)
  | Heatmap (cols : list string)
  | TypesAndMissing
  | TargetHistogramBox (target : string)
  | TargetBar (target : string).

Record figure := {
  fig_plot : plot;
  fig_static : bool
}.

Record var_stats := {
  vs_name : string;
  vs_type : string;
  vs_distinct_count : nat;
  vs_distinct_pct : fstr;
  vs_missing_count : nat;
  vs_missing_pct : fstr;
  vs_statistics : statistics;
  vs_distribution_plot : figure;
  vs_target_plot : option figure
}.

(** [px.bar(x=..., y=...)] on two sequences, for the figure [fig]: plotly
    express takes two empty sequences for two lists of column references
    and refuses the pair. *)
Definition px_bar {A} (x : list value) (y : list nat) (fig : A) : result A :=
  match x, y with
  | [], [] =>
      Raise (ValueError
        "Cannot accept list of column references or list of columns for both `x` and `y`.")
  | _, _ => Ok fig
  end.

(** [df[target].dtype in ['int64', 'float64']] *)
Definition target_is_int64_float64 (df : DataFrame) (target : option string)
  : result bool :=
  s ← getitem df (default "" target); mret (is_int64_float64 (dtype_of s)).

Definition _analyze_variable `{Library} (df : DataFrame) (column : string)
    (target : option string) (return_static : bool) : result var_stats :=
  series ← getitem df column;
  let total_count := length (cells series) in
  let missing_count := NpInt64 (isna_sum (cells series)) in
  let distinct_count := PyInt (nunique (cells series)) in
  distinct_pct ← pct distinct_count total_count;
  missing_pct ← pct missing_count total_count;
  let base stats dplot tplot :=
    {| vs_name := column;
       vs_type := dtype_str (dtype_of series);
       vs_distinct_count := num_val distinct_count;
       vs_distinct_pct := Fmt2f distinct_pct;
       vs_missing_count := num_val missing_count;
       vs_missing_pct := Fmt2f missing_pct;
       vs_statistics := stats;
       vs_distribution_plot := {| fig_plot := dplot; fig_static := return_static |};
       vs_target_plot :=
         (λ p, {| fig_plot := p; fig_static := return_static |}) <$> tplot |} in
  if is_numeric_dtype (dtype_of series) then
    stats ← numeric_fields (describe series);
    let dplot := HistogramBox column (dropna (cells series)) in
    if target_present df target then
      numeric_target ← target_is_int64_float64 df target;
      let t := default "" target in
      mret (base stats dplot
              (Some (if numeric_target : bool then Scatter column t else Box column t)))
    else mret (base stats dplot None)
  else
    let vc := value_counts series in
    let stats := StatsCategorical (head (vc.*1)) in
    dplot ← px_bar (take 20 (vc.*1)) (take 20 (vc.*2))
                   (BarTop column (take 20 (vc.*1)) (take 20 (vc.*2)));
    if target_present df target then
      numeric_target ← target_is_int64_float64 df target;
      mret (base stats dplot
              (if numeric_target : bool then Some (Box column (default "" target))
               else None))
    else mret (base stats dplot None).

(** ** Summary plots *)

(** [df.select_dtypes(include=['int64', 'float64']).columns] *)
Definition numeric_cols (df : DataFrame) : list string :=
  name <$> filter (λ s, is_int64_float64 (dtype_of s) = true) (series_of df).

(** An absent plot (the empty string of the source) is [None]. *)
Record summary_plots := {
  sp_types_and_missing : figure;
  sp_correlations : option figure;
  sp_target_distribution : option figure
}.

Definition _create_summary_plots `{Library} (df : DataFrame) (target : option string)
    (return_static : bool) : result summary_plots :=
  let mk p := {| fig_plot := p; fig_static := return_static |} in
  let correlations_plot :=
    if decide (1 < length (numeric_cols df))
    then Some (mk (Heatmap (numeric_cols df))) else None in
  target_plot ←
    (if target_present df target then
       let t := default "" target in
       target_series ← getitem df t;
       if is_int64_float64 (dtype_of target_series) then
         mret (Some (mk (TargetHistogramBox t)))
       else
         let counts := value_counts target_series in
         fig3 ← px_bar (counts.*1) (counts.*2) (TargetBar t);
         mret (Some (mk fig3))
     else mret None);
  mret {| sp_types_and_missing := mk TypesAndMissing;
          sp_correlations := correlations_plot;
          sp_target_distribution := target_plot |}.

(** ** Structured export *)

(** A float computed by a numerical library, described by the call. *)
Inductive libvalue :=
  | PearsonOrNull (x y : list cell)
  | AbsCorrOrZero (x y : list cell)
  | MutualInfo (features : list (list cell)) (labels : list cell) (i : nat).

Record json_variable := {
  jv_type : string;
  jv_distinct_count : nat;
  jv_distinct_pct : fstr;
  jv_missing_count : nat;
  jv_missing_pct : fstr;
  jv_statistics : statistics
}.

Record json_missing_values := {
  total_missing : nat;
  missing_percentage : float64v;
  variables_with_missing : nat
}.

Record json_duplicates := {
  total_duplicates : nat;
  duplicate_percentage : float64v
}.

Record json_target_analysis := {
  target_name : string;
  target_type : string;
  feature_importance : list (string * libvalue)
}.

Record json_data := {
  jd_shape_rows : nat;
  jd_shape_columns : nat;
  jd_n_vars : nat;
  jd_n_obs : nat;
  jd_variables : list (string * json_variable);
  jd_correlations : option (list (string * list (string * libvalue)));
  jd_missing_values : option json_missing_values;
  jd_duplicates : option json_duplicates;
  jd_target_analysis : option json_target_analysis
}.

(** [not sections]: unset or empty. *)
Definition not_ (sections : option (list string)) : bool :=
  match sections with
  | None | Some [] => true
  | Some (_ :: _) => false
  end.

Definition in_ (s : string) (sections : option (list string)) : bool :=
  bool_decide (s ∈ default [] sections).

(** [(not include_sections or s in include_sections) and
     (not exclude_sections or s not in exclude_sections)] *)
Definition section_requested (s : string)
    (include_sections exclude_sections : option (list string)) : bool :=
  (not_ include_sections || in_ s include_sections)
  && (not_ exclude_sections || negb (in_ s exclude_sections)).

(** The columns the per-column loop visits: all but the target. *)
Definition profiled_columns (df : DataFrame) (target : option string) : list string :=
  filter (λ column, is_target target column = false) (columns df).

(** [df[numeric_cols].corr()], entry by entry. *)
Definition corr_matrix (df : DataFrame) : list (string * list (string * libvalue)) :=
  let num := filter (λ s, is_int64_float64 (dtype_of s) = true) (series_of df) in
  (λ s1, (name s1, (λ s2, (name s2, PearsonOrNull (cells s1) (cells s2))) <$> num))
    <$> num.

(** [df.isna().any().sum()] *)
Definition columns_with_missing (df : DataFrame) : nat :=
  length (filter (λ s, 0 < isna_sum (cells s)) (series_of df)).

(** The block under [if target and target in df.columns:] of the export,
    for the target [t]. *)
Definition target_analysis_block `{Library} (df : DataFrame) (t : string)
  : result json_target_analysis :=
  target_series ← getitem df t;
  feature_importance ←
    (if is_numeric_dtype (dtype_of target_series) then
       mret ((λ s, (name s, AbsCorrOrZero (cells s) (cells target_series)))
               <$> filter (λ s, name s ≠ t ∧ is_numeric_dtype (dtype_of s) = true)
                          (series_of df))
     else
       let num := filter (λ s, is_int64_float64 (dtype_of s) = true) (series_of df) in
       if decide (0 < length num) then
         mutual_info_classif (cells <$> num) (cells target_series);;
         mret (imap (λ i s, (name s, MutualInfo (cells <$> num) (cells target_series) i))
                    num)
       else mret []);
  mret {| target_name := t;
          target_type := dtype_str (dtype_of target_series);
          feature_importance := feature_importance |}.

Definition _prepare_json_data `{Library} (df : DataFrame) (target : option string)
    (include_sections exclude_sections : option (list string)) : result json_data :=
  variables ←
    mapM (λ column,
            var_data ← _analyze_variable df column target false;
            mret (column,
                  {| jv_type := vs_type var_data;
                     jv_distinct_count := vs_distinct_count var_data;
                     jv_distinct_pct := vs_distinct_pct var_data;
                     jv_missing_count := vs_missing_count var_data;
                     jv_missing_pct := vs_missing_pct var_data;
                     jv_statistics := vs_statistics var_data |}))
         (profiled_columns df target);
  let correlations :=
    if section_requested "correlations" include_sections exclude_sections then
      if decide (1 < length (numeric_cols df)) then Some (corr_matrix df) else None
    else None in
  missing_values ←
    (if section_requested "missing_values" include_sections exclude_sections then
       let total_missing := NpInt64 (missing_cells_of df) in
       p ← pct total_missing (df_size df);
       mret (Some {| total_missing := num_val total_missing;
                     missing_percentage := p;
                     variables_with_missing := columns_with_missing df |})
     else mret None);
  duplicates ←
    (if section_requested "duplicates" include_sections exclude_sections then
       let duplicates := NpInt64 (duplicated_sum df) in
       p ← pct duplicates (nrows df);
       mret (Some {| total_duplicates := num_val duplicates;
                     duplicate_percentage := p |})
     else mret None);
  target_analysis ←
    (if target_present df target then
       Some <$> target_analysis_block df (default "" target)
     else mret None);
  mret {| jd_shape_rows := nrows df;
          jd_shape_columns := ncols df;
          jd_n_vars := ncols df;
          jd_n_obs := nrows df;
          jd_variables := variables;
          jd_correlations := correlations;
          jd_missing_values := missing_values;
          jd_duplicates := duplicates;
          jd_target_analysis := target_analysis |}.

(** ** The report entry point *)

Definition MAX_ROWS : Z := 1000000.
Definition MAX_COLS : Z := 1000.

Inductive output_format := html | pdf | json.

Global Instance output_format_eq_dec : EqDecision output_format.
Proof. solve_decision. Defined.

(** [df.describe(include=...)]: pandas concatenates the per-column
    descriptions and raises when the selection has no column. *)
Definition describe_include (df : DataFrame) (sel : dtype → bool) : result (list string) :=
  if decide (ncols df = 0) then
    Raise (ValueError "Cannot describe a DataFrame without columns")
  else
    match filter (λ s, sel (dtype_of s) = true) (series_of df) with
    | [] => Raise (ValueError "No objects to concatenate")
    | sel => Ok (name <$> sel)
    end.

(** [np.number] *)
Definition is_np_number (d : dtype) : bool :=
  match d with int64 | int32 | float64 | float32 => true | _ => false end.

Definition count_dtypes (df : DataFrame) (sel : dtype → bool) : nat :=
  length (filter (λ s, sel (dtype_of s) = true) (series_of df)).

(** A NumPy [.round(2)] of a float. *)
Inductive rounded := Round2 (x : float64v).

Record context := {
  ctx_overview : overview_stats;
  ctx_variables : list (string * var_stats);
  ctx_summary_plots : summary_plots;
  ctx_duplicate_samples : list duplicate_sample;
  ctx_describe_num : list string;
  ctx_describe_obj : list string;
  ctx_is_pdf_output : bool;
  ctx_n_vars : nat;
  ctx_n_obs : nat;
  ctx_n_missing : nat;
  ctx_missing_percent : rounded;
  ctx_n_duplicates : nat;
  ctx_duplicates_percent : rounded;
  ctx_n_numeric : nat;
  ctx_n_categorical : nat;
  ctx_n_boolean : nat;
  ctx_n_date : nat;
  ctx_n_text : nat
}.

Inductive report :=
  | JsonReport (data : json_data)
  | HtmlReport (ctx : context).

Definition profile `{Library} (df : DataFrame) (target : option string)
    (fmt : output_format) (include_sections exclude_sections : option (list string))
  : result report :=
  if decide (MAX_ROWS < Z.of_nat (nrows df))%Z then
    Raise (DataSizeError "DataFrame exceeds 1000000 rows limit")
  else if decide (MAX_COLS < Z.of_nat (ncols df))%Z then
    Raise (DataSizeError "DataFrame exceeds 1000 columns limit")
  else
    match fmt with
    | json =>
        JsonReport <$> _prepare_json_data df target include_sections exclude_sections
    | _ =>
        let return_static := bool_decide (fmt = pdf) in
        overview_stats ← _calculate_overview_stats df;
        variables_list ←
          mapM (λ column, _analyze_variable df column target return_static)
               (profiled_columns df target);
        let variables := (λ var, (vs_name var, var)) <$> variables_list in
        summary_plots ← _create_summary_plots df target return_static;
        let duplicate_samples := _analyze_duplicates df in
        describe_num ← describe_include df is_np_number;
        describe_obj ←
          describe_include df (λ d, bool_decide (d ∈ [object_; category; bool_]));
        let total_missing := NpInt64 (missing_cells_of df) in
        let n_duplicates := NpInt64 (duplicated_sum df) in
        missing_percent ← pct total_missing (nrows df * ncols df);
        duplicates_percent ← pct n_duplicates (nrows df);
        mret (HtmlReport
          {| ctx_overview := overview_stats;
             ctx_variables := variables;
             ctx_summary_plots := summary_plots;
             ctx_duplicate_samples := duplicate_samples;
             ctx_describe_num := describe_num;
             ctx_describe_obj := describe_obj;
             ctx_is_pdf_output := return_static;
             ctx_n_vars := ncols df;
             ctx_n_obs := nrows df;
             ctx_n_missing := num_val total_missing;
             ctx_missing_percent := Round2 missing_percent;
             ctx_n_duplicates := num_val n_duplicates;
             ctx_duplicates_percent := Round2 duplicates_percent;
             ctx_n_numeric := count_dtypes df is_int64_float64;
             ctx_n_categorical :=
               count_dtypes df (λ d, bool_decide (d ∈ [object_; category]));
             ctx_n_boolean := count_dtypes df (λ d, bool_decide (d = bool_));
             ctx_n_date := count_dtypes df (λ d, bool_decide (d = datetime64));
             ctx_n_text := count_dtypes df (λ d, bool_decide (d = string_)) |})
    end.

(** ** Comparison of two frames *)

(** [sorted(list(s))] on a set of labels: ascending, by code point. *)
Definition sorted (s : gset string) : list string :=
  merge_sort String.le (elements s).

(** [set(df.columns)] *)
Definition column_set (df : DataFrame) : gset string := list_to_set (columns df).

Definition columns_only_in_df1 (df1 df2 : DataFrame) : list string :=
  sorted (column_set df1 ∖ column_set df2).
Definition columns_only_in_df2 (df1 df2 : DataFrame) : list string :=
  sorted (column_set df2 ∖ column_set df1).
Definition common_columns (df1 df2 : DataFrame) : list string :=
  sorted (column_set df1 ∩ column_set df2).

Record top_value := {
  tv_value : string;
  tv_count : nat;
  tv_percentage : fstr
}.

(** The part of ['stats'] that depends on the column kind. *)
Inductive kind_stats :=
  | NumericStats (desc1 desc2 : description)
  | CategoricalStats (top_values_df1 top_values_df2 : list top_value).

Record comparison_stats := {
  cs_count : nat * nat;
  cs_missing_count : nat * nat;
  cs_missing_percent : fstr * fstr;
  cs_unique_count : nat * nat;
  cs_unique_percent : fstr * fstr;
  cs_kind : kind_stats
}.

(** Histogram over [n_bins + 1] shared edges and the two density curves
    (100 points each) are described by their inputs; the frequency tables
    of the categorical case are the two [dict]s. *)
Inductive distribution_data :=
  | DistNumeric (n_bins : nat) (x1 x2 : list value)
  | DistCategorical (value_counts_df1 value_counts_df2 : list (string * nat)).

Record column_comparison := {
  cc_stats : comparison_stats;
  cc_distribution_data : distribution_data
}.

Record comparison := {
  cmp_columns_only_in_df1 : list string;
  cmp_columns_only_in_df2 : list string;
  cmp_common_columns : list string;
  cmp_dtype_differences : list (string * (string * string));
  cmp_variable_comparison : list (string * column_comparison)
}.

(** [value_counts.head(5).items()] with the share of each value. *)
Definition top_values `{Library} (vc : list (value * nat)) (total_count : nat)
  : result (list top_value) :=
  mapM (λ p : value * nat,
          x ← pct (PyInt p.2) total_count;
          mret {| tv_value := str p.1; tv_count := p.2; tv_percentage := Fmt2f x |})
       (take 5 vc).

(** A [dict] as the list of its items in insertion order.  [d[k] = v]: a
    new key goes to the end, a known key keeps its place and takes the new
    value. *)
Fixpoint dict_set {V} (k : string) (v : V) (d : list (string * V)) : list (string * V) :=
  match d with
  | [] => [(k, v)]
  | (k', v') :: d' =>
      if decide (k' = k) then (k, v) :: d' else (k', v') :: dict_set k v d'
  end.

(** [{str(k): int(v) for k, v in value_counts.items()}]: values that print
    alike share one key. *)
Definition dict_of_items `{Library} (items : list (value * nat)) : list (string * nat) :=
  foldl (λ d kv, dict_set (str kv.1) kv.2 d) [] items.

(** The body of the loop over the common columns: the entry of
    ['variable_comparison'] for [col]. *)
Definition compare_column `{Library} (df1 df2 : DataFrame) (n_bins : nat) (col : string)
  : result (string * column_comparison) :=
  series1 ← getitem df1 col;
  series2 ← getitem df2 col;
  let total_count1 := length (cells series1) in
  let total_count2 := length (cells series2) in
  let missing_count1 := NpInt64 (isna_sum (cells series1)) in
  let missing_count2 := NpInt64 (isna_sum (cells series2)) in
  let unique_count1 := PyInt (nunique (cells series1)) in
  let unique_count2 := PyInt (nunique (cells series2)) in
  missing_percent1 ← pct missing_count1 total_count1;
  missing_percent2 ← pct missing_count2 total_count2;
  unique_percent1 ← pct unique_count1 total_count1;
  unique_percent2 ← pct unique_count2 total_count2;
  let stats kind :=
    {| cs_count := (total_count1, total_count2);
       cs_missing_count := (num_val missing_count1, num_val missing_count2);
       cs_missing_percent := (Fmt2f missing_percent1, Fmt2f missing_percent2);
       cs_unique_count := (num_val unique_count1, num_val unique_count2);
       cs_unique_percent := (Fmt2f unique_percent1, Fmt2f unique_percent2);
       cs_kind := kind |} in
  if is_int64_float64 (dtype_of series1) && is_int64_float64 (dtype_of series2) then
    plot_kde (dropna (cells series1));;
    plot_kde (dropna (cells series2));;
    mret (col,
          {| cc_stats := stats (NumericStats (describe series1) (describe series2));
             cc_distribution_data :=
               DistNumeric n_bins (dropna (cells series1)) (dropna (cells series2)) |})
  else
    let value_counts1 := value_counts series1 in
    let value_counts2 := value_counts series2 in
    top1 ← top_values value_counts1 total_count1;
    top2 ← top_values value_counts2 total_count2;
    mret (col,
          {| cc_stats := stats (CategoricalStats top1 top2);
             cc_distribution_data :=
               DistCategorical (dict_of_items value_counts1)
                               (dict_of_items value_counts2) |}).

(** The body of the dtype loop: the entry of ['dtype_differences'] for
    [col], if the two dtype names differ. *)
Definition dtype_difference (df1 df2 : DataFrame) (col : string)
  : result (option (string * (string * string))) :=
  series1 ← getitem df1 col;
  series2 ← getitem df2 col;
  let dtype1 := dtype_str (dtype_of series1) in
  let dtype2 := dtype_str (dtype_of series2) in
  mret (if decide (dtype1 ≠ dtype2) then Some (col, (dtype1, dtype2)) else None).

Definition compare `{Library} (df1 df2 : DataFrame) (n_bins : nat) : result comparison :=
  let only1 := columns_only_in_df1 df1 df2 in
  let only2 := columns_only_in_df2 df1 df2 in
  let common := common_columns df1 df2 in
  dtype_differences ← mapM (dtype_difference df1 df2) common;
  variable_comparison ← mapM (compare_column df1 df2 n_bins) common;
  mret {| cmp_columns_only_in_df1 := only1;
          cmp_columns_only_in_df2 := only2;
          cmp_common_columns := common;
          cmp_dtype_differences := omap id dtype_differences;
          cmp_variable_comparison := variable_comparison |}.

(** ** Sample data *)

Definition float_cell (z : Z) : cell := Some (VFloat (Q2Qc (inject_Z z))).
Definition int_cell (z : Z) : cell := Some (VInt z).
Definition str_cell (s : string) : cell := Some (VStr s).

(** Three columns, four rows; [age] has one missing cell. *)
Definition people : DataFrame :=
  {| index := [0; 1; 2; 3]%Z;
     series_of :=
       [ {| name := "age"; dtype_of := float64;
            cells := [float_cell 25; float_cell 30; None; float_cell 40];
            categories := [] |};
         {| name := "city"; dtype_of := object_;
            cells := str_cell <$> ["NY"; "LA"; "NY"; "SF"];
            categories := [] |};
         {| name := "target"; dtype_of := int64;
            cells := int_cell <$> [1; 0; 1; 1]%Z;
            categories := [] |} ] |}.

(** Ten rows; rows 0 and 1 are equal and have no missing cell. *)
Definition dup_pair : DataFrame :=
  {| index := [0; 1; 2; 3; 4; 5; 6; 7; 8; 9]%Z;
     series_of :=
       [ {| name := "k"; dtype_of := object_;
            cells := str_cell <$> ["x"; "x"; "a"; "b"; "c"; "d"; "e"; "f"; "g"; "h"];
            categories := [] |};
         {| name := "v"; dtype_of := float64;
            cells := float_cell <$> [9; 9; 1; 2; 3; 4; 5; 6; 7; 8]%Z;
            categories := [] |} ] |}.

(** Ten rows; rows 0 and 1 are equal and share a missing cell. *)
Definition dup_pair_nan : DataFrame :=
  {| index := [0; 1; 2; 3; 4; 5; 6; 7; 8; 9]%Z;
     series_of :=
       [ {| name := "k"; dtype_of := object_;
            cells := str_cell <$> ["x"; "x"; "a"; "b"; "c"; "d"; "e"; "f"; "g"; "h"];
            categories := [] |};
         {| name := "v"; dtype_of := float64;
            cells := None :: None :: (float_cell <$> [1; 2; 3; 4; 5; 6; 7; 8]%Z);
            categories := [] |} ] |}.

(** One column, no row. *)
Definition no_rows : DataFrame :=
  {| index := [];
     series_of :=
       [ {| name := "a"; dtype_of := object_; cells := []; categories := [] |} ] |}.

(** Two frames that share [id] and [score]. *)
Definition frame_a : DataFrame :=
  {| index := [0; 1]%Z;
     series_of :=
       [ {| name := "id"; dtype_of := int64; cells := [int_cell 1; int_cell 2];
            categories := [] |};
         {| name := "score"; dtype_of := float64; cells := [float_cell 3; None];
            categories := [] |};
         {| name := "region"; dtype_of := object_;
            cells := [str_cell "N"; str_cell "S"];
            categories := [] |} ] |}.

Definition frame_b : DataFrame :=
  {| index := [0; 1; 2]%Z;
     series_of :=
       [ {| name := "score"; dtype_of := object_; cells := [None; None; None];
            categories := [] |};
         {| name := "flag"; dtype_of := bool_;
            cells := [Some (VBool true); Some (VBool false); Some (VBool true)];
            categories := [] |};
         {| name := "id"; dtype_of := int64;
            cells := [int_cell 2; int_cell 2; int_cell 5];
            categories := [] |} ] |}.

(** The default index [0, 1, ..., n - 1]. *)
Definition range_index (n : nat) : list Z := Z.of_nat <$> seq 0 n.

(** One integer column of [n] equal cells. *)
Definition tall (n : nat) : DataFrame :=
  {| index := range_index n;
     series_of :=
       [ {| name := "x"; dtype_of := int64; cells := replicate n (int_cell 7);
            categories := [] |} ] |}.

(** [n] empty integer columns. *)
Definition wide (n : nat) : DataFrame :=
  {| index := [];
     series_of :=
       (λ i, {| name := pretty i; dtype_of := int64; cells := []; categories := [] |})
         <$> seq 0 n |}.

(** A categorical column with an unused category, all cells missing, next
    to a numeric column with one observation. *)
Definition sizes : DataFrame :=
  {| index := [0; 1]%Z;
     series_of :=
       [ {| name := "size"; dtype_of := category; cells := [None; None];
            categories := [VStr "S"; VStr "M"] |};
         {| name := "weight"; dtype_of := float64; cells := [float_cell 3; None];
            categories := [] |};
         {| name := "note"; dtype_of := object_; cells := [None; None];
            categories := [] |} ] |}.

(** A numeric column without an observation. *)
Definition unweighed : DataFrame :=
  {| index := [0; 1]%Z;
     series_of :=
       [ {| name := "weight"; dtype_of := float64; cells := [None; None];
            categories := [] |} ] |}.

(** ** Faults the statistics can raise *)

(** The statistics never raise the size error. *)
Definition no_size_error {A} (m : result A) : Prop :=
  ∀ msg, m ≠ Raise (DataSizeError msg).

(** ** Rendering mode of the figures *)

(** The same figure, rendered as a static image ([true]) or as an
    interactive chart ([false]). *)
Definition figure_static (b : bool) (f : figure) : figure :=
  {| fig_plot := fig_plot f; fig_static := b |}.

Definition var_stats_static (b : bool) (vs : var_stats) : var_stats :=
  {| vs_name := vs_name vs;
     vs_type := vs_type vs;
     vs_distinct_count := vs_distinct_count vs;
     vs_distinct_pct := vs_distinct_pct vs;
     vs_missing_count := vs_missing_count vs;
     vs_missing_pct := vs_missing_pct vs;
     vs_statistics := vs_statistics vs;
     vs_distribution_plot := figure_static b (vs_distribution_plot vs);
     vs_target_plot := figure_static b <$> vs_target_plot vs |}.

Definition summary_plots_static (b : bool) (sp : summary_plots) : summary_plots :=
  {| sp_types_and_missing := figure_static b (sp_types_and_missing sp);
     sp_correlations := figure_static b <$> sp_correlations sp;
     sp_target_distribution := figure_static b <$> sp_target_distribution sp |}.

(** A report with every figure in the given rendering mode; the numbers
    and tables are untouched. *)
Definition report_static (b : bool) (r : report) : report :=
  match r with
  | JsonReport d => JsonReport d
  | HtmlReport ctx =>
      HtmlReport
        {| ctx_overview := ctx_overview ctx;
           ctx_variables := prod_map id (var_stats_static b) <$> ctx_variables ctx;
           ctx_summary_plots := summary_plots_static b (ctx_summary_plots ctx);
           ctx_duplicate_samples := ctx_duplicate_samples ctx;
           ctx_describe_num := ctx_describe_num ctx;
           ctx_describe_obj := ctx_describe_obj ctx;
           ctx_is_pdf_output := b;
           ctx_n_vars := ctx_n_vars ctx;
           ctx_n_obs := ctx_n_obs ctx;
           ctx_n_missing := ctx_n_missing ctx;
           ctx_missing_percent := ctx_missing_percent ctx;
           ctx_n_duplicates := ctx_n_duplicates ctx;
           ctx_duplicates_percent := ctx_duplicates_percent ctx;
           ctx_n_numeric := ctx_n_numeric ctx;
           ctx_n_categorical := ctx_n_categorical ctx;
           ctx_n_boolean := ctx_n_boolean ctx;
           ctx_n_date := ctx_n_date ctx;
           ctx_n_text := ctx_n_text ctx |}
  end.

(** ** Mirror image of a comparison *)

(** The comparison with the roles of the first and the second frame
    exchanged: every pair and every two-sided table swapped. *)
Definition mirror_kind (k : kind_stats) : kind_stats :=
  match k with
  | NumericStats desc1 desc2 => NumericStats desc2 desc1
  | CategoricalStats top1 top2 => CategoricalStats top2 top1
  end.

Definition mirror_stats (s : comparison_stats) : comparison_stats :=
  {| cs_count := prod_swap (cs_count s);
     cs_missing_count := prod_swap (cs_missing_count s);
     cs_missing_percent := prod_swap (cs_missing_percent s);
     cs_unique_count := prod_swap (cs_unique_count s);
     cs_unique_percent := prod_swap (cs_unique_percent s);
     cs_kind := mirror_kind (cs_kind s) |}.

Definition mirror_distribution (d : distribution_data) : distribution_data :=
  match d with
  | DistNumeric n_bins x1 x2 => DistNumeric n_bins x2 x1
  | DistCategorical vc1 vc2 => DistCategorical vc2 vc1
  end.

Definition mirror_column (c : column_comparison) : column_comparison :=
  {| cc_stats := mirror_stats (cc_stats c);
     cc_distribution_data := mirror_distribution (cc_distribution_data c) |}.

Definition mirror_comparison (r : comparison) : comparison :=
  {| cmp_columns_only_in_df1 := cmp_columns_only_in_df2 r;
     cmp_columns_only_in_df2 := cmp_columns_only_in_df1 r;
     cmp_common_columns := cmp_common_columns r;
     cmp_dtype_differences := prod_map id prod_swap <$> cmp_dtype_differences r;
     cmp_variable_comparison :=
       prod_map id mirror_column <$> cmp_variable_comparison r |}.

(** ** Statistics of a compared column *)

(** The statistics that every kind of column gets, for two columns with
    rows. *)
Definition common_stats (s1 s2 : Series) (kind : kind_stats) : comparison_stats :=
  let share k (s : Series) :=
    Fmt2f (Fin ((Z.of_nat k # Pos.of_nat (length (cells s))) * 100)) in
  {| cs_count := (length (cells s1), length (cells s2));
     cs_missing_count := (isna_sum (cells s1), isna_sum (cells s2));
     cs_missing_percent :=
       (share (isna_sum (cells s1)) s1, share (isna_sum (cells s2)) s2);
     cs_unique_count := (nunique (cells s1), nunique (cells s2));
     cs_unique_percent :=
       (share (nunique (cells s1)) s1, share (nunique (cells s2)) s2);
     cs_kind := kind |}.

(** ** The exported part of a column profile *)

(** The entry of ["variables"] built from a column profile: its type,
    counts, percentages and statistics, without the figures. *)
Definition json_of_var_stats (var_data : var_stats) : json_variable :=
  {| jv_type := vs_type var_data;
     jv_distinct_count := vs_distinct_count var_data;
     jv_distinct_pct := vs_distinct_pct var_data;
     jv_missing_count := vs_missing_count var_data;
     jv_missing_pct := vs_missing_pct var_data;
     jv_statistics := vs_statistics var_data |}.

(** ** Input given as a path *)

(** [s.endswith(suffix)] *)
Definition endswith (s suffix : string) : bool :=
  bool_decide (String.list_ascii_of_string suffix `suffix_of` String.list_ascii_of_string s).

Section readers.

Context {L : Library}.

(** The two file readers [pd.read_csv] and [pd.read_parquet]. *)
Variables (read_csv read_parquet : string → result DataFrame).

(** The head of the entry point: a frame is taken as it is, a path is
    read according to its ending. *)
Definition load (df : DataFrame + string) : result DataFrame :=
  match df with
  | inl frame => Ok frame
  | inr path =>
      if endswith path ".csv" then read_csv path
      else if endswith path ".parquet" then read_parquet path
      else Raise (ValueError "Input file must be CSV or Parquet format")
  end.

(** The entry point on a frame or a path. *)
Definition profile_input (df : DataFrame + string) (target : option string)
    (fmt : output_format) (include_sections exclude_sections : option (list string))
  : result report :=
  frame ← load df; profile frame target fmt include_sections exclude_sections.

End readers.

(** ** A reference library

    One library of the class, to evaluate the sample frames with: a stable
    merge sort, so that equal counts stay in order of first appearance; the
    density estimate refuses fewer than two observations and observations
    that are all equal (SciPy's singular covariance, a [LinAlgError], which
    is a [ValueError]); the mutual information refuses a missing cell in a
    feature or in the labels.  The text of a float is Python's for whole
    numbers; other floats and time stamps get a stand-in, which no sample
    frame needs. *)
Definition count_ge (a b : value * nat) : Prop := b.2 ≤ a.2.

Global Instance count_ge_dec a b : Decision (count_ge a b).
Proof. unfold count_ge. apply _. Defined.

Global Instance count_ge_transitive : Transitive count_ge.
Proof. intros a b c. unfold count_ge. lia. Qed.

Global Instance count_ge_total : Total count_ge.
Proof. intros a b. unfold count_ge. lia. Qed.

Definition reference_plot_kde (x : list value) : result () :=
  match x with
  | [] => Raise (ValueError "zero-size array to reduction operation fmax which has no identity")
  | [_] => Raise (ValueError "`dataset` input should have multiple elements.")
  | v :: x' =>
      if decide (Forall (λ w, w = v) x')
      then Raise (ValueError "The data appears to lie in a lower-dimensional subspace of the space in which it is expressed.")
      else Ok ()
  end.

Definition reference_mutual_info_classif (X : list (list cell)) (y : list cell)
  : result () :=
  if decide (Exists (λ x, None ∈ x) X) then Raise (ValueError "Input X contains NaN.")
  else if decide (None ∈ y) then Raise (ValueError "Input y contains NaN.")
  else Ok ().

Definition reference_str_float (q : Qc) : string :=
  if decide (Qden q = 1%positive) then pretty (Qnum q) +:+ ".0"
  else pretty (Qnum q) +:+ "/" +:+ pretty (Z.pos (Qden q)).

Global Instance reference_library : Library.
Proof.
  refine {| sort_values := merge_sort count_ge;
            str_float := reference_str_float;
            str_timestamp := λ t, "Timestamp(" +:+ pretty t +:+ ")";
            plot_kde := reference_plot_kde;
            mutual_info_classif := reference_mutual_info_classif |}.
  - apply merge_sort_Permutation.
  - intros l. apply (StronglySorted_merge_sort count_ge).
  - intros [|v [|w x]] Hx; simpl in *; [eauto | eauto | lia].
  - intros [|v [|w x]] msg; simpl; [done | done |]. by case_decide.
  - intros X y HX. unfold reference_mutual_info_classif.
    rewrite decide_True; [eauto|]. by apply Exists_exists.
  - intros X y msg. unfold reference_mutual_info_classif. by repeat case_decide.
Defined.

(** * Properties *)

(** ** The error monad *)

Section result_monad.
Context {A B : Type}.
Implicit Types (m : result A) (f : A → result B).

Lemma bind_Ok m f b : m ≫= f = Ok b ↔ ∃ a, m = Ok a ∧ f a = Ok b.
Proof.
  destruct m as [a|e]; unfold mbind, fmap, result_bind, result_fmap; split.
  - eauto.
  - intros (? & [= <-] & ?); assumption.
  - done.
  - intros (? & ? & ?); discriminate.
Qed.

Lemma bind_Raise m f e :
  m ≫= f = Raise e ↔ m = Raise e ∨ ∃ a, m = Ok a ∧ f a = Raise e.
Proof.
  destruct m as [a|e']; unfold mbind, result_bind; split.
  - eauto.
  - intros [?|(? & [= <-] & ?)]; [discriminate | assumption].
  - intros [= <-]; eauto.
  - intros [[= ->]|(? & ? & ?)]; [reflexivity | discriminate].
Qed.

Lemma fmap_Ok (g : A → B) m b : g <$> m = Ok b ↔ ∃ a, m = Ok a ∧ b = g a.
Proof.
  destruct m as [a|e]; unfold mbind, fmap, result_bind, result_fmap; split.
  - intros [= <-]; eauto.
  - intros (? & [= <-] & ->); reflexivity.
  - done.
  - intros (? & ? & ?); discriminate.
Qed.

Lemma fmap_Raise (g : A → B) m e : g <$> m = Raise e ↔ m = Raise e.
Proof. destruct m; unfold fmap, result_fmap; split; congruence. Qed.

End result_monad.

Section result_mapM.
Context {A B : Type}.
Implicit Types (f : A → result B).

Lemma mapM_Ok f (l : list A) (k : list B) :
  mapM f l = Ok k ↔ Forall2 (λ x y, f x = Ok y) l k.
Proof.
  revert k. induction l as [|x l IH]; intros k; simpl.
  - split; [intros [= <-]; constructor | by inversion 1].
  - split.
    + intros (y & Hy & (k' & Hk' & [= <-])%bind_Ok)%bind_Ok.
      constructor; [done | by apply IH].
    + inversion 1 as [|? y ? k' Hy Hk']; subst.
      apply bind_Ok. exists y. split; [done|].
      apply bind_Ok. exists k'. split; [by apply IH | done].
Qed.

Lemma mapM_Raise f (l : list A) e :
  mapM f l = Raise e → ∃ x, x ∈ l ∧ f x = Raise e.
Proof.
  induction l as [|x l IH]; simpl; [done|].
  intros [Hx|(y & Hy & [Hl|(k & Hk & [=])]%bind_Raise)]%bind_Raise.
  - exists x. split; [left | done].
  - destruct (IH Hl) as (x' & ? & ?). exists x'. split; [by right | done].
Qed.

Lemma mapM_all_Ok f (l : list A) :
  (∀ x, x ∈ l → ∃ y, f x = Ok y) → ∃ k, mapM f l = Ok k.
Proof.
  induction l as [|x l IH]; intros Hl; simpl; [by eexists|].
  destruct (Hl x) as [y Hy]; [left|].
  destruct IH as [k Hk]; [intros; apply Hl; by right|].
  exists (y :: k). by rewrite Hy, Hk.
Qed.

Lemma mapM_ext_in (f g : A → result B) (l : list A) :
  (∀ x, x ∈ l → f x = g x) → mapM f l = mapM g l.
Proof.
  induction l as [|x l IH]; intros Hl; simpl; [done|].
  rewrite (Hl x) by left. rewrite IH; [done|]. intros; apply Hl; by right.
Qed.
End result_mapM.

(** ** Series statistics *)

Lemma dropna_cons_Some (v : value) (cs : list cell) :
  dropna (Some v :: cs) = v :: dropna cs.
Proof. done. Qed.

Lemma dropna_cons_None (cs : list cell) : dropna (None :: cs) = dropna cs.
Proof. done. Qed.

Lemma isna_sum_non_missing (cs : list cell) :
  isna_sum cs + non_missing_count cs = length cs.
Proof.
  unfold isna_sum, non_missing_count.
  induction cs as [|[v|] cs IH]; [done|..].
  - rewrite filter_cons_False, dropna_cons_Some by done. simpl. lia.
  - rewrite filter_cons_True, dropna_cons_None by done. simpl. lia.
Qed.

Lemma NoDup_unique `{EqDecision A} (l : list A) : NoDup (unique l).
Proof. unfold unique. rewrite reverse_Permutation. apply NoDup_remove_dups. Qed.

Lemma elem_of_unique `{EqDecision A} (l : list A) x : x ∈ unique l ↔ x ∈ l.
Proof.
  unfold unique. by rewrite elem_of_reverse, elem_of_remove_dups, elem_of_reverse.
Qed.

Lemma unique_nil_inv `{EqDecision A} (l : list A) : unique l = [] → l = [].
Proof.
  destruct l as [|x l]; [done|]. intros Hu.
  assert (x ∈ unique (x :: l)) as Hx by (apply elem_of_unique; left).
  rewrite Hu in Hx. by apply elem_of_nil in Hx.
Qed.

Lemma elem_of_dropna (cs : list cell) v : v ∈ dropna cs ↔ Some v ∈ cs.
Proof.
  unfold dropna. rewrite list_elem_of_omap. split.
  - intros (c & Hc & Hid). by rewrite <- Hid.
  - eauto.
Qed.

Lemma NoDup_dropna (cs : list cell) : NoDup cs → NoDup (dropna cs).
Proof.
  induction 1 as [|[v|] cs Hx _ IH].
  - constructor.
  - rewrite dropna_cons_Some. constructor; [|done]. by rewrite elem_of_dropna.
  - by rewrite dropna_cons_None.
Qed.

Lemma nunique_distinct_non_missing (cs : list cell) :
  nunique cs = length (distinct_non_missing cs).
Proof.
  unfold nunique, distinct_non_missing. apply Permutation_length.
  apply NoDup_Permutation.
  - apply NoDup_dropna, NoDup_unique.
  - apply NoDup_remove_dups.
  - intros v. by rewrite elem_of_dropna, elem_of_unique, elem_of_remove_dups,
      elem_of_dropna.
Qed.

Lemma nunique_le_non_missing (cs : list cell) :
  nunique cs ≤ non_missing_count cs.
Proof.
  rewrite nunique_distinct_non_missing. unfold distinct_non_missing, non_missing_count.
  generalize (dropna cs) as vs. induction vs as [|v vs IH]; simpl; [done|].
  case_decide; simpl; lia.
Qed.

(** ** Label lookup *)

Lemma getitem_Ok (df : DataFrame) (column : string) (s : Series) :
  getitem df column = Ok s → s ∈ series_of df ∧ name s = column.
Proof.
  unfold getitem. destruct (list_find _ _) as [[i s']|] eqn:Hf; [|done].
  intros [= <-]. apply list_find_Some in Hf as (Hi & Hn & _).
  split; [by eapply list_elem_of_lookup_2 | done].
Qed.

Lemma getitem_elem_of (df : DataFrame) (column : string) :
  column ∈ columns df → ∃ s, getitem df column = Ok s.
Proof.
  unfold columns, getitem. intros (s & -> & Hs)%list_elem_of_fmap.
  destruct (list_find _ _) as [[i s']|] eqn:Hf; [by eexists|].
  apply list_find_None in Hf. rewrite Forall_forall in Hf. by destruct (Hf s Hs).
Qed.

Lemma getitem_Raise (df : DataFrame) (column : string) (e : exn) :
  getitem df column = Raise e → e = KeyError column ∧ column ∉ columns df.
Proof.
  intros He. destruct (decide (column ∈ columns df)) as [Hin|Hnin].
  - apply getitem_elem_of in Hin as [s Hs]. congruence.
  - unfold getitem in He. destruct (list_find _ _) as [[i s']|]; [done|].
    by injection He as <-.
Qed.

Lemma pct_Ok_pos (a : pynum) (b : nat) : 0 < b → ∃ x, pct a b = Ok (Fin x).
Proof. destruct b; [lia|]. intros _. unfold pct. simpl. eauto. Qed.

Lemma pct_NpInt64 (n b : nat) : ∃ x, pct (NpInt64 n) b = Ok x.
Proof. destruct b, n; unfold pct; simpl; eauto. Qed.

Lemma pct_PyInt_0 (n : nat) : pct (PyInt n) 0 = Raise ZeroDivisionError.
Proof. done. Qed.

Lemma pct_Raise (a : pynum) (b : nat) (e : exn) :
  pct a b = Raise e → e = ZeroDivisionError ∧ b = 0.
Proof. destruct b, a as [n|[|n]]; unfold pct; simpl; by intros [= <-]. Qed.


(** ** Percentages *)

Lemma Zpos_of_nat (b : nat) : 0 < b → Z.pos (Pos.of_nat b) = Z.of_nat b.
Proof.
  intros Hb. rewrite <- positive_nat_Z. f_equal. apply Nat2Pos.id. lia.
Qed.

Lemma pct_value (a : pynum) (b : nat) :
  0 < b → pct a b = Ok (Fin ((Z.of_nat (num_val a) # Pos.of_nat b) * 100)).
Proof. destruct b; [lia|]. done. Qed.

Lemma share_bounds (a b : nat) :
  0 < b → a ≤ b →
  (0 <= (Z.of_nat a # Pos.of_nat b) * 100)%Q ∧
  ((Z.of_nat a # Pos.of_nat b) * 100 <= 100)%Q.
Proof.
  intros Hb Hab. unfold Qle, Qmult. simpl.
  rewrite !Pos2Z.inj_mul, !Zpos_of_nat by done. split; nia.
Qed.

Lemma share_lt_100 (a b : nat) :
  a < b → ((Z.of_nat a # Pos.of_nat b) * 100 < 100)%Q.
Proof.
  intros Hab. unfold Qlt, Qmult. simpl.
  rewrite !Pos2Z.inj_mul, !Zpos_of_nat by lia. nia.
Qed.



(** ** Frequency tables *)

Lemma count_value_cons (v w : value) (vs : list value) :
  count_value v (w :: vs) = (if decide (w = v) then 1 else 0) + count_value v vs.
Proof.
  unfold count_value. case_decide.
  - by rewrite filter_cons_True.
  - by rewrite filter_cons_False.
Qed.

Lemma count_value_pos (v : value) (vs : list value) :
  v ∈ vs ↔ 0 < count_value v vs.
Proof.
  induction vs as [|w vs IH].
  { rewrite elem_of_nil. unfold count_value. simpl. split; [done | lia]. }
  rewrite elem_of_cons, count_value_cons, IH. case_decide as Hw.
  - split; [lia | intros _; left; done].
  - split; [intros [->|?]; [done | lia] | intros ?; right; lia].
Qed.


Lemma elem_of_value_counts_keys (s : Series) (v : value) :
  v ∈ value_counts_keys s ↔
  Some v ∈ cells s ∨ (dtype_of s = category ∧ v ∈ categories s).
Proof.
  unfold value_counts_keys. case_decide as Hc.
  - rewrite elem_of_unique, elem_of_app, elem_of_dropna. tauto.
  - rewrite elem_of_unique, elem_of_dropna. tauto.
Qed.

Lemma NoDup_value_counts_keys (s : Series) : NoDup (value_counts_keys s).
Proof. unfold value_counts_keys. case_decide; apply NoDup_unique. Qed.

(** A column has nothing to count when every cell is missing and, if it is
    categorical, no category is declared. *)
Lemma value_counts_keys_nil (s : Series) :
  value_counts_keys s = [] ↔
  Forall (λ c, c = None) (cells s) ∧ (dtype_of s = category → categories s = []).
Proof.
  split.
  - intros Hnil. split.
    + apply Forall_forall. intros [v|] Hv; [|done].
      assert (v ∈ value_counts_keys s) as Hin by (apply elem_of_value_counts_keys; eauto).
      rewrite Hnil in Hin. by apply elem_of_nil in Hin.
    + intros Hc. destruct (categories s) as [|v l] eqn:Hl; [done|].
      assert (v ∈ value_counts_keys s) as Hin.
      { apply elem_of_value_counts_keys. right. split; [done|]. rewrite Hl. left. }
      rewrite Hnil in Hin. by apply elem_of_nil in Hin.
  - intros [Hall Hcat]. destruct (value_counts_keys s) as [|v l] eqn:Hk; [done|].
    assert (v ∈ value_counts_keys s) as Hin by (rewrite Hk; left).
    apply elem_of_value_counts_keys in Hin as [Hin|[Hc Hin]].
    + rewrite Forall_forall in Hall. by specialize (Hall _ Hin).
    + rewrite (Hcat Hc) in Hin. by apply elem_of_nil in Hin.
Qed.

Section frequency_tables.
Context {L : Library}.

Lemma elem_of_sort_values (p : value * nat) (l : list (value * nat)) :
  p ∈ sort_values l ↔ p ∈ l.
Proof. by rewrite sort_values_Permutation. Qed.

Lemma value_counts_fst (s : Series) : (value_counts s).*1 ≡ₚ value_counts_keys s.
Proof.
  unfold value_counts. cbv zeta. rewrite sort_values_Permutation.
  rewrite <- list_fmap_compose. by rewrite list_fmap_id.
Qed.

Lemma elem_of_value_counts (s : Series) (v : value) (n : nat) :
  (v, n) ∈ value_counts s ↔
  v ∈ value_counts_keys s ∧ n = count_value v (dropna (cells s)).
Proof.
  unfold value_counts. cbv zeta. rewrite elem_of_sort_values, list_elem_of_fmap. split.
  - by intros (w & [= -> ->] & Hw).
  - intros [Hv ->]. by exists v.
Qed.

Lemma value_counts_nil (s : Series) :
  value_counts s = [] ↔ value_counts_keys s = [].
Proof.
  split; intros Hnil.
  - apply Permutation_nil_r. rewrite <- value_counts_fst. by rewrite Hnil.
  - apply fmap_nil_inv with (f := fst). apply Permutation_nil_r.
    rewrite value_counts_fst. by rewrite Hnil.
Qed.

Lemma value_counts_sorted (s : Series) :
  StronglySorted (λ a b, b.2 ≤ a.2) (value_counts s).
Proof. apply sort_values_sorted. Qed.

(** The first key of the table: a key that no value outnumbers. *)
Lemma value_counts_head (s : Series) (m : value) :
  head (value_counts s).*1 = Some m →
  m ∈ value_counts_keys s ∧
  ∀ v, count_value v (dropna (cells s)) ≤ count_value m (dropna (cells s)).
Proof.
  pose proof (value_counts_sorted s) as Hsorted.
  pose proof (elem_of_value_counts s) as Hmem.
  destruct (value_counts s) as [|[m' n] rest] eqn:Hvc; [done|].
  intros [= ->]. destruct (proj1 (Hmem m n)) as [Hm ->]; [left|].
  split; [done|]. intros v.
  destruct (decide (v ∈ value_counts_keys s)) as [Hv|Hv].
  - assert ((v, count_value v (dropna (cells s)))
            ∈ (m, count_value m (dropna (cells s))) :: rest) as Hin
      by (by apply Hmem).
    apply elem_of_cons in Hin as [[= -> _]|Hin]; [done|].
    apply StronglySorted_cons in Hsorted as [Hall _].
    rewrite Forall_forall in Hall. by apply (Hall _ Hin).
  - assert (count_value v (dropna (cells s)) = 0) as ->; [|lia].
    destruct (count_value v (dropna (cells s))) eqn:Hcnt; [done|].
    destruct Hv. apply elem_of_value_counts_keys. left.
    apply elem_of_dropna, count_value_pos. lia.
Qed.

(** The bar chart of a frequency table is refused exactly when the table
    is empty. *)
Lemma px_bar_Ok {A} (vc : list (value * nat)) (k : nat) (fig fig' : A) :
  px_bar (take k (vc.*1)) (take k (vc.*2)) fig = Ok fig' → fig' = fig ∧ vc ≠ [].
Proof.
  destruct vc as [|p vc]; [by destruct k|]. intros H. split; [|done].
  destruct k; simpl in H; [done | by injection H].
Qed.

Lemma px_bar_produces {A} (vc : list (value * nat)) (k : nat) (fig : A) :
  vc ≠ [] → 0 < k → px_bar (take k (vc.*1)) (take k (vc.*2)) fig = Ok fig.
Proof. destruct vc as [|p vc]; [done|]. destruct k; [lia|]. done. Qed.

Lemma px_bar_Raise {A} (x : list value) (y : list nat) (fig : A) (e : exn) :
  px_bar x y fig = Raise e → (∃ msg, e = ValueError msg) ∧ x = [] ∧ y = [].
Proof. destruct x, y; simpl; try done. intros [= <-]. eauto. Qed.

End frequency_tables.

(** ** Column profile *)

(** The overview never raises. *)
Lemma _calculate_overview_stats_total df : ∃ ov, _calculate_overview_stats df = Ok ov.
Proof.
  unfold _calculate_overview_stats.
  destruct (pct_NpInt64 (duplicated_sum df) (nrows df)) as [x1 ->].
  destruct (pct_NpInt64 (missing_cells_of df) (df_size df)) as [x2 ->].
  by eexists.
Qed.

Section column_profile.
Context {L : Library}.

Lemma _analyze_variable_Ok df column target static vs :
  _analyze_variable df column target static = Ok vs →
  ∃ series,
    getitem df column = Ok series ∧ 0 < length (cells series) ∧
    vs_name vs = column ∧
    vs_type vs = dtype_str (dtype_of series) ∧
    vs_missing_count vs = isna_sum (cells series) ∧
    vs_distinct_count vs = nunique (cells series) ∧
    (is_Some (vs_target_plot vs) → target_present df target = true).
Proof.
  unfold _analyze_variable.
  intros (series & Hget & (dp & Hdp & (mp & Hmp & H)%bind_Ok)%bind_Ok)%bind_Ok.
  exists series. split; [done|]. split.
  { destruct (cells series); [done | simpl; lia]. }
  cbv zeta in H.
  destruct (is_numeric_dtype _); apply bind_Ok in H as (st & Hst & H);
    destruct (target_present df target) eqn:Htp;
    try (apply bind_Ok in H as (nt & Hnt & H));
    injection H as <-; simpl; repeat split; done.
Qed.

Lemma target_dtype_present df target :
  target_present df target = true → ∃ b, target_is_int64_float64 df target = Ok b.
Proof.
  unfold target_present, target_is_int64_float64.
  destruct target as [t|]; [|by rewrite andb_false_r].
  intros [_ Ht%bool_decide_eq_true]%andb_true_iff. simpl.
  destruct (getitem_elem_of df t Ht) as [s ->]. by eexists.
Qed.

(** A column with at least one row has a profile, unless it is boolean or
    it is not numeric and has nothing to count. *)
Lemma _analyze_variable_produces df column target static s :
  getitem df column = Ok s → cells s ≠ [] → dtype_of s ≠ bool_ →
  (is_numeric_dtype (dtype_of s) = false → value_counts_keys s ≠ []) →
  ∃ vs, _analyze_variable df column target static = Ok vs.
Proof.
  intros Hs Hne Hbool Hkeys. unfold _analyze_variable. rewrite Hs.
  unfold mbind at 1, result_bind at 1.
  assert (0 < length (cells s)) as Hl by (destruct (cells s); [done | simpl; lia]).
  destruct (pct_Ok_pos (PyInt (nunique (cells s))) _ Hl) as [x1 ->].
  destruct (pct_Ok_pos (NpInt64 (isna_sum (cells s))) _ Hl) as [x2 ->].
  unfold mbind at 1 2, result_bind at 1 2. cbv zeta.
  assert (target_present df target = true →
          ∃ b, target_is_int64_float64 df target = Ok b) as Ht
    by apply target_dtype_present.
  destruct (is_numeric_dtype (dtype_of s)) eqn:Hnum.
  - unfold describe. rewrite decide_False, Hnum by done. simpl.
    destruct (target_present df target); [|by eexists].
    destruct Ht as [b ->]; [done|]. by eexists.
  - rewrite px_bar_produces; [|rewrite value_counts_nil; by apply Hkeys | lia].
    unfold mbind at 1, result_bind at 1.
    destruct (target_present df target); [|by eexists].
    destruct Ht as [b ->]; [done|]. by eexists.
Qed.

Lemma isna_sum_all_missing (cs : list cell) :
  Forall (λ c, c = None) cs → isna_sum cs = length cs ∧ nunique cs = 0.
Proof.
  intros Hall. split.
  - unfold isna_sum. induction Hall as [|c cs Hc _ IH]; [done|].
    rewrite filter_cons_True by done. simpl. by rewrite IH.
  - rewrite nunique_distinct_non_missing. unfold distinct_non_missing.
    replace (dropna cs) with (@nil value); [done|].
    induction Hall as [|c cs Hc _ IH]; [done|]. subst c.
    by rewrite dropna_cons_None.
Qed.

Lemma isna_sum_all_present (cs : list cell) :
  Forall is_Some cs → isna_sum cs = 0.
Proof.
  unfold isna_sum. induction 1 as [|c cs [v Hv] _ IH]; [done|]. subst c.
  by rewrite filter_cons_False.
Qed.

(** C8: whenever a column profile is produced, its missing count and the
    number of non-missing observations add up to the length of the column
    (an all-missing column has every cell counted as missing and no distinct
    value, an all-present one has no missing cell), and its distinct count is
    the number of distinct values among the non-missing observations. *)
Theorem column_profile_counts df column target static vs :
  _analyze_variable df column target static = Ok vs →
  ∃ series,
    getitem df column = Ok series ∧
    vs_missing_count vs + non_missing_count (cells series) = length (cells series) ∧
    vs_distinct_count vs = length (distinct_non_missing (cells series)) ∧
    vs_distinct_count vs ≤ non_missing_count (cells series) ∧
    (Forall (λ c, c = None) (cells series) →
       vs_missing_count vs = length (cells series) ∧ vs_distinct_count vs = 0) ∧
    (Forall is_Some (cells series) → vs_missing_count vs = 0).
Proof.
  intros H. apply _analyze_variable_Ok in H as (series & Hget & _ & _ & _ & -> & -> & _).
  exists series. split; [done|]. split; [apply isna_sum_non_missing|].
  split; [apply nunique_distinct_non_missing|].
  split; [apply nunique_le_non_missing|].
  split; [apply isna_sum_all_missing | apply isna_sum_all_present].
Qed.

End column_profile.

Lemma column_profile_counts_witness :
  ∃ vs, _analyze_variable people "age" (Some "target") false = Ok vs ∧
  ∃ series,
    getitem people "age" = Ok series ∧
    vs_missing_count vs + non_missing_count (cells series) = length (cells series) ∧
    vs_distinct_count vs = length (distinct_non_missing (cells series)) ∧
    vs_distinct_count vs ≤ non_missing_count (cells series) ∧
    (Forall (λ c, c = None) (cells series) →
       vs_missing_count vs = length (cells series) ∧ vs_distinct_count vs = 0) ∧
    (Forall is_Some (cells series) → vs_missing_count vs = 0).
Proof.
  eexists. split; [vm_compute; reflexivity|].
  apply (column_profile_counts people "age" (Some "target") false).
  vm_compute; reflexivity.
Defined.

(** ** Structured export *)

Section export.
Context {L : Library}.

Lemma Forall2_fst_eq {A B} (l : list A) (k : list (A * B)) :
  Forall2 (λ x y, y.1 = x) l k → k.*1 = l.
Proof.
  induction 1 as [|x [a b] l k Hx _ IH]; [done|].
  rewrite fmap_cons. simpl in Hx. by rewrite IH, Hx.
Qed.

Lemma _prepare_json_data_Ok df target inc exc d :
  _prepare_json_data df target inc exc = Ok d →
  jd_shape_rows d = nrows df ∧ jd_shape_columns d = ncols df ∧
  jd_n_obs d = nrows df ∧ jd_n_vars d = ncols df ∧
  (jd_variables d).*1 = profiled_columns df target ∧
  jd_correlations d =
    (if section_requested "correlations" inc exc
     then if decide (1 < length (numeric_cols df)) then Some (corr_matrix df) else None
     else None) ∧
  (is_Some (jd_missing_values d) ↔ section_requested "missing_values" inc exc = true) ∧
  (is_Some (jd_duplicates d) ↔ section_requested "duplicates" inc exc = true) ∧
  (is_Some (jd_target_analysis d) ↔ target_present df target = true).
Proof.
  unfold _prepare_json_data.
  intros (vars & Hvars & (mv & Hmv & (du & Hdu & (ta & Hta & H)%bind_Ok)%bind_Ok)%bind_Ok)%bind_Ok.
  injection H as <-. simpl. repeat split; try done.
  - apply Forall2_fst_eq. apply mapM_Ok in Hvars.
    eapply Forall2_impl; [exact Hvars|]. simpl.
    intros column y (vd & _ & [= <-])%bind_Ok. done.
  - destruct (section_requested "missing_values" inc exc); [done|].
    injection Hmv as <-. by intros [? ?].
  - destruct (section_requested "missing_values" inc exc); [|done].
    apply bind_Ok in Hmv as (p & _ & [= <-]). eauto.
  - destruct (section_requested "duplicates" inc exc); [done|].
    injection Hdu as <-. by intros [? ?].
  - destruct (section_requested "duplicates" inc exc); [|done].
    apply bind_Ok in Hdu as (p & _ & [= <-]). eauto.
  - destruct (target_present df target); [done|].
    injection Hta as <-. by intros [? ?].
  - destruct (target_present df target); [|done].
    apply fmap_Ok in Hta as (p & _ & ->). eauto.
Qed.

Lemma _prepare_json_data_variables df target inc exc d :
  _prepare_json_data df target inc exc = Ok d →
  ∃ vl, mapM (λ column, _analyze_variable df column target false)
             (profiled_columns df target) = Ok vl ∧
        jd_variables d = (λ v, (vs_name v, json_of_var_stats v)) <$> vl ∧
        (∀ m, jd_missing_values d = Some m → total_missing m = missing_cells_of df) ∧
        (∀ u, jd_duplicates d = Some u → total_duplicates u = duplicated_sum df).
Proof.
  unfold _prepare_json_data.
  intros (vars & Hvars & (mv & Hmv & (du & Hdu & (ta & _ & [= <-]
    )%bind_Ok)%bind_Ok)%bind_Ok)%bind_Ok. simpl.
  assert (∃ vl, mapM (λ column, _analyze_variable df column target false)
                     (profiled_columns df target) = Ok vl ∧
                vars = (λ v, (vs_name v, json_of_var_stats v)) <$> vl) as (vl & Hvl & ->).
  { revert vars Hvars. induction (profiled_columns df target) as [|c l IH];
      intros vars Hvars.
    - injection Hvars as <-. by exists [].
    - simpl in Hvars. apply bind_Ok in Hvars as (y & Hy & (k & Hk & [= <-])%bind_Ok).
      apply bind_Ok in Hy as (v & Hv & [= <-]).
      destruct (IH k Hk) as (vl & Hvl & ->). exists (v :: vl). simpl.
      rewrite Hv, Hvl. split; [done|]. csimpl. f_equal.
      apply _analyze_variable_Ok in Hv as (_ & _ & _ & -> & _). done. }
  exists vl. split; [done|]. split; [done|]. split.
  - intros m ->. destruct (section_requested "missing_values" inc exc); [|done].
    by apply bind_Ok in Hmv as (p & _ & [= <-]).
  - intros u ->. destruct (section_requested "duplicates" inc exc); [|done].
    by apply bind_Ok in Hdu as (p & _ & [= <-]).
Qed.

Lemma filter_all {A} (P : A → Prop) `{∀ x, Decision (P x)} (l : list A) :
  Forall P l → filter P l = l.
Proof.
  induction 1 as [|x l Hx _ IH]; [done|].
  by rewrite filter_cons_True, IH.
Qed.

Lemma profiled_columns_None df : profiled_columns df None = columns df.
Proof. unfold profiled_columns. apply filter_all, Forall_forall. done. Qed.

Lemma target_present_absent df t : t ∉ columns df → target_present df (Some t) = false.
Proof.
  intros Ht. unfold target_present. rewrite (bool_decide_eq_false_2 _ Ht).
  apply andb_false_r.
Qed.

Lemma profiled_columns_absent df t :
  t ∉ columns df → profiled_columns df (Some t) = columns df.
Proof.
  intros Ht. unfold profiled_columns. apply filter_all, Forall_forall.
  intros c Hc. unfold is_target. rewrite bool_decide_eq_false_2; [apply andb_false_r|].
  intros [= ->]. done.
Qed.

Lemma elem_of_profiled_columns df target c :
  c ∈ profiled_columns df target ↔ c ∈ columns df ∧ is_target target c = false.
Proof. unfold profiled_columns. rewrite list_elem_of_filter. tauto. Qed.

Lemma is_target_true target c :
  is_target target c = true ↔ target = Some c ∧ c ≠ "".
Proof.
  unfold is_target, truthy. destruct target as [t|]; simpl.
  - rewrite andb_true_iff, negb_true_iff, bool_decide_eq_false, bool_decide_eq_true.
    split.
    + intros [Hne [= ->]]. done.
    + intros [[= ->] Hne]. done.
  - split; [done | by intros [? _]].
Qed.

Lemma length_filter_remove_one (t : string) (l : list string) :
  NoDup l → t ∈ l → S (length (filter (λ c, c ≠ t) l)) = length l.
Proof.
  induction 1 as [|x l Hx Hnd IH]; [by intros ?%elem_of_nil|].
  intros [->|Hin]%elem_of_cons.
  - rewrite filter_cons_False by (intros ?; done).
    rewrite filter_all; [done|]. apply Forall_forall. intros c Hc ->. done.
  - rewrite filter_cons_True by (intros ->; done). simpl. by rewrite IH.
Qed.

Lemma length_profiled_columns df t :
  NoDup (columns df) → t ∈ columns df → t ≠ "" →
  S (length (profiled_columns df (Some t))) = ncols df.
Proof.
  intros Hnd Hin Hne. unfold ncols. rewrite <- (length_filter_remove_one t (columns df) Hnd Hin).
  f_equal. f_equal. unfold profiled_columns. apply list_filter_iff. intros c.
  destruct (is_target (Some t) c) eqn:Hc.
  - apply is_target_true in Hc as [[= ->] _]. split; [done | by intros []].
  - split; [|done]. intros _ ->.
    assert (is_target (Some t) t = true) by (by apply is_target_true). congruence.
Qed.

(** ** The report entry point *)

Lemma profile_within_limits df target fmt inc exc r :
  profile df target fmt inc exc = Ok r →
  (Z.of_nat (nrows df) ≤ MAX_ROWS)%Z ∧ (Z.of_nat (ncols df) ≤ MAX_COLS)%Z.
Proof.
  unfold profile.
  destruct (decide (MAX_ROWS < _)%Z); [done|].
  destruct (decide (MAX_COLS < _)%Z); [done|]. intros _. lia.
Qed.

Lemma profile_json_Ok df target inc exc d :
  profile df target json inc exc = Ok (JsonReport d) →
  _prepare_json_data df target inc exc = Ok d.
Proof.
  unfold profile.
  destruct (decide (MAX_ROWS < _)%Z); [done|].
  destruct (decide (MAX_COLS < _)%Z); [done|].
  intros (d' & Hd & [= ->])%fmap_Ok. done.
Qed.

Lemma profile_Ok_format df target fmt inc exc r :
  profile df target fmt inc exc = Ok r →
  match r with
  | JsonReport d => fmt = json ∧ _prepare_json_data df target inc exc = Ok d
  | HtmlReport ctx =>
      fmt ≠ json ∧
      _calculate_overview_stats df = Ok (ctx_overview ctx) ∧
      mapM (λ column, _analyze_variable df column target (bool_decide (fmt = pdf)))
           (profiled_columns df target) = Ok ((ctx_variables ctx).*2) ∧
      (ctx_variables ctx).*1 = profiled_columns df target ∧
      _create_summary_plots df target (bool_decide (fmt = pdf))
        = Ok (ctx_summary_plots ctx) ∧
      ctx_duplicate_samples ctx = _analyze_duplicates df
  end.
Proof.
  unfold profile.
  destruct (decide (MAX_ROWS < _)%Z); [done|].
  destruct (decide (MAX_COLS < _)%Z); [done|].
  destruct fmt.
  3: { intros (d' & Hd & ->)%fmap_Ok. done. }
  all: intros (ov & Hov & (vl & Hvl & (sp & Hsp & (dn & Hdn & (dob & Hdo &
         (mp & Hmp & (dp & Hdp & [= <-])%bind_Ok)%bind_Ok)%bind_Ok)%bind_Ok)%bind_Ok)%bind_Ok)%bind_Ok.
  all: simpl; split; [done|]; split; [done|].
  all: assert (((λ var, (vs_name var, var)) <$> vl).*2 = vl) as ->
         by (rewrite <- list_fmap_compose; apply list_fmap_id).
  all: split; [done|]; split; [|done].
  all: rewrite <- list_fmap_compose; apply mapM_Ok in Hvl.
  all: clear -Hvl; induction Hvl as [|c v cs vs Hc _ IH]; [done|].
  all: rewrite fmap_cons, IH; f_equal; simpl.
  all: by apply _analyze_variable_Ok in Hc as (? & _ & _ & -> & _).
Qed.

Lemma _create_summary_plots_Ok df target static sp :
  _create_summary_plots df target static = Ok sp →
  (is_Some (sp_correlations sp) ↔ 1 < length (numeric_cols df)) ∧
  (is_Some (sp_target_distribution sp) ↔ target_present df target = true).
Proof.
  unfold _create_summary_plots. intros (tp & Htp & [= <-])%bind_Ok. simpl. split.
  - case_decide; split; [done | eauto | by intros [? ?] | lia].
  - destruct (target_present df target).
    + apply bind_Ok in Htp as (ts & _ & Htp). split; [done|]. intros _.
      destruct (is_int64_float64 (dtype_of ts)).
      * injection Htp as <-. eauto.
      * apply bind_Ok in Htp as (fig3 & _ & [= <-]). eauto.
    + injection Htp as <-. split; [by intros [? ?] | done].
Qed.

Lemma elem_of_numeric_cols df c :
  c ∈ numeric_cols df ↔
  ∃ s, s ∈ series_of df ∧ name s = c ∧ (dtype_of s = int64 ∨ dtype_of s = float64).
Proof.
  unfold numeric_cols. rewrite list_elem_of_fmap. split.
  - intros (s & -> & [Hd Hs]%list_elem_of_filter). exists s.
    repeat split; [done|]. destruct (dtype_of s); try done; eauto.
  - intros (s & Hs & <- & Hd). exists s. split; [done|].
    apply list_elem_of_filter. split; [|done]. by destruct Hd as [-> | ->].
Qed.

(** C1 (as amended): the correlation section of the export is present
    exactly when the section filter admits ["correlations"] and the frame
    has at least two columns of dtype int64 or float64, the target column
    counted like any other; the correlation plot of the rendered report is
    present exactly when the frame has two such columns. *)
Theorem correlation_section_presence df target inc exc :
  (∀ d, _prepare_json_data df target inc exc = Ok d →
     (is_Some (jd_correlations d) ↔
        section_requested "correlations" inc exc = true ∧
        2 ≤ length (numeric_cols df))) ∧
  (∀ static sp, _create_summary_plots df target static = Ok sp →
     (is_Some (sp_correlations sp) ↔ 2 ≤ length (numeric_cols df))) ∧
  (∀ c, c ∈ numeric_cols df ↔
     ∃ s, s ∈ series_of df ∧ name s = c ∧
          (dtype_of s = int64 ∨ dtype_of s = float64)).
Proof.
  split; [|split].
  - intros d Hd. apply _prepare_json_data_Ok in Hd as (_ & _ & _ & _ & _ & -> & _).
    destruct (section_requested "correlations" inc exc).
    + case_decide; split; [done | eauto | by intros [? ?] | intros [_ ?]; lia].
    + split; [by intros [? ?] | by intros [? _]].
  - intros static sp Hsp. apply _create_summary_plots_Ok in Hsp as [-> _]. lia.
  - apply elem_of_numeric_cols.
Qed.

End export.

Lemma correlation_section_presence_witness :
  ∃ d, _prepare_json_data people (Some "target") None None = Ok d ∧
       (is_Some (jd_correlations d) ↔
          section_requested "correlations" None None = true ∧
          2 ≤ length (numeric_cols people)).
Proof.
  eexists. split; [vm_compute; reflexivity|].
  apply (correlation_section_presence people (Some "target") None None).
  vm_compute; reflexivity.
Defined.

(** C1 as stated fails: in the sample frame only [age] is numeric besides
    the target, yet the export has a correlation matrix over [age] and
    [target] and the rendered report a heat map. *)
Lemma correlation_section_people :
  (∃ d m, profile people (Some "target") json None None = Ok (JsonReport d) ∧
          jd_correlations d = Some m ∧ m.*1 = ["age"; "target"]) ∧
  (∃ ctx, profile people (Some "target") html None None = Ok (HtmlReport ctx) ∧
          fig_plot <$> sp_correlations (ctx_summary_plots ctx)
            = Some (Heatmap ["age"; "target"])).
Proof.
  split.
  - eexists _, _. split; [vm_compute; reflexivity|]. split; vm_compute; reflexivity.
  - eexists. split; vm_compute; reflexivity.
Qed.

Section sections.
Context {L : Library}.

Lemma section_requested_spec s inc exc :
  section_requested s inc exc = true ↔
  (inc = None ∨ inc = Some [] ∨ s ∈ default [] inc) ∧
  (exc = None ∨ exc = Some [] ∨ s ∉ default [] exc).
Proof.
  unfold section_requested, in_.
  rewrite andb_true_iff, !orb_true_iff, negb_true_iff, bool_decide_eq_true,
    bool_decide_eq_false.
  assert (∀ l, not_ l = true ↔ l = None ∨ l = Some []) as Hnot.
  { intros [[|? ?]|]; simpl; split; try done; eauto; by intros [|]. }
  rewrite !Hnot. tauto.
Qed.

Lemma profile_rendered df target fmt inc exc ctx :
  profile df target fmt inc exc = Ok (HtmlReport ctx) →
  ∃ sp, _create_summary_plots df target (bool_decide (fmt = pdf)) = Ok sp ∧
    ctx_summary_plots ctx = sp ∧
    ctx_n_missing ctx = missing_cells_of df ∧
    ctx_n_duplicates ctx = duplicated_sum df ∧
    ctx_duplicate_samples ctx = _analyze_duplicates df.
Proof.
  unfold profile.
  destruct (decide (MAX_ROWS < _)%Z); [done|].
  destruct (decide (MAX_COLS < _)%Z); [done|].
  destruct fmt.
  3: { by intros (d' & Hd & [=])%fmap_Ok. }
  all: intros (ov & Hov & (vl & Hvl & (sp & Hsp & (dn & Hdn & (dob & Hdo &
         (mp & Hmp & (dp & Hdp & [= <-])%bind_Ok)%bind_Ok)%bind_Ok)%bind_Ok)%bind_Ok)%bind_Ok)%bind_Ok.
  all: by exists sp.
Qed.

Lemma target_present_spec df target :
  target_present df target = true ↔ ∃ t, target = Some t ∧ t ≠ "" ∧ t ∈ columns df.
Proof.
  unfold target_present, truthy. destruct target as [t|]; simpl.
  - rewrite andb_true_iff, negb_true_iff, bool_decide_eq_false, bool_decide_eq_true.
    split; [intros [? ?]; eauto | by intros (? & [= <-] & ? & ?)].
  - split; [done | by intros (? & ? & _)].
Qed.

(** C3 (as amended): in the structured export the correlations,
    missing_values and duplicates sections are computed only if (include is
    unset or empty, or names the section) and (exclude is unset or empty,
    or does not name it); the latter two are computed whenever that holds,
    the correlations when the frame also has two int64 or float64 columns.
    The target-analysis section is computed exactly when a non-empty target
    is given that is a column of the frame, whatever the two lists say.
    The rendered report does not read the two lists: it is the same report
    whatever they say, and it always carries the missing-cell and duplicate
    totals and the duplicate groups, the correlation plot when the frame
    has two int64 or float64 columns, and the target plot when the target
    is a column. *)
Theorem section_filters df target inc exc :
  let allowed s :=
    (inc = None ∨ inc = Some [] ∨ s ∈ default [] inc) ∧
    (exc = None ∨ exc = Some [] ∨ s ∉ default [] exc) in
  (∀ d, _prepare_json_data df target inc exc = Ok d →
     (is_Some (jd_correlations d) ↔
        allowed "correlations" ∧ 2 ≤ length (numeric_cols df)) ∧
     (is_Some (jd_missing_values d) ↔ allowed "missing_values") ∧
     (is_Some (jd_duplicates d) ↔ allowed "duplicates") ∧
     (is_Some (jd_target_analysis d) ↔
        ∃ t, target = Some t ∧ t ≠ "" ∧ t ∈ columns df)) ∧
  (∀ fmt, fmt ≠ json →
     profile df target fmt inc exc = profile df target fmt None None) ∧
  (∀ fmt ctx, profile df target fmt inc exc = Ok (HtmlReport ctx) →
     ctx_n_missing ctx = missing_cells_of df ∧
     ctx_n_duplicates ctx = duplicated_sum df ∧
     ctx_duplicate_samples ctx = _analyze_duplicates df ∧
     (is_Some (sp_correlations (ctx_summary_plots ctx)) ↔
        2 ≤ length (numeric_cols df)) ∧
     (is_Some (sp_target_distribution (ctx_summary_plots ctx)) ↔
        ∃ t, target = Some t ∧ t ≠ "" ∧ t ∈ columns df)).
Proof.
  intros allowed. subst allowed. simpl. split; [|split].
  - intros d Hd.
    apply _prepare_json_data_Ok in Hd as (_ & _ & _ & _ & _ & Hc & Hm & Hdu & Ht).
    rewrite <- !section_requested_spec, <- target_present_spec.
    split; [|done]. rewrite Hc. destruct (section_requested _ _ _).
    + case_decide; split; [done | eauto | by intros [? ?] | intros [_ ?]; lia].
    + split; [by intros [? ?] | by intros [? _]].
  - intros fmt Hfmt. unfold profile. by destruct fmt.
  - intros fmt ctx Hctx.
    apply profile_rendered in Hctx as (sp & Hsp & -> & Hm & Hd & Hg).
    split; [done|]. split; [done|]. split; [done|].
    apply _create_summary_plots_Ok in Hsp as [Hc Ht].
    rewrite <- target_present_spec. split; [rewrite Hc; lia | done].
Qed.

End sections.

Lemma section_filters_witness :
  (∃ d, _prepare_json_data people (Some "target") (Some ["duplicates"]) None = Ok d ∧
        is_Some (jd_duplicates d) ∧ is_Some (jd_target_analysis d) ∧
        jd_missing_values d = None) ∧
  profile people (Some "target") html (Some ["duplicates"]) (Some ["correlations"])
  = profile people (Some "target") html None None.
Proof.
  destruct (section_filters people (Some "target") (Some ["duplicates"]) None)
    as (Hjson & _ & _).
  destruct (section_filters people (Some "target") (Some ["duplicates"])
              (Some ["correlations"])) as (_ & Hhtml & _).
  split; [|by apply Hhtml].
  eexists. split; [vm_compute; reflexivity|].
  edestruct Hjson as (_ & Hmv & Hdu & Hta); [vm_compute; reflexivity|].
  split; [|split].
  - apply Hdu. split; [right; right; simpl; left | by left].
  - apply Hta. exists "target". split; [done|]. split; [done|].
    vm_compute. do 2 right. left.
  - vm_compute. reflexivity.
Defined.

(** C3 as stated fails: with [include_sections = ["duplicates"]] the
    target analysis is not named by the include list, and with
    [exclude_sections = ["target_analysis"]] it is named by the exclude
    list; it is computed in both cases.  In the rendered report the
    correlation plot, the target plot, the duplicate total and the
    duplicate groups are there although the lists exclude them. *)
Lemma target_analysis_ignores_filters :
  (∃ d, _prepare_json_data people (Some "target") (Some ["duplicates"]) None = Ok d ∧
        is_Some (jd_target_analysis d) ∧ jd_missing_values d = None) ∧
  (∃ d, _prepare_json_data people (Some "target") None (Some ["target_analysis"]) = Ok d ∧
        is_Some (jd_target_analysis d)) ∧
  (∃ ctx, profile people (Some "target") html (Some ["missing_values"])
                  (Some ["correlations"; "target_analysis"]) = Ok (HtmlReport ctx) ∧
          is_Some (sp_correlations (ctx_summary_plots ctx)) ∧
          is_Some (sp_target_distribution (ctx_summary_plots ctx))) ∧
  (∃ ctx, profile dup_pair None html (Some ["correlations"]) (Some ["duplicates"])
          = Ok (HtmlReport ctx) ∧
          ctx_n_duplicates ctx = 1 ∧ length (ctx_duplicate_samples ctx) = 1).
Proof.
  split; [|split; [|split]]; eexists;
    (split; [vm_compute; reflexivity|]); vm_compute; eauto.
Qed.

Section entry_point.
Context {L : Library}.

(** C5 (as amended): for every report the entry point produces, the
    overview row count is the number of rows of the frame and the overview
    column count is the full number of columns, target included; the
    per-column map has one entry per column other than the target, in
    column order, so it is one shorter than the frame when a target is
    designated and present. *)
Theorem overview_counts df target fmt inc exc r :
  profile df target fmt inc exc = Ok r →
  match r with
  | JsonReport d =>
      jd_shape_rows d = nrows df ∧ jd_shape_columns d = ncols df ∧
      (jd_variables d).*1 = profiled_columns df target
  | HtmlReport ctx =>
      ov_rows (ctx_overview ctx) = nrows df ∧
      ov_columns (ctx_overview ctx) = ncols df ∧
      (ctx_variables ctx).*1 = profiled_columns df target
  end ∧
  (∀ c, c ∈ profiled_columns df target ↔
        c ∈ columns df ∧ ¬ (target = Some c ∧ c ≠ "")) ∧
  (∀ t, target = Some t → t ≠ "" → t ∈ columns df → NoDup (columns df) →
        S (length (profiled_columns df target)) = ncols df).
Proof.
  intros Hr. split; [|split].
  - apply profile_Ok_format in Hr. destruct r as [d|ctx].
    + destruct Hr as [_ Hd].
      by apply _prepare_json_data_Ok in Hd as (? & ? & _ & _ & ? & _).
    + destruct Hr as (_ & Hov & _ & Hkeys & _). split; [|split; [|done]].
      * unfold _calculate_overview_stats in Hov.
        by apply bind_Ok in Hov as (? & _ & (? & _ & [= <-])%bind_Ok).
      * unfold _calculate_overview_stats in Hov.
        by apply bind_Ok in Hov as (? & _ & (? & _ & [= <-])%bind_Ok).
  - intros c. rewrite elem_of_profiled_columns, <- is_target_true.
    destruct (is_target target c); split; intros [? ?]; split; congruence.
  - intros t -> Hne Hin Hnd. by apply length_profiled_columns.
Qed.

End entry_point.

Lemma overview_counts_witness :
  ∃ d, profile people (Some "target") json None None = Ok (JsonReport d) ∧
       jd_shape_rows d = 4 ∧ jd_shape_columns d = 3 ∧
       (jd_variables d).*1 = ["age"; "city"].
Proof.
  eexists. split; [vm_compute; reflexivity|].
  edestruct (overview_counts people (Some "target") json None None) as [H _];
    [vm_compute; reflexivity|].
  exact H.
Defined.

(** C5 as stated fails: with the target designated and present, the
    overview still counts all three columns, not two. *)
Lemma overview_columns_count_target :
  (∃ d, profile people (Some "target") json None None = Ok (JsonReport d) ∧
        jd_shape_columns d = 3 ∧ jd_shape_columns d ≠ ncols people - 1) ∧
  (∃ ctx, profile people (Some "target") html None None = Ok (HtmlReport ctx) ∧
          ov_columns (ctx_overview ctx) = 3 ∧
          ov_columns (ctx_overview ctx) ≠ ncols people - 1).
Proof.
  split; eexists; (split; [vm_compute; reflexivity|]); vm_compute; split; done.
Qed.

Section absent_target.
Context {L : Library}.

Lemma _analyze_variable_absent_target df column t static :
  t ∉ columns df →
  _analyze_variable df column (Some t) static = _analyze_variable df column None static.
Proof.
  intros Ht. unfold _analyze_variable.
  rewrite (target_present_absent df t Ht).
  by replace (target_present df None) with false by done.
Qed.

Lemma _create_summary_plots_absent_target df t static :
  t ∉ columns df →
  _create_summary_plots df (Some t) static = _create_summary_plots df None static.
Proof.
  intros Ht. unfold _create_summary_plots.
  rewrite (target_present_absent df t Ht).
  by replace (target_present df None) with false by done.
Qed.

Lemma _prepare_json_data_absent_target df t inc exc :
  t ∉ columns df →
  _prepare_json_data df (Some t) inc exc = _prepare_json_data df None inc exc.
Proof.
  intros Ht. unfold _prepare_json_data.
  rewrite (target_present_absent df t Ht).
  replace (target_present df None) with false by done.
  rewrite (profiled_columns_absent df t Ht), profiled_columns_None.
  f_equal. apply mapM_ext_in. intros c _.
  by rewrite (_analyze_variable_absent_target df c t false Ht).
Qed.

(** C10: a target name that is not a column of the frame changes nothing:
    the entry point returns what it returns without a target, faults
    included; every column is profiled, and a produced report has neither a
    target-analysis section, nor a target distribution plot, nor a
    per-column target plot. *)
Theorem absent_target_ignored df t fmt inc exc :
  t ∉ columns df →
  profile df (Some t) fmt inc exc = profile df None fmt inc exc ∧
  profiled_columns df (Some t) = columns df ∧
  ∀ r, profile df (Some t) fmt inc exc = Ok r →
    match r with
    | JsonReport d =>
        (jd_variables d).*1 = columns df ∧ jd_target_analysis d = None
    | HtmlReport ctx =>
        (ctx_variables ctx).*1 = columns df ∧
        Forall (λ p, vs_target_plot p.2 = None) (ctx_variables ctx) ∧
        sp_target_distribution (ctx_summary_plots ctx) = None
    end.
Proof.
  intros Ht. split; [|split; [by apply profiled_columns_absent|]].
  - unfold profile.
    rewrite (_prepare_json_data_absent_target df t inc exc Ht).
    rewrite (_create_summary_plots_absent_target df t _ Ht).
    rewrite (profiled_columns_absent df t Ht), profiled_columns_None.
    rewrite (mapM_ext_in
      (λ column, _analyze_variable df column (Some t) (bool_decide (fmt = pdf)))
      (λ column, _analyze_variable df column None (bool_decide (fmt = pdf)))); [done|].
    intros c _. by apply _analyze_variable_absent_target.
  - intros r Hr. apply profile_Ok_format in Hr. destruct r as [d|ctx].
    + destruct Hr as [_ Hd].
      apply _prepare_json_data_Ok in Hd as (_ & _ & _ & _ & Hk & _ & _ & _ & Hta).
      rewrite Hk, profiled_columns_absent by done. split; [done|].
      rewrite (target_present_absent df t Ht) in Hta.
      destruct (jd_target_analysis d); [|done].
      by assert (false = true) by (apply Hta; eauto).
    + destruct Hr as (_ & _ & Hvl & Hk & Hsp & _).
      rewrite Hk, profiled_columns_absent by done. split; [done|]. split.
      * apply mapM_Ok in Hvl.
        assert (Forall (λ v, vs_target_plot v = None) (ctx_variables ctx).*2) as HF.
        { eapply Forall2_Forall_r; [exact Hvl|].
          apply Forall_forall. intros c _ v Hv.
          apply _analyze_variable_Ok in Hv as (_ & _ & _ & _ & _ & _ & _ & Hp).
          rewrite (target_present_absent df t Ht) in Hp.
          destruct (vs_target_plot v); [|done].
          by assert (false = true) by (apply Hp; eauto). }
        by apply Forall_fmap in HF.
      * apply _create_summary_plots_Ok in Hsp as [_ Hp].
        rewrite (target_present_absent df t Ht) in Hp.
        destruct (sp_target_distribution _); [|done].
        by assert (false = true) by (apply Hp; eauto).
Qed.

End absent_target.

Lemma absent_target_ignored_witness :
  ("label" ∉ columns people) ∧
  (profile people (Some "label") json None None
   = profile people None json None None).
Proof.
  assert ("label" ∉ columns people) as H
    by (apply (proj1 (bool_decide_eq_false _)); vm_compute; reflexivity).
  split; [exact H|].
  apply (absent_target_ignored people "label" json None None H).
Defined.

(** ** Faults of the pipeline *)

Create HintDb faults discriminated.

Lemma no_size_error_Ok {A} (a : A) : no_size_error (Ok a).
Proof. intros msg. done. Qed.

Lemma no_size_error_mret {A} (a : A) : no_size_error (mret a).
Proof. intros msg. done. Qed.

Lemma no_size_error_bind {A B} (m : result A) (f : A → result B) :
  no_size_error m → (∀ a, no_size_error (f a)) → no_size_error (m ≫= f).
Proof.
  intros Hm Hf msg [H|(a & _ & H)]%bind_Raise; [by apply (Hm msg) | by apply (Hf a msg)].
Qed.

Lemma no_size_error_fmap {A B} (g : A → B) (m : result A) :
  no_size_error m → no_size_error (g <$> m).
Proof. intros Hm msg H%fmap_Raise. by apply (Hm msg). Qed.

Lemma no_size_error_mapM {A B} (f : A → result B) (l : list A) :
  (∀ x, no_size_error (f x)) → no_size_error (mapM f l).
Proof. intros Hf msg (x & _ & H)%mapM_Raise. by apply (Hf x msg). Qed.

Lemma no_size_error_if {A} (b : bool) (m1 m2 : result A) :
  no_size_error m1 → no_size_error m2 → no_size_error (if b then m1 else m2).
Proof. by destruct b. Qed.

Lemma no_size_error_pct a b : no_size_error (pct a b).
Proof. intros msg H%pct_Raise. by destruct H. Qed.

Lemma no_size_error_getitem df column : no_size_error (getitem df column).
Proof. intros msg H%getitem_Raise. by destruct H. Qed.

Lemma no_size_error_numeric_fields d : no_size_error (numeric_fields d).
Proof. by destruct d. Qed.

Lemma no_size_error_describe_include df sel : no_size_error (describe_include df sel).
Proof.
  unfold describe_include. case_decide; [done|]. by destruct (filter _ _).
Qed.

#[export] Hint Resolve no_size_error_Ok no_size_error_mret no_size_error_bind
  no_size_error_fmap no_size_error_mapM no_size_error_if no_size_error_pct
  no_size_error_getitem no_size_error_numeric_fields
  no_size_error_describe_include : faults.

Lemma no_size_error_px_bar {A} x y (fig : A) : no_size_error (px_bar x y fig).
Proof. intros msg H%px_bar_Raise. by destruct H as [[? ?] _]. Qed.

#[export] Hint Resolve no_size_error_px_bar : faults.

Ltac solve_faults :=
  repeat first
    [ progress cbv zeta
    | solve [auto 2 with faults]
    | apply no_size_error_bind; [|intros ?]
    | apply no_size_error_mapM; intros ?
    | apply no_size_error_fmap
    | apply no_size_error_if
    | case_decide ].

Lemma no_size_error_target_dtype df target :
  no_size_error (target_is_int64_float64 df target).
Proof. unfold target_is_int64_float64. solve_faults. Qed.

#[export] Hint Resolve no_size_error_target_dtype : faults.

Section faults.
Context {L : Library}.

Lemma no_size_error_mutual_info_classif X y : no_size_error (mutual_info_classif X y).
Proof. intros msg. apply mutual_info_classif_foreign. Qed.

Lemma no_size_error_plot_kde x : no_size_error (plot_kde x).
Proof. intros msg. apply plot_kde_foreign. Qed.

#[local] Hint Resolve no_size_error_mutual_info_classif no_size_error_plot_kde : faults.

Lemma no_size_error__analyze_variable df column target static :
  no_size_error (_analyze_variable df column target static).
Proof. unfold _analyze_variable. solve_faults. Qed.

Lemma no_size_error__calculate_overview_stats df :
  no_size_error (_calculate_overview_stats df).
Proof. unfold _calculate_overview_stats. solve_faults. Qed.

Lemma no_size_error__create_summary_plots df target static :
  no_size_error (_create_summary_plots df target static).
Proof. unfold _create_summary_plots. solve_faults. Qed.

Lemma no_size_error_target_analysis df t : no_size_error (target_analysis_block df t).
Proof. unfold target_analysis_block. solve_faults. Qed.

#[local] Hint Resolve no_size_error__analyze_variable
  no_size_error__calculate_overview_stats no_size_error__create_summary_plots
  no_size_error_target_analysis : faults.

Lemma no_size_error__prepare_json_data df target inc exc :
  no_size_error (_prepare_json_data df target inc exc).
Proof. unfold _prepare_json_data. solve_faults. Qed.

#[local] Hint Resolve no_size_error__prepare_json_data : faults.

Lemma profile_size_error_iff df target fmt inc exc :
  (∃ msg, profile df target fmt inc exc = Raise (DataSizeError msg)) ↔
  (1000000 < Z.of_nat (nrows df))%Z ∨ (1000 < Z.of_nat (ncols df))%Z.
Proof.
  unfold profile.
  destruct (decide (MAX_ROWS < _)%Z) as [Hr|Hr]; [split; eauto|].
  destruct (decide (MAX_COLS < _)%Z) as [Hc|Hc]; [split; eauto|].
  unfold MAX_ROWS, MAX_COLS in *. split; [|lia].
  intros [msg Hmsg]. exfalso. revert msg Hmsg.
  match goal with |- ∀ msg, ?m = _ → _ => change (no_size_error m) end.
  destruct fmt; solve_faults.
Qed.

(** ** A frame at the row limit *)

Lemma nrows_tall n : nrows (tall n) = n.
Proof. unfold nrows, tall, range_index. cbn [index]. by rewrite length_fmap, length_seq. Qed.

Lemma ncols_tall n : ncols (tall n) = 1.
Proof. done. Qed.

Lemma ncols_wide n : ncols (wide n) = n.
Proof.
  unfold ncols, columns, wide. cbn [series_of].
  by rewrite !length_fmap, length_seq.
Qed.

(** The target analysis is produced unless the mutual-information routine
    is called and refuses its input. *)
Lemma target_analysis_produces df t ts :
  getitem df t = Ok ts →
  (is_numeric_dtype (dtype_of ts) = false → numeric_cols df ≠ [] →
     mutual_info_classif
       (cells <$> filter (λ s, is_int64_float64 (dtype_of s) = true) (series_of df))
       (cells ts) = Ok ()) →
  ∃ ta, target_analysis_block df t = Ok ta.
Proof.
  intros Hts Hmi. unfold target_analysis_block. rewrite Hts.
  unfold mbind at 1, result_bind at 1.
  destruct (is_numeric_dtype (dtype_of ts)); [by eexists|].
  cbv zeta. case_decide as Hlen; [|by eexists].
  rewrite Hmi; [by eexists | done |].
  unfold numeric_cols. intros Hnil%fmap_nil_inv. rewrite Hnil in Hlen. simpl in Hlen. lia.
Qed.

Lemma bind_produces {A B} (m : result A) (f : A → result B) :
  (∃ a, m = Ok a) → (∀ a, ∃ b, f a = Ok b) → ∃ b, m ≫= f = Ok b.
Proof. intros [a ->] Hf. apply Hf. Qed.

Lemma _prepare_json_data_produces df target inc exc :
  (∀ c, c ∈ profiled_columns df target →
        ∃ vs, _analyze_variable df c target false = Ok vs) →
  (target_present df target = true →
     ∃ ta, target_analysis_block df (default "" target) = Ok ta) →
  ∃ d, _prepare_json_data df target inc exc = Ok d.
Proof.
  intros Hvars Htarget. unfold _prepare_json_data.
  apply bind_produces; [|intros vars].
  { apply mapM_all_Ok. intros c Hc. destruct (Hvars c Hc) as [vs ->]. by eexists. }
  apply bind_produces; [|intros mv].
  { destruct (section_requested _ _ _); [|by eexists].
    apply bind_produces; [apply pct_NpInt64 | intros; by eexists]. }
  apply bind_produces; [|intros du].
  { destruct (section_requested _ _ _); [|by eexists].
    apply bind_produces; [apply pct_NpInt64 | intros; by eexists]. }
  apply bind_produces; [|intros ta; by eexists].
  destruct (target_present df target) eqn:Htp; [|by eexists].
  destruct (Htarget eq_refl) as [ta ->]. by eexists.
Qed.

(** A frame of [n] rows, up to the limit, is profiled. *)
Lemma profile_tall n :
  0 < n → (Z.of_nat n ≤ 1000000)%Z →
  ∃ d, profile (tall n) None json None None = Ok (JsonReport d) ∧ jd_n_obs d = n.
Proof.
  intros Hn Hmax. unfold profile. rewrite nrows_tall, ncols_tall.
  rewrite decide_False by (unfold MAX_ROWS; lia).
  rewrite decide_False by (unfold MAX_COLS; lia).
  destruct (_prepare_json_data_produces (tall n) None None None) as [d Hd].
  { intros c Hc. apply (_analyze_variable_produces _ _ _ _
      {| name := "x"; dtype_of := int64; cells := replicate n (int_cell 7);
         categories := [] |}).
    - rewrite profiled_columns_None in Hc. apply list_elem_of_singleton in Hc as ->.
      reflexivity.
    - destruct n; [lia | done].
    - done.
    - done. }
  { done. }
  exists d. rewrite Hd. split; [done|].
  apply _prepare_json_data_Ok in Hd as (_ & _ & -> & _). apply nrows_tall.
Qed.

(** C6: the entry point raises the size error exactly when the frame has
    more than 1,000,000 rows or more than 1,000 columns: a frame of exactly
    1,000,000 rows (and at most 1,000 columns) passes the guard, and such a
    frame is profiled; one of 1,000,001 rows is refused.  The guard precedes
    the statistics: once it trips, the size error is the outcome whatever
    the statistics would have raised, and no statistic raises it. *)
Theorem size_guard df target fmt inc exc :
  ((∃ msg, profile df target fmt inc exc = Raise (DataSizeError msg)) ↔
     (1000000 < Z.of_nat (nrows df))%Z ∨ (1000 < Z.of_nat (ncols df))%Z) ∧
  (Z.of_nat (nrows df) = 1000000%Z → (Z.of_nat (ncols df) ≤ 1000)%Z →
     no_size_error (profile df target fmt inc exc)) ∧
  (Z.of_nat (nrows df) = 1000001%Z →
     ∃ msg, profile df target fmt inc exc = Raise (DataSizeError msg)) ∧
  (∃ d, profile (tall (Z.to_nat 1000000)) None json None None = Ok (JsonReport d) ∧
        jd_n_obs d = Z.to_nat 1000000).
Proof.
  pose proof (profile_size_error_iff df target fmt inc exc) as Hiff.
  split; [exact Hiff|]. split; [|split].
  - intros Hr Hc msg Hmsg.
    assert ((1000000 < Z.of_nat (nrows df))%Z ∨ (1000 < Z.of_nat (ncols df))%Z)
      by (apply Hiff; eauto). lia.
  - intros Hr. apply Hiff. lia.
  - apply profile_tall; lia.
Qed.

End faults.

Lemma size_guard_witness :
  (∃ msg, profile (tall (Z.to_nat 1000001)) None html None None
          = Raise (DataSizeError msg)) ∧
  no_size_error (profile (tall (Z.to_nat 1000000)) None html None None) ∧
  (∃ msg, profile (wide (Z.to_nat 1001)) None html None None
          = Raise (DataSizeError msg)).
Proof.
  split; [|split].
  - apply (size_guard (tall (Z.to_nat 1000001)) None html None None).
    rewrite nrows_tall. lia.
  - apply (size_guard (tall (Z.to_nat 1000000)) None html None None).
    + rewrite nrows_tall. lia.
    + rewrite ncols_tall. lia.
  - apply (proj2 (proj1 (size_guard (wide (Z.to_nat 1001)) None html None None))).
    right. rewrite ncols_wide. lia.
Defined.

(** ** Frames without rows *)

Section no_rows.
Context {L : Library}.

Lemma cells_no_rows df s :
  wf_df df → nrows df = 0 → s ∈ series_of df → cells s = [].
Proof.
  intros [_ Hrect] Hn Hs. rewrite Forall_forall in Hrect.
  apply nil_length_inv. by rewrite (Hrect s Hs).
Qed.

Lemma missing_cells_no_rows df : wf_df df → nrows df = 0 → missing_cells_of df = 0.
Proof.
  intros Hwf Hn. unfold missing_cells_of.
  assert (Forall (λ s, cells s = []) (series_of df)) as Hall.
  { apply Forall_forall. intros s Hs. by eapply cells_no_rows. }
  induction Hall as [|s l Hs _ IH]; [done|]. rewrite fmap_cons. simpl.
  by rewrite Hs, IH.
Qed.

Lemma duplicated_sum_no_rows df : nrows df = 0 → duplicated_sum df = 0.
Proof.
  intros Hn. unfold duplicated_sum, duplicated, df_empty.
  by rewrite (bool_decide_eq_true_2 _ Hn).
Qed.

(** C2 (as amended): on a frame without rows, profiling any column raises
    the division fault of the language ([distinct_pct] divides two plain
    integers, unguarded); the overview percentages [duplicate_rows_pct] and
    [missing_cells_pct] are NumPy divisions, which do not raise and give
    NaN (text "nan"), neither 0 nor "N/A". *)
Theorem zero_rows_percentages df :
  wf_df df → nrows df = 0 →
  (∀ column target static, column ∈ columns df →
     _analyze_variable df column target static = Raise ZeroDivisionError) ∧
  (∃ ov, _calculate_overview_stats df = Ok ov ∧
         ov_duplicate_rows_pct ov = Fmt2f NaN ∧
         ov_missing_cells_pct ov = Fmt2f NaN ∧
         fstr_text (ov_duplicate_rows_pct ov) = Some "nan" ∧
         fstr_text (ov_missing_cells_pct ov) = Some "nan").
Proof.
  intros Hwf Hn. split.
  - intros column target static [s Hs]%getitem_elem_of.
    unfold _analyze_variable. rewrite Hs.
    apply getitem_Ok in Hs as [Hs _].
    unfold mbind at 1, result_bind at 1.
    by rewrite (cells_no_rows df s Hwf Hn Hs).
  - unfold _calculate_overview_stats, df_size.
    rewrite (missing_cells_no_rows df Hwf Hn), (duplicated_sum_no_rows df Hn), Hn.
    eexists. split; [reflexivity|]. done.
Qed.

End no_rows.

Lemma zero_rows_percentages_witness :
  wf_df no_rows ∧ nrows no_rows = 0 ∧
  _analyze_variable no_rows "a" None false = Raise ZeroDivisionError.
Proof.
  assert (wf_df no_rows) as Hwf.
  { split; [apply NoDup_singleton | by repeat constructor]. }
  split; [exact Hwf|]. split; [reflexivity|].
  apply (zero_rows_percentages no_rows Hwf eq_refl). vm_compute. left.
Defined.

(** C2 as stated fails: profiling the only column of a frame without rows
    raises the division fault, in the helper and through both paths of the
    entry point; the overview percentages come out as "nan". *)
Lemma zero_rows_column_profile_raises :
  _analyze_variable no_rows "a" None false = Raise ZeroDivisionError ∧
  profile no_rows None html None None = Raise ZeroDivisionError ∧
  profile no_rows None json None None = Raise ZeroDivisionError ∧
  (ov_missing_cells_pct <$> _calculate_overview_stats no_rows) = Ok (Fmt2f NaN).
Proof. repeat split; vm_compute; reflexivity. Qed.

(** ** Comparison *)

Lemma elem_of_sorted (s : gset string) x : x ∈ sorted s ↔ x ∈ s.
Proof. unfold sorted. by rewrite merge_sort_Permutation, elem_of_elements. Qed.

Lemma sorted_StronglySorted (s : gset string) : StronglySorted String.le (sorted s).
Proof. apply StronglySorted_merge_sort; apply _. Qed.

Lemma sorted_NoDup (s : gset string) : NoDup (sorted s).
Proof. unfold sorted. rewrite merge_sort_Permutation. apply NoDup_elements. Qed.

Lemma elem_of_column_set df c : c ∈ column_set df ↔ c ∈ columns df.
Proof. unfold column_set. apply elem_of_list_to_set. Qed.

Lemma elem_of_common_columns df1 df2 c :
  c ∈ common_columns df1 df2 ↔ c ∈ columns df1 ∧ c ∈ columns df2.
Proof.
  unfold common_columns.
  by rewrite elem_of_sorted, elem_of_intersection, !elem_of_column_set.
Qed.

Lemma elem_of_columns_only_in_df1 df1 df2 c :
  c ∈ columns_only_in_df1 df1 df2 ↔ c ∈ columns df1 ∧ c ∉ columns df2.
Proof.
  unfold columns_only_in_df1.
  by rewrite elem_of_sorted, elem_of_difference, !elem_of_column_set.
Qed.

Lemma elem_of_columns_only_in_df2 df1 df2 c :
  c ∈ columns_only_in_df2 df1 df2 ↔ c ∈ columns df2 ∧ c ∉ columns df1.
Proof.
  unfold columns_only_in_df2.
  by rewrite elem_of_sorted, elem_of_difference, !elem_of_column_set.
Qed.

Lemma common_columns_comm df1 df2 : common_columns df1 df2 = common_columns df2 df1.
Proof.
  unfold common_columns. f_equal. apply set_eq. intros c.
  rewrite !elem_of_intersection. tauto.
Qed.


Lemma mapM_Ok_fmap {A B} (g : A → B) (l : list A) :
  mapM (λ x, Ok (g x)) l = Ok (g <$> l).
Proof. induction l as [|x l IH]; simpl; [done|]. by rewrite IH. Qed.


Section comparison.
Context {L : Library}.

Lemma compare_Ok df1 df2 n r :
  compare df1 df2 n = Ok r →
  cmp_columns_only_in_df1 r = columns_only_in_df1 df1 df2 ∧
  cmp_columns_only_in_df2 r = columns_only_in_df2 df1 df2 ∧
  cmp_common_columns r = common_columns df1 df2 ∧
  Forall2 (λ col p, compare_column df1 df2 n col = Ok p)
          (common_columns df1 df2) (cmp_variable_comparison r).
Proof.
  unfold compare.
  intros (dd & Hdd & (vc & Hvc & [= <-])%bind_Ok)%bind_Ok. simpl.
  repeat split; try done. by apply mapM_Ok.
Qed.

(** C9: whenever both orders of a comparison produce a result, the columns
    only in the first frame of one are the columns only in the second
    frame of the other, the common columns agree, and each of the three
    lists is in ascending lexicographic order without repetition. *)
Theorem compare_symmetry A B n m r1 r2 :
  compare A B n = Ok r1 → compare B A m = Ok r2 →
  cmp_columns_only_in_df1 r1 = cmp_columns_only_in_df2 r2 ∧
  cmp_columns_only_in_df2 r1 = cmp_columns_only_in_df1 r2 ∧
  cmp_common_columns r1 = cmp_common_columns r2 ∧
  Forall (λ l, StronglySorted String.le l ∧ NoDup l)
    [cmp_columns_only_in_df1 r1; cmp_columns_only_in_df2 r1; cmp_common_columns r1] ∧
  (∀ c, c ∈ cmp_columns_only_in_df1 r1 ↔ c ∈ columns A ∧ c ∉ columns B) ∧
  (∀ c, c ∈ cmp_columns_only_in_df2 r1 ↔ c ∈ columns B ∧ c ∉ columns A) ∧
  (∀ c, c ∈ cmp_common_columns r1 ↔ c ∈ columns A ∧ c ∈ columns B).
Proof.
  intros (-> & -> & -> & _)%compare_Ok (-> & -> & -> & _)%compare_Ok.
  split; [done|]. split; [done|]. split; [apply common_columns_comm|].
  split.
  - repeat constructor; apply sorted_StronglySorted || apply sorted_NoDup.
  - split; [apply elem_of_columns_only_in_df1|].
    split; [apply elem_of_columns_only_in_df2 | apply elem_of_common_columns].
Qed.

Lemma top_values_value vc total :
  0 < total →
  top_values vc total
  = Ok ((λ p : value * nat,
           {| tv_value := str p.1; tv_count := p.2;
              tv_percentage :=
                Fmt2f (Fin ((Z.of_nat p.2 # Pos.of_nat total) * 100)) |})
        <$> take 5 vc).
Proof.
  intros Ht. unfold top_values. rewrite <- mapM_Ok_fmap.
  apply mapM_ext_in. intros p _. by rewrite pct_value.
Qed.


(** A common column without rows on either side. *)
Lemma compare_column_no_rows df1 df2 n col s1 s2 :
  getitem df1 col = Ok s1 → getitem df2 col = Ok s2 →
  cells s1 = [] ∨ cells s2 = [] →
  compare_column df1 df2 n col = Raise ZeroDivisionError.
Proof.
  intros H1 H2 Hnil. unfold compare_column. rewrite H1, H2.
  unfold mbind at 1 2, result_bind at 1 2.
  destruct (pct_NpInt64 (isna_sum (cells s1)) (length (cells s1))) as [x1 ->].
  destruct (pct_NpInt64 (isna_sum (cells s2)) (length (cells s2))) as [x2 ->].
  unfold mbind at 1 2, result_bind at 1 2.
  destruct (cells s1) as [|c1 cs1]; [done|].
  destruct Hnil as [?| ->]; [done|].
  destruct (pct_Ok_pos (PyInt (nunique (c1 :: cs1))) (length (c1 :: cs1))) as [y ->];
    [simpl; lia | done].
Qed.

(** A common column with rows on both sides: the divisions go through,
    what is left are the two density estimates of the numeric case. *)
Lemma compare_column_rows df1 df2 n col s1 s2 :
  getitem df1 col = Ok s1 → getitem df2 col = Ok s2 →
  cells s1 ≠ [] → cells s2 ≠ [] →
  compare_column df1 df2 n col =
    if is_int64_float64 (dtype_of s1) && is_int64_float64 (dtype_of s2) then
      plot_kde (dropna (cells s1));;
      plot_kde (dropna (cells s2));;
      Ok (col,
          {| cc_stats := common_stats s1 s2 (NumericStats (describe s1) (describe s2));
             cc_distribution_data :=
               DistNumeric n (dropna (cells s1)) (dropna (cells s2)) |})
    else
      Ok (col,
          {| cc_stats :=
               common_stats s1 s2
                 (CategoricalStats
                    ((λ p : value * nat,
                        {| tv_value := str p.1; tv_count := p.2;
                           tv_percentage :=
                             Fmt2f (Fin ((Z.of_nat p.2 # Pos.of_nat (length (cells s1)))
                                         * 100)) |})
                       <$> take 5 (value_counts s1))
                    ((λ p : value * nat,
                        {| tv_value := str p.1; tv_count := p.2;
                           tv_percentage :=
                             Fmt2f (Fin ((Z.of_nat p.2 # Pos.of_nat (length (cells s2)))
                                         * 100)) |})
                       <$> take 5 (value_counts s2)));
             cc_distribution_data :=
               DistCategorical (dict_of_items (value_counts s1))
                               (dict_of_items (value_counts s2)) |}).
Proof.
  intros H1 H2 Hn1 Hn2. unfold compare_column. rewrite H1, H2.
  unfold mbind at 1 2, result_bind at 1 2.
  assert (0 < length (cells s1)) as Hl1 by (destruct (cells s1); [done | simpl; lia]).
  assert (0 < length (cells s2)) as Hl2 by (destruct (cells s2); [done | simpl; lia]).
  rewrite !pct_value by done.
  unfold mbind at 1 2 3 4, result_bind at 1 2 3 4. cbv zeta.
  destruct (_ && _); [done|].
  by rewrite !top_values_value.
Qed.


Lemma compare_column_Ok df1 df2 n col p :
  compare_column df1 df2 n col = Ok p →
  ∃ s1 s2, getitem df1 col = Ok s1 ∧ getitem df2 col = Ok s2 ∧
    cells s1 ≠ [] ∧ cells s2 ≠ [] ∧
    (is_int64_float64 (dtype_of s1) && is_int64_float64 (dtype_of s2) = true →
       plot_kde (dropna (cells s1)) = Ok () ∧ plot_kde (dropna (cells s2)) = Ok ()).
Proof.
  intros Hp.
  destruct (getitem df1 col) as [s1|e1] eqn:H1;
    [|unfold compare_column in Hp; by rewrite H1 in Hp].
  destruct (getitem df2 col) as [s2|e2] eqn:H2;
    [|unfold compare_column in Hp; by rewrite H1, H2 in Hp].
  exists s1, s2. split; [done|]. split; [done|].
  destruct (decide (cells s1 = [] ∨ cells s2 = [])) as [Hnil|Hne].
  { by rewrite (compare_column_no_rows _ _ _ _ _ _ H1 H2 Hnil) in Hp. }
  assert (cells s1 ≠ [] ∧ cells s2 ≠ []) as [Hn1 Hn2] by tauto.
  split; [done|]. split; [done|]. intros Hnum.
  rewrite (compare_column_rows _ _ _ _ _ _ H1 H2 Hn1 Hn2), Hnum in Hp.
  destruct (plot_kde (dropna (cells s1))) as [[]|]; [|done].
  by destruct (plot_kde (dropna (cells s2))) as [[]|].
Qed.










End comparison.

Lemma compare_symmetry_witness :
  ∃ r1 r2,
    compare frame_a frame_b 30 = Ok r1 ∧ compare frame_b frame_a 30 = Ok r2 ∧
    cmp_columns_only_in_df1 r1 = cmp_columns_only_in_df2 r2 ∧
    cmp_columns_only_in_df2 r1 = cmp_columns_only_in_df1 r2 ∧
    cmp_common_columns r1 = cmp_common_columns r2.
Proof.
  eexists _, _. split; [vm_compute; reflexivity|]. split; [vm_compute; reflexivity|].
  edestruct (compare_symmetry frame_a frame_b 30 30) as (H1 & H2 & H3 & _);
    [vm_compute; reflexivity | vm_compute; reflexivity |].
  split; [exact H1|]. split; [exact H2 | exact H3].
Defined.

Example compare_frames_columns :
  columns_only_in_df1 frame_a frame_b = ["region"] ∧
  columns_only_in_df2 frame_a frame_b = ["flag"] ∧
  common_columns frame_a frame_b = ["id"; "score"].
Proof. repeat split; vm_compute; reflexivity. Qed.



(** ** Duplicate analysis *)





Lemma StronglySorted_take {A} (R : relation A) n (l : list A) :
  StronglySorted R l → StronglySorted R (take n l).
Proof.
  intros Hl. rewrite <- (take_drop n l) in Hl. by apply StronglySorted_app_1_l in Hl.
Qed.


(** C7: evaluation at a frame of ten rows whose only duplicated pair
    (rows 0 and 1) shares a missing cell.  The overview counts one duplicate
    row and the sample of duplicated rows is [0, 1], yet the analysis
    reports no group at all, where the claim asks for exactly one group of
    count 2; on the same frame with the missing cells filled in, it reports
    that group. *)
Theorem duplicate_groups_missing_pair :
  length (index dup_pair_nan) = 10 ∧
  duplicated_sum dup_pair_nan = 1 ∧
  (ov_duplicate_rows <$> _calculate_overview_stats dup_pair_nan) = Ok 1 ∧
  duplicated_index dup_pair_nan = [0; 1]%Z ∧
  _analyze_duplicates dup_pair_nan = [] ∧
  _analyze_duplicates dup_pair = [ {| dup_count := 2; dup_rows := "0, 1" |} ] ∧
  (ov_duplicate_rows <$> _calculate_overview_stats dup_pair) = Ok 1.
Proof. repeat split; vm_compute; reflexivity. Qed.

(** * Further properties of the profiler *)

(** ** Overview *)

Lemma length_rows df : length (rows df) = nrows df.
Proof. unfold rows. by rewrite length_fmap, length_seq. Qed.

Lemma length_duplicated_from seen rs :
  length (duplicated_from seen rs) = length rs.
Proof. revert seen. induction rs as [|r rs IH]; intros seen; simpl; [done|]. by rewrite IH. Qed.

Lemma duplicated_sum_lt df : 0 < nrows df → duplicated_sum df < nrows df.
Proof.
  intros Hn. unfold duplicated_sum, duplicated.
  destruct (df_empty df); [simpl; lia|].
  rewrite <- length_rows in *. destruct (rows df) as [|r rs]; [simpl in Hn; lia|].
  simpl.
  rewrite filter_cons_False by done.
  pose proof (length_filter (λ b, b = true) (duplicated_from [r] rs)) as Hle.
  rewrite length_duplicated_from in Hle. lia.
Qed.

Lemma isna_sum_le (cs : list cell) : isna_sum cs ≤ length cs.
Proof. pose proof (isna_sum_non_missing cs). lia. Qed.

Lemma missing_cells_le df : wf_df df → missing_cells_of df ≤ df_size df.
Proof.
  intros [_ Hrect]. unfold missing_cells_of, df_size, ncols, columns.
  rewrite length_fmap. induction Hrect as [|s l Hs _ IH]; [simpl; lia|].
  pose proof (isna_sum_le (cells s)). rewrite fmap_cons. simpl in *. nia.
Qed.

(** X1: on a well-formed frame with at least one row and one column the
    overview is produced, its duplicate-row count is below the row count
    (the first row is never a duplicate), its missing-cell count is at most
    rows times columns, and both percentages are finite: the duplicate
    share lies in [0, 100), the missing share in [0, 100]. *)
Theorem overview_bounds df :
  wf_df df → 0 < nrows df → 0 < ncols df →
  ∃ ov q1 q2,
    _calculate_overview_stats df = Ok ov ∧
    ov_duplicate_rows ov < ov_rows ov ∧
    ov_missing_cells ov ≤ ov_rows ov * ov_columns ov ∧
    ov_duplicate_rows_pct ov = Fmt2f (Fin q1) ∧
    ov_missing_cells_pct ov = Fmt2f (Fin q2) ∧
    (0 <= q1)%Q ∧ (q1 < 100)%Q ∧ (0 <= q2)%Q ∧ (q2 <= 100)%Q.
Proof.
  intros Hwf Hr Hc. unfold _calculate_overview_stats.
  assert (0 < df_size df) as Hsz by (unfold df_size; nia).
  rewrite (pct_value _ (nrows df) Hr), (pct_value _ (df_size df) Hsz).
  pose proof (duplicated_sum_lt df Hr) as Hd.
  pose proof (missing_cells_le df Hwf) as Hm.
  eexists _, _, _. split; [reflexivity|]. simpl.
  split; [done|]. split; [done|]. split; [done|]. split; [done|].
  split; [apply share_bounds; lia|]. split; [by apply share_lt_100|].
  apply share_bounds; lia.
Qed.

Lemma overview_bounds_witness :
  ∃ ov, _calculate_overview_stats dup_pair = Ok ov ∧
        ov_duplicate_rows ov < ov_rows ov ∧
        ov_missing_cells ov ≤ ov_rows ov * ov_columns ov.
Proof.
  assert (wf_df dup_pair) as Hwf.
  { split; [apply (bool_decide_unpack (NoDup (columns dup_pair))); vm_compute; exact I
           | repeat constructor]. }
  destruct (overview_bounds dup_pair Hwf) as (ov & q1 & q2 & Hov & H1 & H2 & _);
    [vm_compute; lia | vm_compute; lia |].
  exists ov. split; [exact Hov|]. split; [exact H1 | exact H2].
Defined.

(** ** Duplicate groups *)









(** ** Column profile *)

Lemma describe_not_bool (s : Series) :
  dtype_of s ≠ bool_ → is_numeric_dtype (dtype_of s) = true →
  describe s = NumericDescription (dropna (cells s)).
Proof. intros Hb Hn. unfold describe. by rewrite decide_False, Hn. Qed.

Lemma value_counts_keys_not_nil (s : Series) :
  value_counts_keys s ≠ [] ↔
  (∃ v, Some v ∈ cells s) ∨ (dtype_of s = category ∧ categories s ≠ []).
Proof.
  split.
  - intros Hne. destruct (value_counts_keys s) as [|v l] eqn:Hk; [done|].
    assert (v ∈ value_counts_keys s) as Hin by (rewrite Hk; left).
    apply elem_of_value_counts_keys in Hin as [Hin|[Hc Hin]]; [eauto|].
    right. split; [done|]. intros Hnil. rewrite Hnil in Hin. by apply elem_of_nil in Hin.
  - intros Hsome Hnil. apply value_counts_keys_nil in Hnil as [Hall Hcat].
    destruct Hsome as [[v Hv]|[Hc Hne]].
    + rewrite Forall_forall in Hall. by specialize (Hall _ Hv).
    + by apply Hne, Hcat.
Qed.

Section column_outcomes.
Context {L : Library}.

(** X2: the outcome of profiling one column, case by case: a label that
    is no column of the frame raises KeyError for that label; a column
    without rows raises the division fault; a boolean column with rows
    raises KeyError 'mean' (it passes the numeric test but is described as a
    categorical column); a column with rows that is not numeric and has
    nothing to chart (every cell missing and, if it is categorical, no
    declared category) raises the ValueError of the bar chart; every other
    column gets a profile. *)
Theorem column_profile_outcomes df column target static :
  (column ∉ columns df →
     _analyze_variable df column target static = Raise (KeyError column)) ∧
  (∀ s, getitem df column = Ok s → cells s = [] →
     _analyze_variable df column target static = Raise ZeroDivisionError) ∧
  (∀ s, getitem df column = Ok s → cells s ≠ [] → dtype_of s = bool_ →
     _analyze_variable df column target static = Raise (KeyError "mean")) ∧
  (∀ s, getitem df column = Ok s → cells s ≠ [] →
     is_numeric_dtype (dtype_of s) = false →
     Forall (λ c, c = None) (cells s) →
     (dtype_of s = category → categories s = []) →
     ∃ msg, _analyze_variable df column target static = Raise (ValueError msg)) ∧
  (∀ s, getitem df column = Ok s → cells s ≠ [] → dtype_of s ≠ bool_ →
     (is_numeric_dtype (dtype_of s) = false →
        (∃ v, Some v ∈ cells s) ∨ (dtype_of s = category ∧ categories s ≠ [])) →
     ∃ vs, _analyze_variable df column target static = Ok vs).
Proof.
  split; [|split; [|split; [|split]]].
  - intros Hc. unfold _analyze_variable.
    destruct (getitem df column) as [s|e] eqn:Hs.
    + apply getitem_Ok in Hs as [Hs <-]. destruct Hc.
      unfold columns. apply list_elem_of_fmap. eauto.
    + by apply getitem_Raise in Hs as [-> _].
  - intros s Hs Hnil. unfold _analyze_variable. rewrite Hs.
    unfold mbind at 1, result_bind at 1. by rewrite Hnil.
  - intros s Hs Hne Hb. unfold _analyze_variable. rewrite Hs.
    unfold mbind at 1, result_bind at 1.
    assert (0 < length (cells s)) as Hl by (destruct (cells s); [done | simpl; lia]).
    rewrite !pct_value by done. unfold mbind at 1 2, result_bind at 1 2. cbv zeta.
    unfold describe. by rewrite Hb.
  - intros s Hs Hne Hnum Hall Hcat. unfold _analyze_variable. rewrite Hs.
    unfold mbind at 1, result_bind at 1.
    assert (0 < length (cells s)) as Hl by (destruct (cells s); [done | simpl; lia]).
    rewrite !pct_value by done. unfold mbind at 1 2, result_bind at 1 2. cbv zeta.
    rewrite Hnum.
    assert (value_counts s = []) as -> by (by apply value_counts_nil, value_counts_keys_nil).
    simpl. eauto.
  - intros s Hs Hne Hb Hkeys. eapply _analyze_variable_produces; [done..|].
    intros Hnum. by apply value_counts_keys_not_nil, Hkeys.
Qed.

Lemma _analyze_variable_fields df column target static vs :
  _analyze_variable df column target static = Ok vs →
  ∃ s, getitem df column = Ok s ∧ 0 < length (cells s) ∧
    vs_distinct_count vs = nunique (cells s) ∧
    vs_missing_count vs = isna_sum (cells s) ∧
    vs_distinct_pct vs =
      Fmt2f (Fin ((Z.of_nat (nunique (cells s)) # Pos.of_nat (length (cells s))) * 100)) ∧
    vs_missing_pct vs =
      Fmt2f (Fin ((Z.of_nat (isna_sum (cells s)) # Pos.of_nat (length (cells s))) * 100)).
Proof.
  unfold _analyze_variable.
  intros (s & Hs & H)%bind_Ok. exists s. split; [done|].
  assert (0 < length (cells s)) as Hl.
  { destruct (cells s); [done | simpl; lia]. }
  split; [done|]. rewrite !pct_value in H by done.
  unfold mbind at 1 2, result_bind at 1 2 in H. cbv zeta in H.
  destruct (is_numeric_dtype _); apply bind_Ok in H as (st & Hst & H);
    destruct (target_present df target);
    try (apply bind_Ok in H as (nt & Hnt & H));
    injection H as <-; simpl; done.
Qed.


Lemma _analyze_variable_statistics df column target static vs :
  _analyze_variable df column target static = Ok vs →
  ∃ s, getitem df column = Ok s ∧
    vs_statistics vs =
      (if is_numeric_dtype (dtype_of s) then StatsNumeric (dropna (cells s))
       else StatsCategorical (head (value_counts s).*1)) ∧
    (is_numeric_dtype (dtype_of s) = true → dtype_of s ≠ bool_) ∧
    (is_numeric_dtype (dtype_of s) = false → value_counts s ≠ []).
Proof.
  unfold _analyze_variable.
  intros (s & Hs & (dp & _ & (mp & _ & H)%bind_Ok)%bind_Ok)%bind_Ok.
  exists s. split; [done|]. cbv zeta in H.
  destruct (is_numeric_dtype (dtype_of s)) eqn:Hnum.
  - apply bind_Ok in H as (st & Hst & H).
    assert (dtype_of s ≠ bool_ ∧ st = StatsNumeric (dropna (cells s))) as [Hb ->].
    { unfold describe in Hst. case_decide; [done|]. rewrite Hnum in Hst.
      by injection Hst as <-. }
    split; [|done].
    destruct (target_present df target);
      try (apply bind_Ok in H as (nt & _ & H)); by injection H as <-.
  - apply bind_Ok in H as (dplot & [_ Hne]%px_bar_Ok & H).
    split; [|done].
    destruct (target_present df target);
      try (apply bind_Ok in H as (nt & _ & H)); by injection H as <-.
Qed.

(** X5: a profile of a column that is not numeric always has a mode (with
    nothing to count the bar chart is refused before): a value that no
    value of the column outnumbers.  It is a value of the column, unless
    every cell is missing: then it is a declared category of a categorical
    column. *)
Theorem column_profile_mode df column target static vs s :
  _analyze_variable df column target static = Ok vs →
  getitem df column = Ok s → is_numeric_dtype (dtype_of s) = false →
  ∃ m, vs_statistics vs = StatsCategorical (Some m) ∧
    (∀ v, count_value v (dropna (cells s)) ≤ count_value m (dropna (cells s))) ∧
    ((∃ v, Some v ∈ cells s) → Some m ∈ cells s) ∧
    (Forall (λ c, c = None) (cells s) → dtype_of s = category ∧ m ∈ categories s).
Proof.
  intros H Hs Hnum. apply _analyze_variable_statistics in H as (s' & Hs' & Hst & _ & Hne).
  assert (s' = s) as -> by congruence. rewrite Hnum in Hst.
  destruct (head (value_counts s).*1) as [m|] eqn:Hhead.
  2: { destruct (value_counts s); [by destruct Hne | done]. }
  exists m. split; [done|].
  apply value_counts_head in Hhead as [Hkey Hmax]. split; [done|].
  apply elem_of_value_counts_keys in Hkey. split.
  - intros [v Hv]. apply elem_of_dropna, count_value_pos.
    apply elem_of_dropna, count_value_pos in Hv. specialize (Hmax v). lia.
  - intros Hall. destruct Hkey as [Hm|Hcat]; [|done].
    rewrite Forall_forall in Hall. by specialize (Hall _ Hm).
Qed.

End column_outcomes.

Lemma column_profile_outcomes_witness :
  _analyze_variable frame_b "flag" None false = Raise (KeyError "mean") ∧
  _analyze_variable frame_b "nope" None false = Raise (KeyError "nope") ∧
  (∃ msg, _analyze_variable frame_b "score" None false = Raise (ValueError msg)) ∧
  (∃ vs, _analyze_variable sizes "size" None false = Ok vs).
Proof.
  destruct (column_profile_outcomes frame_b "flag" None false) as (_ & _ & Hb & _).
  destruct (column_profile_outcomes frame_b "nope" None false) as (Hk & _).
  destruct (column_profile_outcomes frame_b "score" None false) as (_ & _ & _ & Hv & _).
  destruct (column_profile_outcomes sizes "size" None false) as (_ & _ & _ & _ & Hp).
  split; [|split; [|split]].
  - eapply Hb; [vm_compute; reflexivity | done | reflexivity].
  - apply Hk. apply (bool_decide_unpack ("nope" ∉ columns frame_b)).
    vm_compute. exact I.
  - eapply Hv; [vm_compute; reflexivity | done | reflexivity | | done].
    simpl. repeat constructor.
  - eapply Hp; [vm_compute; reflexivity | done | done |].
    intros _. right. split; [reflexivity | done].
Defined.


Lemma column_profile_mode_witness :
  (∃ vs, _analyze_variable people "city" (Some "target") false = Ok vs ∧
         vs_statistics vs = StatsCategorical (Some (VStr "NY"))) ∧
  (∃ vs m, _analyze_variable sizes "size" None false = Ok vs ∧
           vs_statistics vs = StatsCategorical (Some m) ∧ Some m ∉ cells
             {| name := "size"; dtype_of := category; cells := [None; None];
                categories := [VStr "S"; VStr "M"] |}).
Proof.
  split.
  - eexists. split; [vm_compute; reflexivity|].
    edestruct (column_profile_mode people "city" (Some "target") false)
      as (m & Hm & _); [vm_compute; reflexivity | vm_compute; reflexivity | done |].
    vm_compute; reflexivity.
  - edestruct (column_profile_mode sizes "size" None false)
      as (m & Hm & _ & _ & Hcat);
      [vm_compute; reflexivity | vm_compute; reflexivity | done |].
    eexists _, m. split; [vm_compute; reflexivity|]. split; [exact Hm|].
    intros Hin. simpl in Hin.
    by repeat (apply elem_of_cons in Hin as [?|Hin]; [done|]); apply elem_of_nil in Hin.
Defined.

(** ** What a report needs *)

Lemma describe_include_Ok df sel names :
  describe_include df sel = Ok names →
  ∃ s, s ∈ series_of df ∧ sel (dtype_of s) = true.
Proof.
  unfold describe_include. case_decide; [done|].
  destruct (filter _ _) as [|s l] eqn:Hf; [done|]. intros _.
  assert (s ∈ filter (λ s, sel (dtype_of s) = true) (series_of df)) as Hs
    by (rewrite Hf; left).
  apply list_elem_of_filter in Hs as [? ?]. eauto.
Qed.

Section requirements.
Context {L : Library}.

Lemma _analyze_variable_Ok_column df c target static vs s :
  _analyze_variable df c target static = Ok vs → getitem df c = Ok s →
  cells s ≠ [] ∧ dtype_of s ≠ bool_ ∧
  (is_numeric_dtype (dtype_of s) = false →
     (∃ v, Some v ∈ cells s) ∨ (dtype_of s = category ∧ categories s ≠ [])).
Proof.
  intros Hvs Hs. split; [|split].
  - apply _analyze_variable_Ok in Hvs as (s' & Hs' & Hl & _).
    assert (s' = s) as -> by congruence. intros Hnil. rewrite Hnil in Hl. simpl in Hl. lia.
  - apply _analyze_variable_statistics in Hvs as (s' & Hs' & _ & Hb & _).
    assert (s' = s) as -> by congruence. intros Hbool. apply Hb; [|done].
    by rewrite Hbool.
  - intros Hnum. apply _analyze_variable_statistics in Hvs as (s' & Hs' & _ & _ & Hne).
    assert (s' = s) as -> by congruence.
    apply value_counts_keys_not_nil. rewrite <- value_counts_nil. by apply Hne.
Qed.

Lemma profiled_columns_getitem df target c :
  c ∈ profiled_columns df target → ∃ s, getitem df c = Ok s.
Proof. intros [Hc _]%elem_of_profiled_columns. by apply getitem_elem_of. Qed.

Lemma _create_summary_plots_target df target static sp ts :
  _create_summary_plots df target static = Ok sp →
  target_present df target = true → getitem df (default "" target) = Ok ts →
  is_int64_float64 (dtype_of ts) = false →
  (∃ v, Some v ∈ cells ts) ∨ (dtype_of ts = category ∧ categories ts ≠ []).
Proof.
  unfold _create_summary_plots. intros (tp & Htp & _)%bind_Ok Hpresent Hts Hnum.
  rewrite Hpresent in Htp. cbv zeta in Htp. rewrite Hts in Htp.
  unfold mbind at 1, result_bind at 1 in Htp. rewrite Hnum in Htp.
  apply bind_Ok in Htp as (fig3 & Hbar & _).
  apply value_counts_keys_not_nil. rewrite <- value_counts_nil.
  intros Hnil. by rewrite Hnil in Hbar.
Qed.

Lemma target_analysis_block_features df t ta ts :
  target_analysis_block df t = Ok ta → getitem df t = Ok ts →
  is_numeric_dtype (dtype_of ts) = false → numeric_cols df ≠ [] →
  Forall (λ s, is_int64_float64 (dtype_of s) = true → None ∉ cells s) (series_of df).
Proof.
  unfold target_analysis_block. intros Hta Hts Hnum Hcols. rewrite Hts in Hta.
  unfold mbind at 1, result_bind at 1 in Hta. rewrite Hnum in Hta. cbv zeta in Hta.
  apply bind_Ok in Hta as (fi & Hfi & _).
  case_decide as Hlen.
  2: { destruct Hcols. unfold numeric_cols.
       destruct (filter _ _); [done | simpl in Hlen; lia]. }
  apply bind_Ok in Hfi as ([] & Hmi & _).
  apply Forall_forall. intros s Hs Hd Hnone.
  destruct (mutual_info_classif_missing
              (cells <$> filter (λ s, is_int64_float64 (dtype_of s) = true) (series_of df))
              (cells ts)) as [msg Hmsg]; [|congruence].
  exists (cells s). split; [|done].
  apply list_elem_of_fmap. exists s. split; [done|]. by apply list_elem_of_filter.
Qed.

Lemma _prepare_json_data_block df target inc exc d :
  _prepare_json_data df target inc exc = Ok d → target_present df target = true →
  ∃ ta, target_analysis_block df (default "" target) = Ok ta.
Proof.
  unfold _prepare_json_data.
  intros (vars & _ & (mv & _ & (du & _ & (ta' & Hta & _)%bind_Ok)%bind_Ok)%bind_Ok)%bind_Ok
    Hpresent.
  rewrite Hpresent in Hta. apply fmap_Ok in Hta as (ta & Hta & _). eauto.
Qed.

(** X8: what a report needs.  The entry point produces a report only if
    the frame is within the size limits and every column other than the
    target has at least one row, is not boolean and, if it is not numeric,
    has something to chart (a present cell, or a declared category).  A
    rendered report also needs at least one number column, at least one
    object, category or bool column (an all-numeric frame has none), and a
    chartable target when the target is a column of another dtype than
    int64 and float64.  The export needs the int64 and float64 columns free
    of missing cells when the target is a column that is not numeric. *)
Theorem report_requirements df target fmt inc exc r :
  profile df target fmt inc exc = Ok r →
  let chartable (s : Series) :=
    (∃ v, Some v ∈ cells s) ∨ (dtype_of s = category ∧ categories s ≠ []) in
  (Z.of_nat (nrows df) ≤ 1000000)%Z ∧ (Z.of_nat (ncols df) ≤ 1000)%Z ∧
  (∀ c s, c ∈ profiled_columns df target → getitem df c = Ok s →
          cells s ≠ [] ∧ dtype_of s ≠ bool_ ∧
          (is_numeric_dtype (dtype_of s) = false → chartable s)) ∧
  (fmt ≠ json →
     (∃ s, s ∈ series_of df ∧ is_np_number (dtype_of s) = true) ∧
     (∃ s, s ∈ series_of df ∧ dtype_of s ∈ [object_; category; bool_]) ∧
     (∀ ts, target_present df target = true →
            getitem df (default "" target) = Ok ts →
            is_int64_float64 (dtype_of ts) = false → chartable ts)) ∧
  (fmt = json →
     ∀ ts, target_present df target = true →
           getitem df (default "" target) = Ok ts →
           is_numeric_dtype (dtype_of ts) = false → numeric_cols df ≠ [] →
           Forall (λ s, is_int64_float64 (dtype_of s) = true → None ∉ cells s)
                  (series_of df)).
Proof.
  intros Hr chartable. subst chartable. cbv beta.
  pose proof (profile_within_limits _ _ _ _ _ _ Hr) as [Hrows Hcols].
  split; [done|]. split; [done|].
  assert (∀ static vl,
    mapM (λ column, _analyze_variable df column target static)
         (profiled_columns df target) = Ok vl →
    ∀ c s, c ∈ profiled_columns df target → getitem df c = Ok s →
      cells s ≠ [] ∧ dtype_of s ≠ bool_ ∧
      (is_numeric_dtype (dtype_of s) = false →
         (∃ v, Some v ∈ cells s) ∨ (dtype_of s = category ∧ categories s ≠ [])))
    as Hcolumns.
  { intros static vl Hvl c s Hc Hs. apply mapM_Ok in Hvl.
    apply list_elem_of_lookup in Hc as [i Hi].
    destruct (Forall2_lookup_l _ _ _ _ _ Hvl Hi) as (v & _ & Hv).
    by eapply _analyze_variable_Ok_column. }
  revert Hr. unfold profile.
  destruct (decide (MAX_ROWS < _)%Z); [done|].
  destruct (decide (MAX_COLS < _)%Z); [done|].
  destruct fmt.
  3: { intros (d & Hd & _)%fmap_Ok. split; [|split; [done|]].
       - apply _prepare_json_data_variables in Hd as (vl & Hvl & _).
         by eapply Hcolumns.
       - intros _ ts Hpresent Hts Hnum Hnc.
         destruct (_prepare_json_data_block _ _ _ _ _ Hd Hpresent) as [ta Hta].
         by eapply target_analysis_block_features. }
  all: intros (ov & _ & (vl & Hvl & (sp & Hsp & (dn & Hdn & (dob & Hdo & _
         )%bind_Ok)%bind_Ok)%bind_Ok)%bind_Ok)%bind_Ok.
  all: split; [by eapply Hcolumns|]; split; [|done]; intros _.
  all: apply describe_include_Ok in Hdn, Hdo.
  all: split; [done|]; split;
    [destruct Hdo as (s & Hs & Hsel); exists s;
     split; [done | by apply bool_decide_eq_true in Hsel]|].
  all: intros ts Hpresent Hts Hnum; by eapply _create_summary_plots_target.
Qed.

End requirements.

Lemma report_requirements_witness :
  (∃ r, profile people (Some "target") html None None = Ok r ∧
        ∃ s, s ∈ series_of people ∧ dtype_of s ∈ [object_; category; bool_]) ∧
  ¬ (∃ r, profile (tall 3) None html None None = Ok r).
Proof.
  split.
  - eexists. split; [vm_compute; reflexivity|].
    edestruct (report_requirements people (Some "target") html None None)
      as (_ & _ & _ & Hd & _); [vm_compute; reflexivity|].
    by apply Hd.
  - intros [r Hr].
    apply (report_requirements (tall 3) None html None None) in Hr
      as (_ & _ & _ & Hd & _).
    destruct Hd as (_ & (s & Hs & Hsel) & _); [done|].
    apply list_elem_of_singleton in Hs as ->. simpl in Hsel.
    by repeat (apply elem_of_cons in Hsel as [?|Hsel]; [done|]);
      apply elem_of_nil in Hsel.
Defined.

(** ** Output formats *)

Lemma mapM_fmap {A B C} (f : A → result B) (g : B → C) (l : list A) :
  mapM (λ x, g <$> f x) l = fmap g <$> mapM f l.
Proof.
  induction l as [|x l IH]; simpl; [done|].
  rewrite IH. unfold mbind, mret, fmap, result_bind, result_ret, result_fmap.
  destruct (f x) as [y|e]; [|reflexivity].
  by destruct (mapM f l).
Qed.

Section formats.
Context {L : Library}.

Lemma _analyze_variable_static df column target b :
  _analyze_variable df column target b
  = var_stats_static b <$> _analyze_variable df column target false.
Proof.
  unfold _analyze_variable, target_is_int64_float64.
  unfold mbind, mret, fmap, result_bind, result_ret, result_fmap. cbv zeta.
  destruct (getitem df column) as [s|e]; [|reflexivity].
  destruct (pct (PyInt _) _) as [dp|e]; [|reflexivity].
  destruct (pct (NpInt64 _) _) as [mp|e]; [|reflexivity].
  destruct (is_numeric_dtype _).
  - destruct (numeric_fields _) as [st|e]; [|reflexivity].
    destruct (target_present df target); [|reflexivity].
    destruct (getitem df (default "" target)) as [ts|e]; [|reflexivity].
    by destruct (is_int64_float64 (dtype_of ts)).
  - destruct (px_bar _ _ _) as [dplot|e]; [|reflexivity].
    destruct (target_present df target); [|reflexivity].
    destruct (getitem df (default "" target)) as [ts|e]; [|reflexivity].
    by destruct (is_int64_float64 (dtype_of ts)).
Qed.

Lemma _create_summary_plots_static df target b :
  _create_summary_plots df target b
  = summary_plots_static b <$> _create_summary_plots df target false.
Proof.
  unfold _create_summary_plots.
  unfold mbind, mret, fmap, result_bind, result_ret, result_fmap. cbv zeta.
  destruct (target_present df target).
  - destruct (getitem df (default "" target)) as [ts|e]; [|reflexivity].
    destruct (is_int64_float64 (dtype_of ts)); [by case_decide|].
    destruct (px_bar _ _ _) as [fig3|e]; [|reflexivity]. by case_decide.
  - by case_decide.
Qed.

(** X9: the paged report is the rendered report with every figure turned
    into a static image: both formats compute the same overview, column
    profiles, duplicate groups and counts, and fail on the same frames with
    the same fault. *)
Theorem pdf_report_is_static_html df target inc exc :
  profile df target pdf inc exc
  = report_static true <$> profile df target html inc exc.
Proof.
  unfold profile.
  destruct (decide (MAX_ROWS < _)%Z); [done|].
  destruct (decide (MAX_COLS < _)%Z); [done|].
  change (bool_decide (pdf = pdf)) with true.
  change (bool_decide (html = pdf)) with false.
  rewrite (mapM_ext_in
    (λ column, _analyze_variable df column target true)
    (λ column, var_stats_static true <$> _analyze_variable df column target false))
    by (intros; apply _analyze_variable_static).
  rewrite mapM_fmap, (_create_summary_plots_static df target true).
  unfold mbind, mret, fmap at 1 3 5 6, result_bind, result_ret, result_fmap.
  destruct (_calculate_overview_stats df) as [ov|e]; [|reflexivity].
  destruct (mapM _ _) as [vl|e]; [|reflexivity].
  destruct (_create_summary_plots df target false) as [sp|e]; [|reflexivity].
  destruct (describe_include df is_np_number) as [dn|e]; [|reflexivity].
  destruct (describe_include df _) as [dob|e]; [|reflexivity].
  destruct (pct _ (nrows df * ncols df)) as [mp|e]; [|reflexivity].
  destruct (pct _ (nrows df)) as [dp|e]; [|reflexivity].
  assert ((λ var, (vs_name var, var)) <$> (var_stats_static true <$> vl)
          = prod_map id (var_stats_static true) <$> ((λ var, (vs_name var, var)) <$> vl))
    as Hvars by (rewrite <- !list_fmap_compose; by apply list_fmap_ext).
  simpl. unfold fmap in Hvars |- *. by rewrite Hvars.
Qed.

End formats.

(** ** Order of the two frames *)

Lemma dtype_difference_mirror df1 df2 col :
  dtype_difference df2 df1 col
  = fmap (M:=option) (prod_map id prod_swap) <$> dtype_difference df1 df2 col.
Proof.
  unfold dtype_difference.
  destruct (getitem df1 col) as [s1|e1] eqn:H1;
    destruct (getitem df2 col) as [s2|e2] eqn:H2;
    try (apply getitem_Raise in H1 as [-> _]);
    try (apply getitem_Raise in H2 as [-> _]); try reflexivity.
  unfold mbind, mret, fmap, result_bind, result_ret, result_fmap.
  repeat case_decide; simpl; congruence.
Qed.

Lemma omap_id_fmap {A B} (g : A → B) (l : list (option A)) :
  omap id (fmap (M:=option) g <$> l) = g <$> omap id l.
Proof.
  induction l as [|[a|] l IH]; csimpl; [done| |].
  - by rewrite IH.
  - by rewrite IH.
Qed.

Section mirror.
Context {L : Library}.

Lemma compare_column_mirror df1 df2 n col p :
  compare_column df1 df2 n col = Ok p →
  compare_column df2 df1 n col = Ok (prod_map id mirror_column p).
Proof.
  intros Hp.
  destruct (compare_column_Ok _ _ _ _ _ Hp) as (s1 & s2 & H1 & H2 & Hn1 & Hn2 & Hkde).
  rewrite (compare_column_rows _ _ _ _ _ _ H1 H2 Hn1 Hn2) in Hp.
  rewrite (compare_column_rows _ _ _ _ _ _ H2 H1 Hn2 Hn1).
  rewrite (andb_comm (is_int64_float64 (dtype_of s2))).
  destruct (_ && _).
  - destruct Hkde as [Hk1 Hk2]; [done|]. rewrite Hk1, Hk2 in Hp |- *.
    by injection Hp as <-.
  - by injection Hp as <-.
Qed.

Lemma compare_mirror_Ok df1 df2 n r :
  compare df1 df2 n = Ok r → compare df2 df1 n = Ok (mirror_comparison r).
Proof.
  unfold compare. rewrite (common_columns_comm df2 df1).
  intros (dd & Hdd & (vc & Hvc & [= <-])%bind_Ok)%bind_Ok.
  assert (mapM (dtype_difference df2 df1) (common_columns df1 df2)
          = Ok (fmap (M:=option) (prod_map id prod_swap) <$> dd)) as ->.
  { rewrite (mapM_ext_in (dtype_difference df2 df1)
      (λ col, fmap (M:=option) (prod_map id prod_swap) <$> dtype_difference df1 df2 col))
      by (intros; apply dtype_difference_mirror).
    apply mapM_Ok. apply mapM_Ok in Hdd. apply Forall2_fmap_r.
    eapply Forall2_impl; [exact Hdd|]. by intros col d ->. }
  assert (mapM (compare_column df2 df1 n) (common_columns df1 df2)
          = Ok (prod_map id mirror_column <$> vc)) as ->.
  { apply mapM_Ok. apply mapM_Ok in Hvc. apply Forall2_fmap_r.
    eapply Forall2_impl; [exact Hvc|]. intros col p. apply compare_column_mirror. }
  unfold mirror_comparison. simpl. by rewrite omap_id_fmap.
Qed.

(** X10: exchanging the two frames.  When one order of the comparison
    produces a result, so does the other, and it is the mirror image: the
    two only-in lists trade places, the common columns stay, every dtype
    difference and every per-column pair and table is swapped (a result
    needs two observations on each side of a numeric column, so the shared
    bin edges do not depend on the order).  So the two orders fail
    together, though not always with the same fault: the density estimate
    of the first frame is tried first. *)
Theorem compare_mirror df1 df2 n :
  (∀ r, compare df1 df2 n = Ok r → compare df2 df1 n = Ok (mirror_comparison r)) ∧
  ((∃ e, compare df1 df2 n = Raise e) ↔ (∃ e, compare df2 df1 n = Raise e)).
Proof.
  split; [apply compare_mirror_Ok|].
  split; intros [e He].
  - destruct (compare df2 df1 n) as [r|e'] eqn:Hr; [|by eexists].
    apply compare_mirror_Ok in Hr. congruence.
  - destruct (compare df1 df2 n) as [r|e'] eqn:Hr; [|by eexists].
    apply compare_mirror_Ok in Hr. congruence.
Qed.

End mirror.

Example compare_fault_order :
  ∃ msg1 msg2,
    compare sizes unweighed 30 = Raise (ValueError msg1) ∧
    compare unweighed sizes 30 = Raise (ValueError msg2) ∧ msg1 ≠ msg2.
Proof. do 2 eexists. repeat split; [vm_compute; reflexivity..|done]. Qed.

(** ** Per-column comparison *)

Lemma dtype_str_inj d1 d2 : dtype_str d1 = dtype_str d2 → d1 = d2.
Proof. by destruct d1, d2. Qed.

Lemma dtype_difference_Ok df1 df2 col d :
  dtype_difference df1 df2 col = Ok d →
  ∃ s1 s2, getitem df1 col = Ok s1 ∧ getitem df2 col = Ok s2 ∧
    d = if decide (dtype_of s1 = dtype_of s2) then None
        else Some (col, (dtype_str (dtype_of s1), dtype_str (dtype_of s2))).
Proof.
  unfold dtype_difference.
  intros (s1 & H1 & (s2 & H2 & [= <-])%bind_Ok)%bind_Ok.
  exists s1, s2. split; [done|]. split; [done|].
  destruct (decide (dtype_of s1 = dtype_of s2)) as [Heq|Hne].
  - rewrite decide_False; [done|]. rewrite Heq. by intros [].
  - rewrite decide_True; [done|]. by intros ?%dtype_str_inj.
Qed.

Lemma fmap_fixed {A} (f : A → A) (l : list A) : f <$> l = l → Forall (λ x, f x = x) l.
Proof.
  induction l as [|x l IH]; [constructor|].
  rewrite fmap_cons. intros [= Hx Hl]. constructor; [done | by apply IH].
Qed.

Lemma sorted_empty : sorted ∅ = [].
Proof. unfold sorted. by rewrite elements_empty. Qed.

Lemma elem_of_dict_set_fst {V} (k : string) (v : V) (d : list (string * V)) (k' : string) :
  k' ∈ (dict_set k v d).*1 ↔ k' = k ∨ k' ∈ d.*1.
Proof.
  induction d as [|[k0 v0] d IH]; simpl.
  - rewrite list_elem_of_singleton, elem_of_nil. tauto.
  - case_decide as Hk; csimpl; rewrite !elem_of_cons.
    + subst k0. tauto.
    + rewrite IH. tauto.
Qed.

Lemma NoDup_dict_set {V} (k : string) (v : V) (d : list (string * V)) :
  NoDup d.*1 → NoDup (dict_set k v d).*1.
Proof.
  induction d as [|[k0 v0] d IH]; simpl; [intros _; apply NoDup_singleton|].
  csimpl. intros [Hk0 Hd]%NoDup_cons. case_decide as Hk; csimpl.
  - subst k0. by apply NoDup_cons.
  - apply NoDup_cons. split; [|by apply IH].
    rewrite elem_of_dict_set_fst. intros [?|?]; [congruence | done].
Qed.

Lemma elem_of_dict_set {V} (k : string) (v : V) (d : list (string * V)) p :
  p ∈ dict_set k v d → p = (k, v) ∨ p ∈ d.
Proof.
  induction d as [|[k0 v0] d IH]; simpl.
  - intros ->%list_elem_of_singleton. by left.
  - case_decide; rewrite !elem_of_cons; [tauto|].
    intros [->|Hp]; [tauto|]. destruct (IH Hp); tauto.
Qed.

Section columns.
Context {L : Library}.

Lemma compare_column_fields df1 df2 n col p :
  compare_column df1 df2 n col = Ok p →
  ∃ s1 s2 kind,
    getitem df1 col = Ok s1 ∧ getitem df2 col = Ok s2 ∧
    0 < length (cells s1) ∧ 0 < length (cells s2) ∧ p.1 = col ∧
    cc_stats p.2 = common_stats s1 s2 kind ∧
    (if is_int64_float64 (dtype_of s1) && is_int64_float64 (dtype_of s2)
     then kind = NumericStats (describe s1) (describe s2) ∧
          cc_distribution_data p.2
            = DistNumeric n (dropna (cells s1)) (dropna (cells s2))
     else ∃ top1 top2,
          top_values (value_counts s1) (length (cells s1)) = Ok top1 ∧
          top_values (value_counts s2) (length (cells s2)) = Ok top2 ∧
          kind = CategoricalStats top1 top2 ∧
          cc_distribution_data p.2
            = DistCategorical (dict_of_items (value_counts s1))
                              (dict_of_items (value_counts s2))).
Proof.
  intros Hp.
  destruct (compare_column_Ok _ _ _ _ _ Hp) as (s1 & s2 & H1 & H2 & Hn1 & Hn2 & Hkde).
  rewrite (compare_column_rows _ _ _ _ _ _ H1 H2 Hn1 Hn2) in Hp.
  assert (0 < length (cells s1)) as Hl1 by (destruct (cells s1); [done | simpl; lia]).
  assert (0 < length (cells s2)) as Hl2 by (destruct (cells s2); [done | simpl; lia]).
  exists s1, s2. destruct (_ && _).
  - destruct Hkde as [Hk1 Hk2]; [done|]. rewrite Hk1, Hk2 in Hp. injection Hp as <-.
    eexists. repeat split; done.
  - injection Hp as <-. eexists. do 5 (split; [done|]). split; [reflexivity|].
    eexists _, _. rewrite !top_values_value by done. repeat split; done.
Qed.

(** X11: for a column present in both frames, the counts and percentages
    the comparison reports for a side are the ones the column profile of
    that frame reports: missing count and percentage, distinct count and
    percentage. *)
Theorem compare_agrees_with_profile df1 df2 n r col cc t1 t2 st1 st2 vs1 vs2 :
  compare df1 df2 n = Ok r →
  (col, cc) ∈ cmp_variable_comparison r →
  _analyze_variable df1 col t1 st1 = Ok vs1 →
  _analyze_variable df2 col t2 st2 = Ok vs2 →
  cs_missing_count (cc_stats cc) = (vs_missing_count vs1, vs_missing_count vs2) ∧
  cs_unique_count (cc_stats cc) = (vs_distinct_count vs1, vs_distinct_count vs2) ∧
  cs_missing_percent (cc_stats cc) = (vs_missing_pct vs1, vs_missing_pct vs2) ∧
  cs_unique_percent (cc_stats cc) = (vs_distinct_pct vs1, vs_distinct_pct vs2).
Proof.
  intros (_ & _ & _ & Hvc)%compare_Ok Hcc Hvs1 Hvs2.
  apply list_elem_of_lookup in Hcc as [i Hi].
  destruct (Forall2_lookup_r _ _ _ _ _ Hvc Hi) as (col' & _ & Hcol).
  apply compare_column_fields in Hcol
    as (s1 & s2 & kind & H1 & H2 & _ & _ & Hname & Hstats & _).
  simpl in Hname, Hstats. subst col'. rewrite Hstats. simpl.
  apply _analyze_variable_fields in Hvs1 as (s1' & H1' & _ & -> & -> & -> & ->).
  apply _analyze_variable_fields in Hvs2 as (s2' & H2' & _ & -> & -> & -> & ->).
  assert (s1' = s1) as -> by congruence. assert (s2' = s2) as -> by congruence.
  done.
Qed.

Lemma compare_dtype_differences df1 df2 n r :
  compare df1 df2 n = Ok r →
  ∃ dd, Forall2 (λ col d, dtype_difference df1 df2 col = Ok d)
                (common_columns df1 df2) dd ∧
        cmp_dtype_differences r = omap id dd.
Proof.
  unfold compare. intros (dd & Hdd & (vc & _ & [= <-])%bind_Ok)%bind_Ok.
  exists dd. split; [by apply mapM_Ok | done].
Qed.

(** X12: the dtype differences of a comparison are exactly the common
    columns whose two dtypes differ, each with the dtype names of the first
    and of the second frame; the dtypes are compared by name, so int32
    against int64 is a difference although both are numeric. *)
Theorem dtype_differences_spec df1 df2 n r :
  compare df1 df2 n = Ok r →
  ∀ col d1 d2,
    (col, (d1, d2)) ∈ cmp_dtype_differences r ↔
    col ∈ common_columns df1 df2 ∧
    ∃ s1 s2, getitem df1 col = Ok s1 ∧ getitem df2 col = Ok s2 ∧
             dtype_of s1 ≠ dtype_of s2 ∧
             d1 = dtype_str (dtype_of s1) ∧ d2 = dtype_str (dtype_of s2).
Proof.
  intros (dd & Hdd & ->)%compare_dtype_differences col d1 d2.
  rewrite list_elem_of_omap. split.
  - intros (d & Hd & Hid). simpl in Hid. subst d.
    apply list_elem_of_lookup in Hd as [i Hi].
    destruct (Forall2_lookup_r _ _ _ _ _ Hdd Hi) as (col' & Hcol' & Hdiff).
    apply dtype_difference_Ok in Hdiff as (s1 & s2 & H1 & H2 & Hd).
    case_decide; [done|]. injection Hd as -> -> ->.
    split; [by eapply list_elem_of_lookup_2|]. by exists s1, s2.
  - intros (Hcol & s1 & s2 & H1 & H2 & Hne & -> & ->).
    apply list_elem_of_lookup in Hcol as [i Hi].
    destruct (Forall2_lookup_l _ _ _ _ _ Hdd Hi) as (d & Hd & Hdiff).
    apply dtype_difference_Ok in Hdiff as (s1' & s2' & H1' & H2' & ->).
    assert (s1' = s1) as -> by congruence. assert (s2' = s2) as -> by congruence.
    rewrite decide_False in Hd by done.
    eexists. split; [by eapply list_elem_of_lookup_2 | done].
Qed.

(** X13: comparing a frame with itself, whenever it produces a result,
    reports no column on one side only and no dtype difference, and the two
    sides of every compared column are identical. *)
Theorem compare_self df n r :
  compare df df n = Ok r →
  cmp_columns_only_in_df1 r = [] ∧ cmp_columns_only_in_df2 r = [] ∧
  cmp_dtype_differences r = [] ∧
  (∀ c, c ∈ cmp_common_columns r ↔ c ∈ columns df) ∧
  Forall (λ p, mirror_column p.2 = p.2) (cmp_variable_comparison r).
Proof.
  intros Hr.
  pose proof (compare_mirror_Ok df df n r Hr) as Hm. rewrite Hr in Hm.
  injection Hm as Hm.
  pose proof (compare_Ok _ _ _ _ Hr) as (H1 & H2 & H3 & _).
  assert (column_set df ∖ column_set df = ∅) as Hdiff by apply difference_diag_L.
  split; [rewrite H1; unfold columns_only_in_df1; by rewrite Hdiff, sorted_empty|].
  split; [rewrite H2; unfold columns_only_in_df2; by rewrite Hdiff, sorted_empty|].
  split; [|split].
  - destruct (cmp_dtype_differences r) as [|[col [d1 d2]] l] eqn:Hd; [done|].
    assert ((col, (d1, d2)) ∈ cmp_dtype_differences r) as Hin by (rewrite Hd; left).
    apply compare_dtype_differences in Hr as (dd & Hdd & Heq).
    rewrite Heq in Hin. apply list_elem_of_omap in Hin as (d & Hin & Hid).
    simpl in Hid. subst d. apply list_elem_of_lookup in Hin as [i Hi].
    destruct (Forall2_lookup_r _ _ _ _ _ Hdd Hi) as (col' & _ & Hdiff').
    apply dtype_difference_Ok in Hdiff' as (s1 & s2 & Hs1 & Hs2 & Hsome).
    assert (s1 = s2) as -> by congruence. by rewrite decide_True in Hsome.
  - intros c. rewrite H3, elem_of_common_columns. tauto.
  - assert (prod_map id mirror_column <$> cmp_variable_comparison r
            = cmp_variable_comparison r) as Hfix.
    { rewrite Hm at 2. done. }
    apply fmap_fixed in Hfix. eapply Forall_impl; [exact Hfix|].
    intros [c cc]. simpl. by intros [= ->].
Qed.

(** The [dict] built from a frequency table: one entry per text, each the
    text and the count of a key of the table, and every key has its text
    among the entries. *)
Lemma dict_of_items_spec (items : list (value * nat)) :
  NoDup (dict_of_items items).*1 ∧
  (∀ k, k ∈ (dict_of_items items).*1 ↔ ∃ p, p ∈ items ∧ k = str p.1) ∧
  (∀ k c, (k, c) ∈ dict_of_items items → ∃ p, p ∈ items ∧ k = str p.1 ∧ c = p.2).
Proof.
  unfold dict_of_items.
  assert (∀ d : list (string * nat), NoDup d.*1 →
    let r := foldl (λ d kv, dict_set (str kv.1) kv.2 d) d items in
    NoDup r.*1 ∧
    (∀ k, k ∈ r.*1 ↔ k ∈ d.*1 ∨ ∃ p, p ∈ items ∧ k = str p.1) ∧
    (∀ k c, (k, c) ∈ r → (k, c) ∈ d ∨ ∃ p, p ∈ items ∧ k = str p.1 ∧ c = p.2)) as Hfold.
  { induction items as [|[v m] items IH]; intros d Hd; simpl.
    - split; [done|]. split; [|by left]. intros k. split; [by left|].
      intros [?|(p & Hp & _)]; [done | by apply elem_of_nil in Hp].
    - destruct (IH (dict_set (str v) m d) (NoDup_dict_set _ _ _ Hd)) as (Hnd & Hkeys & Hent).
      split; [done|]. split.
      + intros k. rewrite Hkeys, elem_of_dict_set_fst. split.
        * intros [[->|?]|(p & Hp & ->)]; [right | by left | right].
          -- exists (v, m). split; [left | done].
          -- exists p. split; [by right | done].
        * intros [?|(p & [->|Hp]%elem_of_cons & ->)]; [tauto | tauto |].
          right. by exists p.
      + intros k c [Hin|(p & Hp & -> & ->)]%Hent.
        * apply elem_of_dict_set in Hin as [[= -> ->]|?]; [right | by left].
          exists (v, m). split; [left | done].
        * right. exists p. split; [by right | done]. }
  destruct (Hfold [] (NoDup_nil_2)) as (Hnd & Hkeys & Hent).
  split; [done|]. split.
  - intros k. rewrite Hkeys. split; [|by right].
    intros [Hk|?]; [by apply elem_of_nil in Hk | done].
  - intros k c [Hin|?]%Hent; [by apply elem_of_nil in Hin | done].
Qed.

(** X14: the tables of a categorical comparison.  For a common column
    that is not int64 or float64 on both sides, each side has a top list
    and a frequency table.  The top list has at most five entries, by
    decreasing count; each is the text and the number of occurrences of a
    value of the column (or of a declared category), and no value left out
    of it outnumbers one that is in it.  The frequency table is keyed by
    the text of the values: values that print alike share one entry, so it
    has one entry per text, at most as many as there are values, and every
    value has its text among the keys. *)
Theorem compare_column_tables df1 df2 n r col cc s1 s2 :
  compare df1 df2 n = Ok r →
  (col, cc) ∈ cmp_variable_comparison r →
  getitem df1 col = Ok s1 → getitem df2 col = Ok s2 →
  is_int64_float64 (dtype_of s1) && is_int64_float64 (dtype_of s2) = false →
  let side (s : Series) (top : list top_value) (tbl : list (string * nat)) :=
    let count v := count_value v (dropna (cells s)) in
    length top ≤ 5 ∧
    StronglySorted (λ a b, b ≤ a) (tv_count <$> top) ∧
    (∀ t, t ∈ top →
       ∃ v, v ∈ value_counts_keys s ∧ tv_value t = str v ∧ tv_count t = count v) ∧
    (∀ v, v ∈ value_counts_keys s →
       (∃ t, t ∈ top ∧ tv_value t = str v ∧ tv_count t = count v) ∨
       (length top = 5 ∧ ∀ t, t ∈ top → count v ≤ tv_count t)) ∧
    NoDup tbl.*1 ∧ length tbl ≤ length (value_counts_keys s) ∧
    (∀ k c, (k, c) ∈ tbl →
       ∃ v, v ∈ value_counts_keys s ∧ k = str v ∧ c = count v) ∧
    (∀ v, v ∈ value_counts_keys s → str v ∈ tbl.*1) in
  ∃ top1 top2 tbl1 tbl2,
    cs_kind (cc_stats cc) = CategoricalStats top1 top2 ∧
    cc_distribution_data cc = DistCategorical tbl1 tbl2 ∧
    side s1 top1 tbl1 ∧ side s2 top2 tbl2.
Proof.
  intros (_ & _ & _ & Hvc)%compare_Ok Hcc H1 H2 Hkind.
  apply list_elem_of_lookup in Hcc as [i Hi].
  destruct (Forall2_lookup_r _ _ _ _ _ Hvc Hi) as (col' & _ & Hcol).
  apply compare_column_fields in Hcol
    as (s1' & s2' & kind & H1' & H2' & Hl1 & Hl2 & Hname & Hstats & Hrest).
  simpl in Hname, Hstats, Hrest. subst col'.
  assert (s1' = s1) as -> by congruence. assert (s2' = s2) as -> by congruence.
  rewrite Hkind in Hrest. destruct Hrest as (top1 & top2 & Ht1 & Ht2 & -> & Hdist).
  rewrite top_values_value in Ht1, Ht2 by done.
  injection Ht1 as <-. injection Ht2 as <-.
  cbv zeta. eexists _, _, _, _. split; [by rewrite Hstats|]. split; [exact Hdist|].
  assert (∀ s : Series,
    let top := (λ p : value * nat,
      {| tv_value := str p.1; tv_count := p.2;
         tv_percentage :=
           Fmt2f (Fin ((Z.of_nat p.2 # Pos.of_nat (length (cells s))) * 100)) |})
      <$> take 5 (value_counts s) in
    let tbl := dict_of_items (value_counts s) in
    length top ≤ 5 ∧
    StronglySorted (λ a b, b ≤ a) (tv_count <$> top) ∧
    (∀ t, t ∈ top →
       ∃ v, v ∈ value_counts_keys s ∧ tv_value t = str v ∧
            tv_count t = count_value v (dropna (cells s))) ∧
    (∀ v, v ∈ value_counts_keys s →
       (∃ t, t ∈ top ∧ tv_value t = str v ∧
             tv_count t = count_value v (dropna (cells s))) ∨
       (length top = 5 ∧
        ∀ t, t ∈ top → count_value v (dropna (cells s)) ≤ tv_count t)) ∧
    NoDup tbl.*1 ∧ length tbl ≤ length (value_counts_keys s) ∧
    (∀ k c, (k, c) ∈ tbl →
       ∃ v, v ∈ value_counts_keys s ∧ k = str v ∧
            c = count_value v (dropna (cells s))) ∧
    (∀ v, v ∈ value_counts_keys s → str v ∈ tbl.*1)) as Hside.
  2: { split; apply Hside. }
  clear. intros s top tbl. subst top tbl.
  pose proof (value_counts_sorted s) as Hsorted.
  pose proof (elem_of_value_counts s) as Hmem.
  destruct (dict_of_items_spec (value_counts s)) as (Hnd & Hkeys & Hent).
  split; [rewrite length_fmap, length_take; lia|].
  split.
  { rewrite <- list_fmap_compose.
    apply (StronglySorted_fmap _ (λ a b : value * nat, b.2 ≤ a.2)); [done|].
    by apply StronglySorted_take. }
  split.
  { intros t (p & -> & Hp)%list_elem_of_fmap. simpl.
    apply elem_of_take in Hp as (i & Hp & _). apply list_elem_of_lookup_2 in Hp.
    destruct p as [v k]. apply Hmem in Hp as [Hv ->]. by exists v. }
  split.
  { intros v Hv.
    assert ((v, count_value v (dropna (cells s))) ∈ value_counts s) as Hin
      by (by apply Hmem).
    rewrite <- (take_drop 5 (value_counts s)) in Hin, Hsorted.
    apply elem_of_app in Hin as [Hin|Hin].
    - left. eexists. split; [apply list_elem_of_fmap; eexists; split; [|exact Hin]; done|].
      done.
    - right. split.
      + rewrite length_fmap, length_take.
        destruct (decide (5 ≤ length (value_counts s))) as [?|Hshort]; [lia|].
        rewrite drop_ge in Hin by lia. by apply elem_of_nil in Hin.
      + intros t (p & -> & Hp)%list_elem_of_fmap. simpl.
        apply (StronglySorted_app_1_elem_of _ _ _ _ _ Hsorted Hp Hin). }
  split; [done|]. split.
  { rewrite <- (length_fmap fst (dict_of_items _)).
    rewrite <- (length_fmap str (value_counts_keys s)).
    apply submseteq_length, NoDup_submseteq; [done|].
    intros k ((v & c) & Hp & ->)%Hkeys. apply list_elem_of_fmap.
    exists v. split; [done|]. by apply Hmem in Hp as [? _]. }
  split.
  { intros k c ((v & c') & Hp & -> & ->)%Hent. apply Hmem in Hp as [Hv ->].
    by exists v. }
  intros v Hv. apply Hkeys. exists (v, count_value v (dropna (cells s))).
  split; [by apply Hmem | done].
Qed.

End columns.

Lemma compare_agrees_with_profile_witness :
  ∃ r cc vs1 vs2,
    compare frame_a frame_b 30 = Ok r ∧
    ("id", cc) ∈ cmp_variable_comparison r ∧
    _analyze_variable frame_a "id" None false = Ok vs1 ∧
    _analyze_variable frame_b "id" None false = Ok vs2 ∧
    cs_missing_count (cc_stats cc) = (vs_missing_count vs1, vs_missing_count vs2).
Proof.
  eexists _, _, _, _.
  split; [vm_compute; reflexivity|].
  split; [vm_compute; left|].
  split; [vm_compute; reflexivity|]. split; [vm_compute; reflexivity|].
  eapply (compare_agrees_with_profile frame_a frame_b 30 _ "id" _ None None false false).
  - vm_compute; reflexivity.
  - vm_compute. left.
  - vm_compute; reflexivity.
  - vm_compute; reflexivity.
Defined.

Lemma dtype_differences_spec_witness :
  ∃ r, compare frame_a frame_b 30 = Ok r ∧
       ("score", ("float64", "object")) ∈ cmp_dtype_differences r.
Proof.
  eexists. split; [vm_compute; reflexivity|].
  apply (dtype_differences_spec frame_a frame_b 30); [vm_compute; reflexivity|].
  split; [vm_compute; right; left|].
  eexists _, _. split; [vm_compute; reflexivity|]. split; [vm_compute; reflexivity|].
  done.
Defined.

Lemma compare_self_witness :
  ∃ r, compare frame_b frame_b 30 = Ok r ∧
       cmp_columns_only_in_df1 r = [] ∧ cmp_dtype_differences r = [].
Proof.
  eexists. split; [vm_compute; reflexivity|].
  edestruct (compare_self frame_b 30) as (H1 & _ & H3 & _); [vm_compute; reflexivity|].
  split; [exact H1 | exact H3].
Defined.

Lemma compare_column_tables_witness :
  ∃ r cc, compare frame_a frame_b 30 = Ok r ∧
          ("score", cc) ∈ cmp_variable_comparison r ∧
          ∃ top1 top2, cs_kind (cc_stats cc) = CategoricalStats top1 top2 ∧
                       length top1 ≤ 5.
Proof.
  assert (∃ r, compare frame_a frame_b 30 = Ok r) as [r Hr]
    by (eexists; vm_compute; reflexivity).
  assert (∃ cc, ("score", cc) ∈ cmp_variable_comparison r) as [cc Hcc].
  { vm_compute in Hr. injection Hr as <-. eexists. vm_compute. right. left. }
  assert (∃ s1, getitem frame_a "score" = Ok s1) as [s1 H1]
    by (eexists; vm_compute; reflexivity).
  assert (∃ s2, getitem frame_b "score" = Ok s2) as [s2 H2]
    by (eexists; vm_compute; reflexivity).
  destruct (compare_column_tables _ _ _ _ _ _ _ _ Hr Hcc H1 H2)
    as (top1 & top2 & tbl1 & tbl2 & Hkind & _ & (Hlen & _) & _).
  { vm_compute in H1, H2. injection H1 as <-. injection H2 as <-. reflexivity. }
  exists r, cc. split; [exact Hr|]. split; [exact Hcc|]. eauto.
Defined.

(** ** Export and rendered report *)

Section export_report.
Context {L : Library}.

(** X15: when both are produced for the same frame and target, the
    structured export and the rendered report agree: the same columns in
    the same order, each with the same type, counts, percentages and
    statistics, and the same totals of rows, columns, missing cells and
    duplicate rows (where the export has those sections). *)
Theorem export_agrees_with_report df target inc exc inc' exc' d ctx :
  profile df target json inc exc = Ok (JsonReport d) →
  profile df target html inc' exc' = Ok (HtmlReport ctx) →
  jd_variables d = prod_map id json_of_var_stats <$> ctx_variables ctx ∧
  jd_n_obs d = ctx_n_obs ctx ∧ jd_n_vars d = ctx_n_vars ctx ∧
  jd_shape_rows d = ov_rows (ctx_overview ctx) ∧
  jd_shape_columns d = ov_columns (ctx_overview ctx) ∧
  (∀ m, jd_missing_values d = Some m →
        total_missing m = ctx_n_missing ctx ∧
        total_missing m = ov_missing_cells (ctx_overview ctx)) ∧
  (∀ u, jd_duplicates d = Some u →
        total_duplicates u = ctx_n_duplicates ctx ∧
        total_duplicates u = ov_duplicate_rows (ctx_overview ctx)).
Proof.
  intros Hd%profile_json_Ok Hctx.
  destruct (_prepare_json_data_Ok _ _ _ _ _ Hd) as (Hrows & Hcols & Hobs & Hnv & _).
  apply _prepare_json_data_variables in Hd as (vl & Hvl & -> & Hm & Hu).
  revert Hctx. unfold profile.
  destruct (decide (MAX_ROWS < _)%Z); [done|].
  destruct (decide (MAX_COLS < _)%Z); [done|].
  change (bool_decide (html = pdf)) with false. rewrite Hvl.
  intros (ov & Hov & (vl' & [= <-] & H)%bind_Ok)%bind_Ok.
  apply bind_Ok in H as (sp & _ & H). apply bind_Ok in H as (dn & _ & H).
  apply bind_Ok in H as (dob & _ & H). apply bind_Ok in H as (mp & _ & H).
  apply bind_Ok in H as (dp & _ & H). injection H as <-. simpl.
  unfold _calculate_overview_stats in Hov.
  apply bind_Ok in Hov as (x1 & _ & (x2 & _ & [= <-])%bind_Ok). simpl.
  split; [by rewrite <- list_fmap_compose|].
  repeat split; try done.
  - by apply Hm.
  - by apply Hm.
  - by apply Hu.
  - by apply Hu.
Qed.

End export_report.

Lemma export_agrees_with_report_witness :
  ∃ d ctx,
    profile people (Some "target") json None None = Ok (JsonReport d) ∧
    profile people (Some "target") html None None = Ok (HtmlReport ctx) ∧
    jd_variables d = prod_map id json_of_var_stats <$> ctx_variables ctx.
Proof.
  eexists _, _. split; [vm_compute; reflexivity|]. split; [vm_compute; reflexivity|].
  eapply (export_agrees_with_report people (Some "target") None None None None).
  - vm_compute; reflexivity.
  - vm_compute; reflexivity.
Defined.

(** ** Input given as a path *)

Lemma list_ascii_of_string_app (a b : string) :
  String.list_ascii_of_string (a +:+ b) = String.list_ascii_of_string a ++ String.list_ascii_of_string b.
Proof. induction a as [|c a IH]; simpl; [done|]. by rewrite <- IH. Qed.

Lemma endswith_spec (s suffix : string) :
  endswith s suffix = true ↔ ∃ stem, s = stem +:+ suffix.
Proof.
  unfold endswith. rewrite bool_decide_eq_true. split.
  - intros [k Hk]. exists (String.string_of_list_ascii k).
    rewrite <- (String.string_of_list_ascii_of_string s), Hk.
    rewrite <- (String.string_of_list_ascii_of_string
                  (String.string_of_list_ascii k +:+ suffix)).
    by rewrite list_ascii_of_string_app, String.list_ascii_of_string_of_list_ascii.
  - intros [stem ->]. exists (String.list_ascii_of_string stem).
    apply list_ascii_of_string_app.
Qed.

Lemma parquet_not_csv (stem : string) : endswith (stem +:+ ".parquet") ".csv" = false.
Proof.
  unfold endswith. apply bool_decide_eq_false. intros Hcsv.
  assert (String.list_ascii_of_string ".parquet"
          `suffix_of` String.list_ascii_of_string (stem +:+ ".parquet")) as Hpq
    by (rewrite list_ascii_of_string_app; by apply suffix_app_r).
  destruct (suffix_weak_total _ _ _ Hcsv Hpq) as [H|H];
    revert H; apply (bool_decide_eq_false_1 _); vm_compute; reflexivity.
Qed.

Section input.
Context {L : Library}.

(** X16: how the entry point takes its input.  A frame is profiled as it
    is.  A path ending in ".csv" is read as CSV and one ending in ".parquet"
    as Parquet, and the frame read is profiled (a reader's fault is passed
    on).  Any other path raises ValueError before anything is read and
    before the size guard; the test is an exact, case-sensitive suffix
    test. *)
Theorem profile_input_dispatch read_csv read_parquet target fmt inc exc :
  let run := profile_input read_csv read_parquet in
  (∀ frame, run (inl frame) target fmt inc exc = profile frame target fmt inc exc) ∧
  (∀ stem, run (inr (stem +:+ ".csv")) target fmt inc exc
           = read_csv (stem +:+ ".csv") ≫= λ frame, profile frame target fmt inc exc) ∧
  (∀ stem, run (inr (stem +:+ ".parquet")) target fmt inc exc
           = read_parquet (stem +:+ ".parquet")
             ≫= λ frame, profile frame target fmt inc exc) ∧
  (∀ path, (∀ stem, path ≠ stem +:+ ".csv") → (∀ stem, path ≠ stem +:+ ".parquet") →
           run (inr path) target fmt inc exc
           = Raise (ValueError "Input file must be CSV or Parquet format")).
Proof.
  cbv zeta. unfold profile_input, load. split; [done|]. split; [|split].
  - intros stem. rewrite (proj2 (endswith_spec _ ".csv")); [done | by exists stem].
  - intros stem. rewrite parquet_not_csv.
    rewrite (proj2 (endswith_spec _ ".parquet")); [done | by exists stem].
  - intros path Hcsv Hpq.
    destruct (endswith path ".csv") eqn:H1.
    { apply endswith_spec in H1 as [stem ->]. by destruct (Hcsv stem). }
    destruct (endswith path ".parquet") eqn:H2; [|done].
    apply endswith_spec in H2 as [stem ->]. by destruct (Hpq stem).
Qed.

End input.

Lemma profile_input_dispatch_witness :
  profile_input (λ _, Ok people) (λ _, Ok people) (inr "data.CSV")
                None json None None
  = Raise (ValueError "Input file must be CSV or Parquet format").
Proof.
  apply (profile_input_dispatch (λ _, Ok people) (λ _, Ok people) None json None None).
  - intros stem Heq.
    assert (endswith "data.CSV" ".csv" = true) as H
      by (apply endswith_spec; by exists stem).
    vm_compute in H. discriminate H.
  - intros stem Heq.
    assert (endswith "data.CSV" ".parquet" = true) as H
      by (apply endswith_spec; by exists stem).
    vm_compute in H. discriminate H.
Defined.

(** ** Target analysis and missing values of the export *)

Lemma NoDup_name_eq df s s' :
  NoDup (columns df) → s ∈ series_of df → s' ∈ series_of df →
  name s = name s' → s = s'.
Proof.
  unfold columns. intros Hnd Hs Hs' Hname.
  apply list_elem_of_lookup in Hs as [i Hi]. apply list_elem_of_lookup in Hs' as [j Hj].
  assert (i = j) as ->.
  { eapply NoDup_lookup; [exact Hnd| |].
    - by rewrite list_lookup_fmap, Hi.
    - by rewrite list_lookup_fmap, Hj, Hname. }
  congruence.
Qed.

Lemma is_int64_float64_numeric d :
  is_int64_float64 d = true → is_numeric_dtype d = true.
Proof. by destruct d. Qed.

Section target_analysis.
Context {L : Library}.

Lemma _prepare_json_data_target df target inc exc d ta :
  _prepare_json_data df target inc exc = Ok d →
  jd_target_analysis d = Some ta →
  ∃ t, target = Some t ∧ t ≠ "" ∧ target_analysis_block df t = Ok ta.
Proof.
  unfold _prepare_json_data.
  intros (vars & _ & (mv & _ & (du & _ & (ta' & Hta & [= <-]
    )%bind_Ok)%bind_Ok)%bind_Ok)%bind_Ok. simpl. intros ->.
  unfold target_present, truthy in Hta. destruct target as [t|]; [|done].
  simpl in Hta. destruct (bool_decide (t = "")) eqn:Ht; [done|].
  apply bool_decide_eq_false in Ht. simpl in Hta.
  destruct (bool_decide (t ∈ columns df)); [|done].
  apply fmap_Ok in Hta as (ta' & Hta & [= ->]). by exists t.
Qed.

Lemma imap_fst_name {B} (f : nat → Series → B) (l : list Series) :
  (imap (λ i s, (name s, f i s)) l).*1 = name <$> l.
Proof.
  revert f. induction l as [|s l IH]; intros f; [done|].
  simpl. f_equal. apply (IH (f ∘ S)).
Qed.

(** X17: the target analysis of the export, on a frame with unique column
    labels.  It names the target and its dtype; the target is never among
    its own features, and every scored feature is a numeric column of the
    frame.  For a numeric target the features are all other numeric
    columns; for any other target they are the int64 and float64 columns. *)
Theorem target_analysis_features df target inc exc d ta :
  NoDup (columns df) →
  _prepare_json_data df target inc exc = Ok d →
  jd_target_analysis d = Some ta →
  ∃ ts,
    target = Some (target_name ta) ∧ getitem df (target_name ta) = Ok ts ∧
    target_type ta = dtype_str (dtype_of ts) ∧
    (target_name ta ∉ (feature_importance ta).*1) ∧
    (∀ c, c ∈ (feature_importance ta).*1 →
          ∃ s, getitem df c = Ok s ∧ is_numeric_dtype (dtype_of s) = true) ∧
    (feature_importance ta).*1 =
      if is_numeric_dtype (dtype_of ts)
      then name <$> filter (λ s, name s ≠ target_name ta
                                 ∧ is_numeric_dtype (dtype_of s) = true)
                           (series_of df)
      else numeric_cols df.
Proof.
  intros Hnd Hd Hta.
  destruct (_prepare_json_data_target _ _ _ _ _ _ Hd Hta) as (t & -> & Hne & Hblock).
  unfold target_analysis_block in Hblock.
  apply bind_Ok in Hblock as (ts & Hts & (fi & Hfi & [= <-])%bind_Ok). simpl.
  exists ts. split; [done|]. split; [done|]. split; [done|].
  pose proof (getitem_Ok _ _ _ Hts) as [Hin Hname].
  assert (∀ c s, s ∈ series_of df → name s = c → getitem df c = Ok s) as Hget.
  { intros c s Hs <-.
    destruct (getitem_elem_of df (name s)) as [s' Hs'].
    { unfold columns. apply list_elem_of_fmap. eauto. }
    rewrite Hs'. f_equal. apply getitem_Ok in Hs' as [Hs'in Hs'name].
    by eapply NoDup_name_eq. }
  destruct (is_numeric_dtype (dtype_of ts)) eqn:Hnum.
  - injection Hfi as <-. rewrite <- list_fmap_compose.
    split; [|split; [|done]].
    + intros (s & Hs & [[Hns _] _]%list_elem_of_filter)%list_elem_of_fmap.
      simpl in Hs. by destruct Hns.
    + intros c (s & -> & [[_ Hsn] Hsin]%list_elem_of_filter)%list_elem_of_fmap.
      simpl. exists s. split; [by apply Hget | done].
  - assert (fi.*1 = numeric_cols df) as ->.
    { cbv zeta in Hfi. unfold numeric_cols. case_decide as Hlen.
      - apply bind_Ok in Hfi as ([] & _ & [= <-]). apply imap_fst_name.
      - injection Hfi as <-. destruct (filter _ _); [done | simpl in Hlen; lia]. }
    split; [|split; [|done]].
    + intros (s & Hsn & [Hsd Hs]%list_elem_of_filter)%list_elem_of_fmap.
      assert (s = ts) as -> by (eapply NoDup_name_eq; [done..|congruence]).
      apply is_int64_float64_numeric in Hsd. congruence.
    + intros c (s & -> & [Hsd Hs]%list_elem_of_filter)%list_elem_of_fmap.
      exists s. split; [by apply Hget | by apply is_int64_float64_numeric].
Qed.

End target_analysis.

Lemma target_analysis_features_witness :
  ∃ d ta, _prepare_json_data people (Some "target") None None = Ok d ∧
          jd_target_analysis d = Some ta ∧
          (target_name ta ∉ (feature_importance ta).*1).
Proof.
  assert (NoDup (columns people)) as Hnd
    by (apply (bool_decide_unpack (NoDup (columns people))); vm_compute; exact I).
  eexists _, _. split; [vm_compute; reflexivity|]. split; [vm_compute; reflexivity|].
  edestruct (target_analysis_features people (Some "target") None None)
    as (ts & _ & _ & _ & Hnot & _);
    [exact Hnd | vm_compute; reflexivity | vm_compute; reflexivity |].
  exact Hnot.
Defined.

Lemma missing_cells_zero_iff df :
  missing_cells_of df = 0 ↔ columns_with_missing df = 0.
Proof.
  unfold missing_cells_of, columns_with_missing.
  induction (series_of df) as [|s l IH]; [done|].
  rewrite fmap_cons. simpl. destruct (isna_sum (cells s)) as [|k] eqn:Hk.
  - rewrite filter_cons_False by (rewrite Hk; lia). simpl. exact IH.
  - rewrite filter_cons_True by (rewrite Hk; lia). simpl. lia.
Qed.

Lemma columns_with_missing_le df : columns_with_missing df ≤ ncols df.
Proof.
  unfold columns_with_missing, ncols, columns. rewrite length_fmap.
  apply length_filter.
Qed.

Section missing_values.
Context {L : Library}.

(** X18: the missing-values section of the export is consistent: its
    total is the number of missing cells of the whole frame (target
    included), the number of variables with missing cells is at most the
    number of columns and is zero exactly when the total is zero; on a
    well-formed frame with rows and columns the total is at most rows times
    columns and the percentage is a finite share between 0 and 100. *)
Theorem missing_values_section df target inc exc d m :
  _prepare_json_data df target inc exc = Ok d →
  jd_missing_values d = Some m →
  total_missing m = missing_cells_of df ∧
  variables_with_missing m ≤ jd_n_vars d ∧
  (total_missing m = 0 ↔ variables_with_missing m = 0) ∧
  (wf_df df → 0 < nrows df → 0 < ncols df →
     total_missing m ≤ jd_n_obs d * jd_n_vars d ∧
     ∃ q, missing_percentage m = Fin q ∧ (0 <= q)%Q ∧ (q <= 100)%Q).
Proof.
  unfold _prepare_json_data.
  intros (vars & _ & (mv & Hmv & (du & _ & (ta & _ & [= <-]
    )%bind_Ok)%bind_Ok)%bind_Ok)%bind_Ok. simpl. intros ->.
  destruct (section_requested "missing_values" inc exc); [|done].
  apply bind_Ok in Hmv as (p & Hp & [= <-]). simpl.
  split; [done|]. split; [apply columns_with_missing_le|].
  split; [apply missing_cells_zero_iff|].
  intros Hwf Hr Hc. pose proof (missing_cells_le df Hwf) as Hle.
  split; [done|].
  rewrite pct_value in Hp by (unfold df_size; nia). injection Hp as <-.
  eexists. split; [done|]. apply share_bounds; [unfold df_size; nia | done].
Qed.

End missing_values.

Lemma missing_values_section_witness :
  ∃ d m, _prepare_json_data people (Some "target") None None = Ok d ∧
         jd_missing_values d = Some m ∧
         total_missing m = 1 ∧ variables_with_missing m ≤ 3.
Proof.
  eexists _, _. split; [vm_compute; reflexivity|]. split; [vm_compute; reflexivity|].
  edestruct (missing_values_section people (Some "target") None None)
    as (Ht & Hv & _); [vm_compute; reflexivity | vm_compute; reflexivity |].
  split; [exact Ht | exact Hv].
Defined.

(** ** Entry point on a frame without rows *)

Section entry_no_rows.
Context {L : Library}.

Lemma _analyze_variable_no_rows df column target static :
  wf_df df → nrows df = 0 → column ∈ columns df →
  _analyze_variable df column target static = Raise ZeroDivisionError.
Proof.
  intros Hwf Hn [s Hs]%getitem_elem_of.
  unfold _analyze_variable. rewrite Hs.
  apply getitem_Ok in Hs as [Hs _].
  unfold mbind at 1, result_bind at 1.
  by rewrite (cells_no_rows df s Hwf Hn Hs).
Qed.

(** When the target is the only column, no other column is left to score. *)
Lemma target_analysis_only_target df target :
  NoDup (columns df) → profiled_columns df target = [] →
  target_present df target = true →
  ∃ ta, target_analysis_block df (default "" target) = Ok ta.
Proof.
  intros Hnd Hnil Hpresent.
  pose proof Hpresent as (t & -> & Hne & Hin)%target_present_spec. simpl.
  destruct (getitem_elem_of df t Hin) as [ts Hts].
  apply (target_analysis_produces df t ts Hts). intros Hnum Hcols. destruct Hcols.
  unfold numeric_cols.
  destruct (filter _ _) as [|s l] eqn:Hf; [done|].
  assert (s ∈ filter (λ s, is_int64_float64 (dtype_of s) = true) (series_of df)) as Hs
    by (rewrite Hf; left).
  apply list_elem_of_filter in Hs as [Hd Hs].
  assert (name s ∈ columns df) as Hcol by (apply list_elem_of_fmap; eauto).
  destruct (is_target (Some t) (name s)) eqn:Ht.
  - apply is_target_true in Ht as [[= Hname] _].
    apply getitem_Ok in Hts as [Hts Htname].
    assert (s = ts) as -> by (eapply NoDup_name_eq; [done..|congruence]).
    apply is_int64_float64_numeric in Hd. congruence.
  - assert (name s ∈ profiled_columns df (Some t)) as Hp
      by (by apply elem_of_profiled_columns).
    rewrite Hnil in Hp. by apply elem_of_nil in Hp.
Qed.

(** X19: on a well-formed frame without rows that is within the size
    limits, the entry point raises the division fault in every output
    format as soon as there is a column to profile; with no such column
    (only the target, or no column at all) the structured export is still
    produced, with no entry in the per-column map. *)
Theorem profile_no_rows df target fmt inc exc :
  wf_df df → nrows df = 0 → (Z.of_nat (ncols df) ≤ 1000)%Z →
  (profiled_columns df target ≠ [] →
     profile df target fmt inc exc = Raise ZeroDivisionError) ∧
  (profiled_columns df target = [] →
     ∃ d, profile df target json inc exc = Ok (JsonReport d) ∧ jd_variables d = []).
Proof.
  intros Hwf Hn Hc. unfold profile. rewrite Hn.
  split.
  - rewrite decide_False by (unfold MAX_ROWS; lia).
    rewrite decide_False by (unfold MAX_COLS; lia).
    intros Hne.
    destruct (profiled_columns df target) as [|c l] eqn:Hpc; [done|].
    assert (c ∈ columns df) as Hcin.
    { apply (elem_of_profiled_columns df target). rewrite Hpc. left. }
    pose proof (λ static, _analyze_variable_no_rows df c target static Hwf Hn Hcin)
      as Hraise.
    destruct fmt.
    + destruct (_calculate_overview_stats_total df) as [ov ->].
      simpl. rewrite Hraise. reflexivity.
    + destruct (_calculate_overview_stats_total df) as [ov ->].
      simpl. rewrite Hraise. reflexivity.
    + unfold _prepare_json_data. rewrite Hpc. simpl. rewrite Hraise. reflexivity.
  - rewrite decide_False by (unfold MAX_ROWS; lia).
    rewrite decide_False by (unfold MAX_COLS; lia).
    intros Hnil.
    destruct (_prepare_json_data_produces df target inc exc) as [d Hd].
    { intros c Hc'. rewrite Hnil in Hc'. by apply elem_of_nil in Hc'. }
    { apply target_analysis_only_target; [by destruct Hwf | done]. }
    exists d. rewrite Hd. split; [reflexivity|].
    apply _prepare_json_data_Ok in Hd as (_ & _ & _ & _ & Hk & _).
    rewrite Hnil in Hk. by apply fmap_nil_inv in Hk.
Qed.

End entry_no_rows.

Lemma profile_no_rows_witness :
  profile no_rows None pdf None None = Raise ZeroDivisionError.
Proof.
  assert (wf_df no_rows) as Hwf.
  { split; [apply NoDup_singleton | by repeat constructor]. }
  apply (profile_no_rows no_rows None pdf None None Hwf eq_refl);
    [vm_compute; discriminate | vm_compute; discriminate].
Defined.
